(** * CoachMate API: timetable scheduling and conflict resolution

    A shallow embedding of the route handlers that read and write the
    [timetable] table:

    - [timetable.routes.ts]           (GET /, GET /classes/:classId,
                                       POST /classes/:classId, GET /:id,
                                       PUT /:id, DELETE /:id)
    - [teacher-schedule.routes.ts]    (GET /:id/schedules, POST /:id/schedules,
                                       PUT /:id, DELETE /:id,
                                       POST /conflicts/check)
    - [teacher-assignment.routes.ts]  (POST /:id/teachers,
                                       PUT /:id/teachers/:teacherId,
                                       DELETE /:id/teachers/:teacherId)

    The database is a record of tables, each table a list of rows in
    insertion order.  A handler is a computation in a small state-and-error
    monad: every [await prisma...] is one step, a [throw] aborts the handler
    and keeps the store as it is at that point, because none of these
    handlers opens a transaction. *)

From Stdlib Require Import List String Ascii Bool Arith NArith Lia.
Import ListNotations.
Local Open Scope string_scope.
Local Open Scope list_scope.

Set Implicit Arguments.

(* ================================================================== *)
(** ** Lexicographic order on strings

    Times are stored as ["HH:MM"] strings and compared as strings, both by
    JavaScript ([data.startTime >= data.endTime]) and by the database
    ([lte], [lt], [gte], [gt] filters on a text column). *)

Module StrOrd.

Definition lt (a b : string) : bool := String.ltb a b.
Definition le (a b : string) : bool := String.leb a b.
Definition gt (a b : string) : bool := lt b a.
Definition ge (a b : string) : bool := le b a.

Lemma ascii_compare_refl (a : ascii) : Ascii.compare a a = Eq.
Proof. unfold Ascii.compare. apply N.compare_refl. Qed.

Lemma ascii_compare_lt_trans (a b c : ascii) :
  Ascii.compare a b = Lt -> Ascii.compare b c = Lt -> Ascii.compare a c = Lt.
Proof.
  unfold Ascii.compare. rewrite !N.compare_lt_iff. apply N.lt_trans.
Qed.

Lemma compare_refl (s : string) : String.compare s s = Eq.
Proof.
  induction s as [|a s IH]; simpl; [reflexivity|].
  now rewrite ascii_compare_refl.
Qed.

Lemma compare_lt_trans (s1 : string) :
  forall s2 s3,
    String.compare s1 s2 = Lt -> String.compare s2 s3 = Lt ->
    String.compare s1 s3 = Lt.
Proof.
  induction s1 as [|a s1 IH]; intros [|b s2] [|c s3]; simpl;
    try discriminate; auto.
  destruct (Ascii.compare a b) eqn:Hab; try discriminate;
    destruct (Ascii.compare b c) eqn:Hbc; try discriminate; intros H1 H2.
  - apply Ascii.compare_eq_iff in Hab, Hbc. subst.
    rewrite ascii_compare_refl. eauto.
  - apply Ascii.compare_eq_iff in Hab. subst. now rewrite Hbc.
  - apply Ascii.compare_eq_iff in Hbc. subst. now rewrite Hab.
  - now rewrite (ascii_compare_lt_trans _ _ _ Hab Hbc).
Qed.

Lemma compare_gt_lt (a b : string) :
  String.compare a b = Gt <-> String.compare b a = Lt.
Proof.
  rewrite (String.compare_antisym a b).
  destruct (String.compare b a); simpl; split; congruence.
Qed.

(** The three-way view of a comparison, in terms of [lt] and equality. *)
Inductive Cmp (a b : string) : Prop :=
| CmpLt : lt a b = true -> lt b a = false -> a <> b -> Cmp a b
| CmpEq : a = b -> Cmp a b
| CmpGt : lt b a = true -> lt a b = false -> a <> b -> Cmp a b.

Lemma lt_irrefl (a : string) : lt a a = false.
Proof. unfold lt, String.ltb. now rewrite compare_refl. Qed.

Lemma cmp (a b : string) : Cmp a b.
Proof.
  destruct (String.compare a b) eqn:E.
  - apply CmpEq. now apply String.compare_eq_iff.
  - apply CmpLt.
    + unfold lt, String.ltb. now rewrite E.
    + unfold lt, String.ltb. rewrite String.compare_antisym, E. reflexivity.
    + intros ->. rewrite compare_refl in E. discriminate.
  - apply CmpGt.
    + unfold lt, String.ltb. apply compare_gt_lt in E. now rewrite E.
    + unfold lt, String.ltb. now rewrite E.
    + intros ->. rewrite compare_refl in E. discriminate.
Qed.

Lemma lt_trans (a b c : string) :
  lt a b = true -> lt b c = true -> lt a c = true.
Proof.
  unfold lt, String.ltb.
  destruct (String.compare a b) eqn:Hab; try discriminate.
  destruct (String.compare b c) eqn:Hbc; try discriminate.
  intros _ _. now rewrite (compare_lt_trans _ _ _ Hab Hbc).
Qed.

Lemma lt_asym (a b : string) : lt a b = true -> lt b a = false.
Proof.
  intros H. destruct (cmp a b) as [_ H1 _| -> |H1 H2 _]; auto.
  - apply lt_irrefl.
  - congruence.
Qed.

Lemma le_nlt (a b : string) : le a b = negb (lt b a).
Proof.
  unfold le, lt, String.leb, String.ltb.
  rewrite (String.compare_antisym a b).
  destruct (String.compare b a); reflexivity.
Qed.

Lemma ge_nlt (a b : string) : ge a b = negb (lt a b).
Proof. unfold ge. apply le_nlt. Qed.

Lemma gt_lt (a b : string) : gt a b = lt b a.
Proof. reflexivity. Qed.

End StrOrd.

(** [order_cases a b] splits on the comparison of two strings and rewrites
    every [lt] between them. *)
Ltac order_cases a b :=
  let H1 := fresh "Hlt" in
  let H2 := fresh "Hnlt" in
  let H3 := fresh "Hne" in
  destruct (StrOrd.cmp a b) as [H1 H2 H3|H1|H1 H2 H3];
  [ rewrite ?H1, ?H2 in * | subst; rewrite ?StrOrd.lt_irrefl in * | rewrite ?H1, ?H2 in * ].

(* ================================================================== *)
(** ** Request validation (zod schemas) *)

Module Zod.

Definition digit (c : ascii) : bool :=
  (N.leb 48 (N_of_ascii c)) && (N.leb (N_of_ascii c) 57).

Definition between (lo hi : ascii) (c : ascii) : bool :=
  (N.leb (N_of_ascii lo) (N_of_ascii c)) && (N.leb (N_of_ascii c) (N_of_ascii hi)).

Definition hex (c : ascii) : bool :=
  digit c || between "a" "f" c || between "A" "F" c.

Definition chr (k : ascii) (c : ascii) : bool := Ascii.eqb k c.

(** A string matches a sequence of character classes, anchored at both
    ends. *)
Fixpoint matches (pat : list (ascii -> bool)) (s : string) : bool :=
  match pat, s with
  | [], EmptyString => true
  | p :: pat', String c s' => p c && matches pat' s'
  | _, _ => false
  end.

(** [z.string().uuid()]: five groups of 8, 4, 4, 4 and 12 hexadecimal
    digits. *)
Definition uuid (s : string) : bool :=
  matches (repeat hex 8 ++ [chr "-"] ++ repeat hex 4 ++ [chr "-"] ++
           repeat hex 4 ++ [chr "-"] ++ repeat hex 4 ++ [chr "-"] ++
           repeat hex 12) s.

(** [/^([01]\d|2[0-3]):([0-5]\d)$/] *)
Definition time (s : string) : bool :=
  matches [between "0" "1"; digit; chr ":"; between "0" "5"; digit] s
  || matches [chr "2"; between "0" "3"; chr ":"; between "0" "5"; digit] s.

End Zod.

(* ================================================================== *)
(** ** Data model *)

Inductive DayOfWeek :=
| MONDAY | TUESDAY | WEDNESDAY | THURSDAY | FRIDAY | SATURDAY | SUNDAY.

Module Day.

Definition eqb (a b : DayOfWeek) : bool :=
  match a, b with
  | MONDAY, MONDAY | TUESDAY, TUESDAY | WEDNESDAY, WEDNESDAY
  | THURSDAY, THURSDAY | FRIDAY, FRIDAY | SATURDAY, SATURDAY
  | SUNDAY, SUNDAY => true
  | _, _ => false
  end.

Lemma eqb_eq (a b : DayOfWeek) : eqb a b = true <-> a = b.
Proof. destruct a, b; simpl; split; congruence. Qed.

Lemma eqb_refl (a : DayOfWeek) : eqb a a = true.
Proof. now destruct a. Qed.

(** [z.enum(['MONDAY', ..., 'SUNDAY'])] *)
Definition parse (s : string) : option DayOfWeek :=
  if s =? "MONDAY" then Some MONDAY
  else if s =? "TUESDAY" then Some TUESDAY
  else if s =? "WEDNESDAY" then Some WEDNESDAY
  else if s =? "THURSDAY" then Some THURSDAY
  else if s =? "FRIDAY" then Some FRIDAY
  else if s =? "SATURDAY" then Some SATURDAY
  else if s =? "SUNDAY" then Some SUNDAY
  else None.

(** Position in the enumeration, the sort key of [orderBy: dayOfWeek]. *)
Definition index (d : DayOfWeek) : nat :=
  match d with
  | MONDAY => 0 | TUESDAY => 1 | WEDNESDAY => 2 | THURSDAY => 3
  | FRIDAY => 4 | SATURDAY => 5 | SUNDAY => 6
  end.

End Day.

Module User.
Record t := mk {
  id : string;
  instituteId : string;
  role : string;
  isActive : bool
}.
End User.

Module Class.
Record t := mk {
  id : string;
  instituteId : string;
  name : string
}.
End Class.

Module Subject.
Record t := mk {
  id : string;
  instituteId : string;
  name : string
}.
End Subject.

Module TeacherSubject.
Record t := mk {
  teacherId : string;
  subjectId : string
}.
End TeacherSubject.

Module Timetable.
Record t := mk {
  id : string;
  classId : string;
  subjectId : string;
  teacherId : string;
  dayOfWeek : DayOfWeek;
  startTime : string;
  endTime : string;
  room : option string;
  isPrimary : bool;
  isActive : bool
}.

Definition with_isPrimary (b : bool) (r : t) : t :=
  mk (id r) (classId r) (subjectId r) (teacherId r) (dayOfWeek r)
     (startTime r) (endTime r) (room r) b (isActive r).
End Timetable.

(** The tables the timetable handlers touch. *)
Record Db := mkDb {
  users : list User.t;
  classes : list Class.t;
  subjects : list Subject.t;
  teacherSubjects : list TeacherSubject.t;
  timetables : list Timetable.t
}.

Definition set_timetables (f : list Timetable.t -> list Timetable.t) (db : Db) : Db :=
  mkDb (users db) (classes db) (subjects db) (teacherSubjects db)
       (f (timetables db)).

(* ================================================================== *)
(** ** Table operations (the Prisma client calls the handlers use) *)

Module Prisma.
Section Table.
Variable Row : Type.

Definition findFirst (where_ : Row -> bool) (table : list Row) : option Row :=
  find where_ table.

Definition findMany (where_ : Row -> bool) (table : list Row) : list Row :=
  filter where_ table.

Definition create (row : Row) (table : list Row) : list Row :=
  table ++ [row].

Definition updateMany (where_ : Row -> bool) (data : Row -> Row)
           (table : list Row) : list Row :=
  map (fun r => if where_ r then data r else r) table.

Definition deleteMany (where_ : Row -> bool) (table : list Row) : list Row :=
  filter (fun r => negb (where_ r)) table.
End Table.

(** [orderBy: [{ dayOfWeek: 'asc' }, { startTime: 'asc' }]] as a stable
    insertion sort. *)
Definition before (a b : Timetable.t) : bool :=
  Nat.ltb (Day.index (Timetable.dayOfWeek a)) (Day.index (Timetable.dayOfWeek b))
  || (Nat.eqb (Day.index (Timetable.dayOfWeek a)) (Day.index (Timetable.dayOfWeek b))
      && StrOrd.le (Timetable.startTime a) (Timetable.startTime b)).

Fixpoint insert (r : Timetable.t) (l : list Timetable.t) : list Timetable.t :=
  match l with
  | [] => [r]
  | x :: l' => if before r x then r :: l else x :: insert r l'
  end.

Definition orderByDayStart (l : list Timetable.t) : list Timetable.t :=
  fold_right insert [] l.
End Prisma.

(* ================================================================== *)
(** ** Errors and responses *)

(** The message of an [AppError], one constructor per message the modelled
    handlers throw. *)
Inductive Message :=
| Forbidden                     (* 'Forbidden: Insufficient permissions' *)
| ClassNotFound                 (* 'Class not found' *)
| SubjectNotFound               (* 'Subject not found' *)
| TeacherNotFound               (* 'Teacher not found' *)
| TeacherNotFoundOrInactive     (* 'Teacher not found or inactive' *)
| TeacherNotQualified           (* 'Teacher is not qualified to teach this subject' *)
| TeacherAlreadyScheduled       (* 'Teacher is already scheduled at this time' *)
| TimetableEntryExists          (* 'This timetable entry already exists' *)
| TimetableEntryNotFound        (* 'Timetable entry not found' *)
| EndTimeMustBeAfterStartTime   (* 'End time must be after start time' *)
| TimeConflictDetected (conflict : Timetable.t)
                                (* 'Time conflict detected: Teacher already has a class ...' *)
| ScheduleNotFound              (* 'Schedule not found' *)
| FieldsRequired                (* 'teacherId, dayOfWeek, startTime, and endTime are required' *)
| TeacherCannotTeach            (* 'Teacher cannot teach any subjects in this class ...' *)
| TeacherAlreadyAssigned        (* 'Teacher is already assigned to this class' *)
| TeacherAssignmentNotFound.    (* 'Teacher assignment not found' *)

Inductive Error :=
| AppError (statusCode : nat) (message : Message)
| ZodError                      (* the request body does not fit its schema *)
| PrismaError.                  (* the database rejected a write *)

(** The [data] of a JSON response; the rows are shown without the joined
    class, subject and teacher records of [include]. *)
Inductive Data :=
| Rows (rows : list Timetable.t)
| Row (row : Timetable.t)
| TeacherSchedules (teacherId : string) (schedules : list Timetable.t)
| ConflictCheck (hasConflict : bool) (conflicts : list Timetable.t)
| NoData.

Record Response := mkResponse { status : nat; data : Data }.

Inductive Result (A : Type) :=
| Ok (a : A)
| Err (e : Error).
Arguments Ok {A} a.
Arguments Err {A} e.

(* ================================================================== *)
(** ** The handler monad *)

(** What a request takes from its surroundings. *)
Record Env := mkEnv {
  (** the id the database generates for the row a [create] inserts *)
  uuid : string;
  (** column defaults of the [Timetable] model, used where a [create] leaves
      the column out (the Prisma schema is not part of the sources) *)
  default_isPrimary : bool;
  default_isActive : bool;
  (** whether [schema.partial()] still fills in [.default(...)] values
      (it does not in zod 3 and does in zod 4) *)
  partial_defaults : bool;
  (** the write, counted from 0 within the request, that the database
      rejects; [None] when every write goes through *)
  fault : option nat
}.

Record St := mkSt { st_db : Db; st_writes : nat }.

Definition M (A : Type) : Type := Env -> St -> St * Result A.

Definition ret {A} (a : A) : M A := fun _ st => (st, Ok a).

Definition bind {A B} (m : M A) (k : A -> M B) : M B :=
  fun env st =>
    match m env st with
    | (st', Ok a) => k a env st'
    | (st', Err e) => (st', Err e)
    end.

Definition throw {A} (e : Error) : M A := fun _ st => (st, Err e).

Definition ask : M Env := fun env st => (st, Ok env).

(** A read: [await prisma.<table>.find...]. *)
Definition query {A} (q : Db -> A) : M A := fun _ st => (st, Ok (q (st_db st))).

(** A write to the timetable table: [await prisma.timetable.create/update/
    updateMany/delete].  It takes effect at once; nothing undoes it when a
    later step of the same handler fails. *)
Definition write (w : list Timetable.t -> list Timetable.t) : M unit :=
  fun env st =>
    let n := st_writes st in
    match fault env with
    | Some k =>
        if Nat.eqb k n then (mkSt (st_db st) (S n), Err PrismaError)
        else (mkSt (set_timetables w (st_db st)) (S n), Ok tt)
    | None => (mkSt (set_timetables w (st_db st)) (S n), Ok tt)
    end.

Declare Scope handler_scope.
Delimit Scope handler_scope with handler.
Notation "x <- m ;; k" := (bind m (fun x => k))
  (at level 61, m at next level, right associativity) : handler_scope.
Notation "m ;; k" := (bind m (fun _ => k))
  (at level 61, right associativity) : handler_scope.
Local Open Scope handler_scope.

(** [if (!cond) throw e] *)
Definition ensure (cond : bool) (e : Error) : M unit :=
  if cond then ret tt else throw e.

Definition isSome {A} (o : option A) : bool :=
  match o with Some _ => true | None => false end.

(** [schema.parse(req.body)] *)
Definition parse {A} (parsed : option A) : M A :=
  match parsed with
  | Some a => ret a
  | None => throw ZodError
  end.

Definition run {A} (m : M A) (env : Env) (db : Db) : Db * Result A :=
  let (st, r) := m env (mkSt db 0) in (st_db st, r).

(** [authorize(...roles)] from [middleware/auth.ts]; [authenticate] has
    already put the caller in [req.user]. *)
Definition authorize (roles : list string) (user : User.t) : M unit :=
  ensure (existsb (String.eqb (User.role user)) roles) (AppError 403 Forbidden).

(* ================================================================== *)
(** ** Request bodies and their schemas *)

Definition required (check : string -> bool) (field : option string) : option string :=
  match field with
  | Some s => if check s then Some s else None
  | None => None
  end.

Definition optional {A B} (check : A -> option B) (field : option A) : option (option B) :=
  match field with
  | Some s => match check s with Some v => Some (Some v) | None => None end
  | None => Some None
  end.

Definition checked (check : string -> bool) (s : string) : option string :=
  if check s then Some s else None.

Definition requiredDay (field : option string) : option DayOfWeek :=
  match field with
  | Some s => Day.parse s
  | None => None
  end.

Definition orElse {A} (o : option A) (d : A) : A :=
  match o with Some a => a | None => d end.

Notation "'let?' x ':=' e 'in' k" :=
  (match e with Some x => k | None => None end)
  (at level 10, x name, e at level 100, k at level 200).

(** *** [timetable.routes.ts] *)

Module TimetableBody.
Record t := mk {
  classId : option string;
  subjectId : option string;
  teacherId : option string;
  dayOfWeek : option string;
  startTime : option string;
  endTime : option string;
  room : option string;
  isPrimary : option bool
}.
End TimetableBody.

Module TimetableInput.
Record t := mk {
  classId : string;
  subjectId : string;
  teacherId : string;
  dayOfWeek : DayOfWeek;
  startTime : string;
  endTime : string;
  room : option string;
  isPrimary : bool
}.
End TimetableInput.

Module TimetablePatch.
Record t := mk {
  classId : option string;
  subjectId : option string;
  teacherId : option string;
  dayOfWeek : option DayOfWeek;
  startTime : option string;
  endTime : option string;
  room : option string;
  isPrimary : option bool
}.

(** [data: { ...validated }] of [prisma.timetable.update] *)
Definition apply (p : t) (r : Timetable.t) : Timetable.t :=
  Timetable.mk (Timetable.id r)
    (orElse (classId p) (Timetable.classId r))
    (orElse (subjectId p) (Timetable.subjectId r))
    (orElse (teacherId p) (Timetable.teacherId r))
    (orElse (dayOfWeek p) (Timetable.dayOfWeek r))
    (orElse (startTime p) (Timetable.startTime r))
    (orElse (endTime p) (Timetable.endTime r))
    (match room p with Some x => Some x | None => Timetable.room r end)
    (orElse (isPrimary p) (Timetable.isPrimary r))
    (Timetable.isActive r).
End TimetablePatch.

(** [createTimetableSchema] *)
Definition createTimetableSchema (b : TimetableBody.t) : option TimetableInput.t :=
  let? classId := required Zod.uuid (TimetableBody.classId b) in
  let? subjectId := required Zod.uuid (TimetableBody.subjectId b) in
  let? teacherId := required Zod.uuid (TimetableBody.teacherId b) in
  let? dayOfWeek := requiredDay (TimetableBody.dayOfWeek b) in
  let? startTime := required Zod.time (TimetableBody.startTime b) in
  let? endTime := required Zod.time (TimetableBody.endTime b) in
  Some (TimetableInput.mk classId subjectId teacherId dayOfWeek startTime endTime
          (TimetableBody.room b)
          (orElse (TimetableBody.isPrimary b) true)).

(** [updateTimetableSchema = createTimetableSchema.partial()] *)
Definition updateTimetableSchema (env : Env) (b : TimetableBody.t) : option TimetablePatch.t :=
  let? classId := optional (checked Zod.uuid) (TimetableBody.classId b) in
  let? subjectId := optional (checked Zod.uuid) (TimetableBody.subjectId b) in
  let? teacherId := optional (checked Zod.uuid) (TimetableBody.teacherId b) in
  let? dayOfWeek := optional Day.parse (TimetableBody.dayOfWeek b) in
  let? startTime := optional (checked Zod.time) (TimetableBody.startTime b) in
  let? endTime := optional (checked Zod.time) (TimetableBody.endTime b) in
  Some (TimetablePatch.mk classId subjectId teacherId dayOfWeek startTime endTime
          (TimetableBody.room b)
          (match TimetableBody.isPrimary b with
           | Some v => Some v
           | None => if partial_defaults env then Some true else None
           end)).

(** *** [teacher-schedule.routes.ts] *)

Module ScheduleBody.
Record t := mk {
  classId : option string;
  dayOfWeek : option string;
  startTime : option string;
  endTime : option string;
  room : option string
}.
End ScheduleBody.

Module ScheduleInput.
Record t := mk {
  classId : string;
  dayOfWeek : DayOfWeek;
  startTime : string;
  endTime : string;
  room : option string
}.
End ScheduleInput.

Module SchedulePatch.
Record t := mk {
  classId : option string;
  dayOfWeek : option DayOfWeek;
  startTime : option string;
  endTime : option string;
  room : option string
}.

(** [data] of [prisma.timetable.update] *)
Definition apply (p : t) (r : Timetable.t) : Timetable.t :=
  Timetable.mk (Timetable.id r)
    (orElse (classId p) (Timetable.classId r))
    (Timetable.subjectId r)
    (Timetable.teacherId r)
    (orElse (dayOfWeek p) (Timetable.dayOfWeek r))
    (orElse (startTime p) (Timetable.startTime r))
    (orElse (endTime p) (Timetable.endTime r))
    (match room p with Some x => Some x | None => Timetable.room r end)
    (Timetable.isPrimary r)
    (Timetable.isActive r).
End SchedulePatch.

(** [createScheduleSchema] *)
Definition createScheduleSchema (b : ScheduleBody.t) : option ScheduleInput.t :=
  let? classId := required Zod.uuid (ScheduleBody.classId b) in
  let? dayOfWeek := requiredDay (ScheduleBody.dayOfWeek b) in
  let? startTime := required Zod.time (ScheduleBody.startTime b) in
  let? endTime := required Zod.time (ScheduleBody.endTime b) in
  Some (ScheduleInput.mk classId dayOfWeek startTime endTime (ScheduleBody.room b)).

(** [updateScheduleSchema = createScheduleSchema.partial()] *)
Definition updateScheduleSchema (b : ScheduleBody.t) : option SchedulePatch.t :=
  let? classId := optional (checked Zod.uuid) (ScheduleBody.classId b) in
  let? dayOfWeek := optional Day.parse (ScheduleBody.dayOfWeek b) in
  let? startTime := optional (checked Zod.time) (ScheduleBody.startTime b) in
  let? endTime := optional (checked Zod.time) (ScheduleBody.endTime b) in
  Some (SchedulePatch.mk classId dayOfWeek startTime endTime (ScheduleBody.room b)).

(** The body of [POST /conflicts/check] is read from [req.body] as it is,
    without a schema.  [dayOfWeek] is given as a value of the enumeration:
    the database client refuses any other string. *)
Module CheckBody.
Record t := mk {
  teacherId : option string;
  dayOfWeek : option DayOfWeek;
  startTime : option string;
  endTime : option string;
  excludeScheduleId : option string
}.
End CheckBody.

(** JavaScript truthiness of an optional string: present and not empty. *)
Definition truthy (o : option string) : bool :=
  match o with
  | Some s => negb (s =? "")
  | None => false
  end.

(** *** [teacher-assignment.routes.ts] *)

(** [assignedAt] (an optional date-time the handler never reads) is left
    out. *)
Module AssignBody.
Record t := mk {
  teacherId : option string;
  isPrimary : option bool
}.
End AssignBody.

Module AssignInput.
Record t := mk {
  teacherId : string;
  isPrimary : bool
}.
End AssignInput.

(** [assignTeacherSchema] *)
Definition assignTeacherSchema (b : AssignBody.t) : option AssignInput.t :=
  let? teacherId := required Zod.uuid (AssignBody.teacherId b) in
  Some (AssignInput.mk teacherId (orElse (AssignBody.isPrimary b) false)).

(** [updateAssignmentSchema]: [{ isPrimary: z.boolean() }] *)
Definition updateAssignmentSchema (isPrimary : option bool) : option bool := isPrimary.

(* ================================================================== *)
(** ** Handlers of [timetable.routes.ts] *)

Definition whenSet {A} (param : option A) (test : A -> bool) : bool :=
  match param with
  | Some v => test v
  | None => true
  end.

Definition nonEmpty (param : option string) : option string :=
  if truthy param then param else None.

(** [GET /]: the [where] clause holds only the filters of the query
    string. *)
Definition getTimetables (user : User.t)
           (classId teacherId : option string) (dayOfWeek : option DayOfWeek)
  : M Response :=
  timetables <- query (fun db =>
    Prisma.orderByDayStart
      (Prisma.findMany
         (fun r =>
            whenSet (nonEmpty classId) (String.eqb (Timetable.classId r))
            && whenSet (nonEmpty teacherId) (String.eqb (Timetable.teacherId r))
            && whenSet dayOfWeek (Day.eqb (Timetable.dayOfWeek r)))
         (timetables db))) ;;
  ret (mkResponse 200 (Rows timetables)).

(** [GET /classes/:classId] *)
Definition getClassTimetable (classId : string) : M Response :=
  classItem <- query (fun db =>
    Prisma.findFirst (fun c => Class.id c =? classId) (classes db)) ;;
  ensure (isSome classItem) (AppError 404 ClassNotFound) ;;
  timetables <- query (fun db =>
    Prisma.orderByDayStart
      (Prisma.findMany (fun r => Timetable.classId r =? classId) (timetables db))) ;;
  ret (mkResponse 200 (Rows timetables)).

(** [POST /classes/:classId] *)
Definition postClassTimetable (user : User.t) (classId : string)
           (body : TimetableBody.t) : M Response :=
  authorize ["SUPER_ADMIN"; "ADMIN"] user ;;
  validated <- parse (createTimetableSchema body) ;;
  (* Verify class exists and belongs to institute *)
  classItem <- query (fun db =>
    Prisma.findFirst
      (fun c => (Class.id c =? classId)
                && (Class.instituteId c =? User.instituteId user))
      (classes db)) ;;
  ensure (isSome classItem) (AppError 404 ClassNotFound) ;;
  (* Verify subject exists and belongs to institute *)
  subject <- query (fun db =>
    Prisma.findFirst
      (fun s => (Subject.id s =? TimetableInput.subjectId validated)
                && (Subject.instituteId s =? User.instituteId user))
      (subjects db)) ;;
  ensure (isSome subject) (AppError 404 SubjectNotFound) ;;
  (* Verify teacher exists and belongs to institute *)
  teacher <- query (fun db =>
    Prisma.findFirst
      (fun u => (User.id u =? TimetableInput.teacherId validated)
                && (User.instituteId u =? User.instituteId user)
                && (User.role u =? "TEACHER"))
      (users db)) ;;
  ensure (isSome teacher) (AppError 404 TeacherNotFound) ;;
  (* Verify teacher is qualified to teach this subject *)
  qualification <- query (fun db =>
    Prisma.findFirst
      (fun q => (TeacherSubject.teacherId q =? TimetableInput.teacherId validated)
                && (TeacherSubject.subjectId q =? TimetableInput.subjectId validated))
      (teacherSubjects db)) ;;
  ensure (isSome qualification) (AppError 400 TeacherNotQualified) ;;
  (* Check for double-booking (teacher at same time) *)
  existingConflict <- query (fun db =>
    Prisma.findFirst
      (fun r => (Timetable.teacherId r =? TimetableInput.teacherId validated)
                && Day.eqb (Timetable.dayOfWeek r) (TimetableInput.dayOfWeek validated)
                && (Timetable.startTime r =? TimetableInput.startTime validated))
      (timetables db)) ;;
  ensure (negb (isSome existingConflict)) (AppError 409 TeacherAlreadyScheduled) ;;
  (* Check if this exact combination already exists *)
  existing <- query (fun db =>
    Prisma.findFirst
      (fun r => (Timetable.classId r =? TimetableInput.classId validated)
                && (Timetable.subjectId r =? TimetableInput.subjectId validated)
                && (Timetable.teacherId r =? TimetableInput.teacherId validated)
                && Day.eqb (Timetable.dayOfWeek r) (TimetableInput.dayOfWeek validated)
                && (Timetable.startTime r =? TimetableInput.startTime validated))
      (timetables db)) ;;
  ensure (negb (isSome existing)) (AppError 409 TimetableEntryExists) ;;
  env <- ask ;;
  let timetable :=
    Timetable.mk (uuid env)
      (TimetableInput.classId validated)
      (TimetableInput.subjectId validated)
      (TimetableInput.teacherId validated)
      (TimetableInput.dayOfWeek validated)
      (TimetableInput.startTime validated)
      (TimetableInput.endTime validated)
      (TimetableInput.room validated)
      (TimetableInput.isPrimary validated)
      true in
  write (Prisma.create timetable) ;;
  ret (mkResponse 201 (Row timetable)).

(** [GET /:id] *)
Definition getTimetable (id : string) : M Response :=
  timetable <- query (fun db =>
    Prisma.findFirst (fun r => Timetable.id r =? id) (timetables db)) ;;
  match timetable with
  | None => throw (AppError 404 TimetableEntryNotFound)
  | Some row => ret (mkResponse 200 (Row row))
  end.

(** [PUT /:id] *)
Definition putTimetable (user : User.t) (id : string) (body : TimetableBody.t)
  : M Response :=
  authorize ["SUPER_ADMIN"; "ADMIN"] user ;;
  env <- ask ;;
  validated <- parse (updateTimetableSchema env body) ;;
  (* Verify timetable exists *)
  found <- query (fun db =>
    Prisma.findFirst (fun r => Timetable.id r =? id) (timetables db)) ;;
  match found with
  | None => throw (AppError 404 TimetableEntryNotFound)
  | Some existing =>
      (* If changing teacher or subject, verify new teacher is qualified *)
      match TimetablePatch.teacherId validated, TimetablePatch.subjectId validated with
      | Some teacherId, Some subjectId =>
          qualification <- query (fun db =>
            Prisma.findFirst
              (fun q => (TeacherSubject.teacherId q =? teacherId)
                        && (TeacherSubject.subjectId q =? subjectId))
              (teacherSubjects db)) ;;
          ensure (isSome qualification) (AppError 400 TeacherNotQualified)
      | _, _ => ret tt
      end ;;
      (* If changing time, check for conflicts *)
      (if isSome (TimetablePatch.dayOfWeek validated)
          || isSome (TimetablePatch.startTime validated)
       then
         let dayOfWeek :=
           orElse (TimetablePatch.dayOfWeek validated) (Timetable.dayOfWeek existing) in
         let startTime :=
           orElse (TimetablePatch.startTime validated) (Timetable.startTime existing) in
         let teacherId :=
           orElse (TimetablePatch.teacherId validated) (Timetable.teacherId existing) in
         conflict <- query (fun db =>
           Prisma.findFirst
             (fun r => negb (Timetable.id r =? id)
                       && (Timetable.teacherId r =? teacherId)
                       && Day.eqb (Timetable.dayOfWeek r) dayOfWeek
                       && (Timetable.startTime r =? startTime))
             (timetables db)) ;;
         ensure (negb (isSome conflict)) (AppError 409 TeacherAlreadyScheduled)
       else ret tt) ;;
      write (Prisma.updateMany (fun r => Timetable.id r =? id)
                               (TimetablePatch.apply validated)) ;;
      ret (mkResponse 200 (Row (TimetablePatch.apply validated existing)))
  end.

(** [DELETE /:id] *)
Definition deleteTimetable (user : User.t) (id : string) : M Response :=
  authorize ["SUPER_ADMIN"; "ADMIN"] user ;;
  existing <- query (fun db =>
    Prisma.findFirst (fun r => Timetable.id r =? id) (timetables db)) ;;
  ensure (isSome existing) (AppError 404 TimetableEntryNotFound) ;;
  write (Prisma.deleteMany (fun r => Timetable.id r =? id)) ;;
  ret (mkResponse 200 NoData).

(* ================================================================== *)
(** ** Handlers of [teacher-schedule.routes.ts] *)

(** The relation filter [teacher: { instituteId }] on a timetable row. *)
Definition teacherInInstitute (db : Db) (instituteId : string) (r : Timetable.t) : bool :=
  existsb (fun u => (User.id u =? Timetable.teacherId r)
                    && (User.instituteId u =? instituteId))
          (users db).

(** [GET /:id/schedules] *)
Definition getTeacherSchedules (user : User.t) (id : string)
           (dayOfWeek : option DayOfWeek) : M Response :=
  teacher <- query (fun db =>
    Prisma.findFirst
      (fun u => (User.id u =? id)
                && (User.instituteId u =? User.instituteId user)
                && (User.role u =? "TEACHER"))
      (users db)) ;;
  ensure (isSome teacher) (AppError 404 TeacherNotFound) ;;
  schedules <- query (fun db =>
    Prisma.orderByDayStart
      (Prisma.findMany
         (fun r => (Timetable.teacherId r =? id)
                   && whenSet dayOfWeek (Day.eqb (Timetable.dayOfWeek r)))
         (timetables db))) ;;
  ret (mkResponse 200 (TeacherSchedules id schedules)).

(** The [OR] of the [where] clause of [POST /:id/schedules]. *)
Definition postScheduleOR (data_startTime data_endTime : string) (r : Timetable.t) : bool :=
  (* New schedule starts during existing schedule *)
  (StrOrd.le (Timetable.startTime r) data_startTime
   && StrOrd.gt (Timetable.endTime r) data_startTime)
  (* New schedule ends during existing schedule *)
  || (StrOrd.lt (Timetable.startTime r) data_endTime
      && StrOrd.ge (Timetable.endTime r) data_endTime)
  (* New schedule completely contains existing schedule *)
  || (StrOrd.ge (Timetable.startTime r) data_startTime
      && StrOrd.le (Timetable.endTime r) data_endTime).

(** [POST /:id/schedules] *)
Definition postTeacherSchedule (user : User.t) (id : string) (body : ScheduleBody.t)
  : M Response :=
  authorize ["SUPER_ADMIN"; "ADMIN"] user ;;
  data <- parse (createScheduleSchema body) ;;
  (* Verify teacher exists and belongs to institute *)
  teacher <- query (fun db =>
    Prisma.findFirst
      (fun u => (User.id u =? id)
                && (User.instituteId u =? User.instituteId user)
                && (User.role u =? "TEACHER"))
      (users db)) ;;
  ensure (isSome teacher) (AppError 404 TeacherNotFound) ;;
  (* Verify class exists and belongs to institute *)
  classRecord <- query (fun db =>
    Prisma.findFirst
      (fun c => (Class.id c =? ScheduleInput.classId data)
                && (Class.instituteId c =? User.instituteId user))
      (classes db)) ;;
  ensure (isSome classRecord) (AppError 404 ClassNotFound) ;;
  (* Validate time range *)
  ensure (negb (StrOrd.ge (ScheduleInput.startTime data) (ScheduleInput.endTime data)))
         (AppError 400 EndTimeMustBeAfterStartTime) ;;
  (* Check for time conflicts *)
  conflict <- query (fun db =>
    Prisma.findFirst
      (fun r => (Timetable.teacherId r =? id)
                && Day.eqb (Timetable.dayOfWeek r) (ScheduleInput.dayOfWeek data)
                && postScheduleOR (ScheduleInput.startTime data)
                                  (ScheduleInput.endTime data) r)
      (timetables db)) ;;
  match conflict with
  | Some c => throw (AppError 400 (TimeConflictDetected c))
  | None =>
      (* Create schedule *)
      env <- ask ;;
      let schedule :=
        Timetable.mk (uuid env)
          (ScheduleInput.classId data)
          ""   (* TODO: This should be provided in the request *)
          id
          (ScheduleInput.dayOfWeek data)
          (ScheduleInput.startTime data)
          (ScheduleInput.endTime data)
          (ScheduleInput.room data)
          (default_isPrimary env)
          (default_isActive env) in
      write (Prisma.create schedule) ;;
      ret (mkResponse 201 (Row schedule))
  end.

(** The [OR] of the [where] clause of [PUT /:id]. *)
Definition putScheduleOR (startTime endTime : string) (r : Timetable.t) : bool :=
  (StrOrd.le (Timetable.startTime r) startTime
   && StrOrd.gt (Timetable.endTime r) startTime)
  || (StrOrd.lt (Timetable.startTime r) endTime
      && StrOrd.ge (Timetable.endTime r) endTime)
  || (StrOrd.ge (Timetable.startTime r) startTime
      && StrOrd.le (Timetable.endTime r) endTime).

(** [PUT /:id] *)
Definition putSchedule (user : User.t) (id : string) (body : ScheduleBody.t)
  : M Response :=
  authorize ["SUPER_ADMIN"; "ADMIN"] user ;;
  data <- parse (updateScheduleSchema body) ;;
  (* Check if schedule exists *)
  found <- query (fun db =>
    Prisma.findFirst
      (fun r => (Timetable.id r =? id)
                && teacherInInstitute db (User.instituteId user) r)
      (timetables db)) ;;
  match found with
  | None => throw (AppError 404 ScheduleNotFound)
  | Some existingSchedule =>
      (* Verify class if provided *)
      match SchedulePatch.classId data with
      | Some classId =>
          classRecord <- query (fun db =>
            Prisma.findFirst
              (fun c => (Class.id c =? classId)
                        && (Class.instituteId c =? User.instituteId user))
              (classes db)) ;;
          ensure (isSome classRecord) (AppError 404 ClassNotFound)
      | None => ret tt
      end ;;
      (* Validate time range if both times are provided *)
      let startTime :=
        orElse (SchedulePatch.startTime data) (Timetable.startTime existingSchedule) in
      let endTime :=
        orElse (SchedulePatch.endTime data) (Timetable.endTime existingSchedule) in
      ensure (negb (StrOrd.ge startTime endTime))
             (AppError 400 EndTimeMustBeAfterStartTime) ;;
      (* Check for time conflicts (excluding current schedule) *)
      let dayOfWeek :=
        orElse (SchedulePatch.dayOfWeek data) (Timetable.dayOfWeek existingSchedule) in
      conflict <- query (fun db =>
        Prisma.findFirst
          (fun r => negb (Timetable.id r =? id)
                    && (Timetable.teacherId r =? Timetable.teacherId existingSchedule)
                    && Day.eqb (Timetable.dayOfWeek r) dayOfWeek
                    && putScheduleOR startTime endTime r)
          (timetables db)) ;;
      match conflict with
      | Some c => throw (AppError 400 (TimeConflictDetected c))
      | None =>
          (* Update schedule *)
          write (Prisma.updateMany (fun r => Timetable.id r =? id)
                                   (SchedulePatch.apply data)) ;;
          ret (mkResponse 200 (Row (SchedulePatch.apply data existingSchedule)))
      end
  end.

(** [DELETE /:id] *)
Definition deleteSchedule (user : User.t) (id : string) : M Response :=
  authorize ["SUPER_ADMIN"; "ADMIN"] user ;;
  (* Check if schedule exists and belongs to institute *)
  schedule <- query (fun db =>
    Prisma.findFirst
      (fun r => (Timetable.id r =? id)
                && teacherInInstitute db (User.instituteId user) r)
      (timetables db)) ;;
  ensure (isSome schedule) (AppError 404 ScheduleNotFound) ;;
  write (Prisma.deleteMany (fun r => Timetable.id r =? id)) ;;
  ret (mkResponse 200 NoData).

(** The [OR] of the [where] clause of [POST /conflicts/check]. *)
Definition conflictsCheckOR (startTime endTime : string) (r : Timetable.t) : bool :=
  (StrOrd.le (Timetable.startTime r) startTime
   && StrOrd.gt (Timetable.endTime r) startTime)
  || (StrOrd.lt (Timetable.startTime r) endTime
      && StrOrd.ge (Timetable.endTime r) endTime)
  || (StrOrd.ge (Timetable.startTime r) startTime
      && StrOrd.le (Timetable.endTime r) endTime).

(** [POST /conflicts/check] *)
Definition postConflictsCheck (user : User.t) (body : CheckBody.t) : M Response :=
  match nonEmpty (CheckBody.teacherId body), CheckBody.dayOfWeek body,
        nonEmpty (CheckBody.startTime body), nonEmpty (CheckBody.endTime body) with
  | Some teacherId, Some dayOfWeek, Some startTime, Some endTime =>
      (* Verify teacher belongs to institute *)
      teacher <- query (fun db =>
        Prisma.findFirst
          (fun u => (User.id u =? teacherId)
                    && (User.instituteId u =? User.instituteId user)
                    && (User.role u =? "TEACHER"))
          (users db)) ;;
      ensure (isSome teacher) (AppError 404 TeacherNotFound) ;;
      (* Check for conflicts *)
      conflicts <- query (fun db =>
        Prisma.findMany
          (fun r => (Timetable.teacherId r =? teacherId)
                    && Day.eqb (Timetable.dayOfWeek r) dayOfWeek
                    && conflictsCheckOR startTime endTime r
                    && whenSet (nonEmpty (CheckBody.excludeScheduleId body))
                               (fun x => negb (Timetable.id r =? x)))
          (timetables db)) ;;
      ret (mkResponse 200
             (ConflictCheck (Nat.ltb 0 (List.length conflicts)) conflicts))
  | _, _, _, _ => throw (AppError 400 FieldsRequired)
  end.

(* ================================================================== *)
(** ** Handlers of [teacher-assignment.routes.ts] *)

(** [POST /:id/teachers] *)
Definition postClassTeacher (user : User.t) (id : string) (body : AssignBody.t)
  : M Response :=
  authorize ["SUPER_ADMIN"; "ADMIN"] user ;;
  data <- parse (assignTeacherSchema body) ;;
  (* Verify class exists and belongs to institute *)
  classData <- query (fun db =>
    Prisma.findFirst
      (fun c => (Class.id c =? id)
                && (Class.instituteId c =? User.instituteId user))
      (classes db)) ;;
  ensure (isSome classData) (AppError 404 ClassNotFound) ;;
  (* include: { timetables } *)
  classTimetables <- query (fun db =>
    Prisma.findMany (fun r => Timetable.classId r =? id) (timetables db)) ;;
  (* Verify teacher exists and belongs to institute *)
  teacher <- query (fun db =>
    Prisma.findFirst
      (fun u => (User.id u =? AssignInput.teacherId data)
                && (User.instituteId u =? User.instituteId user)
                && (User.role u =? "TEACHER")
                && User.isActive u)
      (users db)) ;;
  ensure (isSome teacher) (AppError 404 TeacherNotFoundOrInactive) ;;
  (* include: { teacherSubjects } *)
  teacherSubjects <- query (fun db =>
    Prisma.findMany
      (fun q => TeacherSubject.teacherId q =? AssignInput.teacherId data)
      (teacherSubjects db)) ;;
  (* Verify teacher can teach at least one subject in this class *)
  let classSubjectIds := map Timetable.subjectId classTimetables in
  let canTeachSubject :=
    existsb (fun q => existsb (String.eqb (TeacherSubject.subjectId q)) classSubjectIds)
            teacherSubjects in
  ensure canTeachSubject (AppError 400 TeacherCannotTeach) ;;
  (* Check if teacher is already assigned to this class *)
  existingAssignment <- query (fun db =>
    Prisma.findFirst
      (fun r => (Timetable.classId r =? id)
                && (Timetable.teacherId r =? AssignInput.teacherId data))
      (timetables db)) ;;
  ensure (negb (isSome existingAssignment)) (AppError 400 TeacherAlreadyAssigned) ;;
  (* If setting as primary, remove primary status from other teachers *)
  (if AssignInput.isPrimary data
   then write (Prisma.updateMany
                 (fun r => (Timetable.classId r =? id) && Timetable.isPrimary r)
                 (Timetable.with_isPrimary false))
   else ret tt) ;;
  (* Create assignment *)
  env <- ask ;;
  let assignment :=
    Timetable.mk (uuid env)
      id
      (match classTimetables with
       | first :: _ => Timetable.subjectId first   (* Use first subject as default *)
       | [] => ""
       end)
      (AssignInput.teacherId data)
      MONDAY     (* Default day *)
      "09:00"    (* Default time *)
      "10:00"    (* Default time *)
      None
      (AssignInput.isPrimary data)
      (default_isActive env) in
  write (Prisma.create assignment) ;;
  ret (mkResponse 201 (Row assignment)).

(** [PUT /:id/teachers/:teacherId] *)
Definition putClassTeacher (user : User.t) (id teacherId : string)
           (body : option bool) : M Response :=
  authorize ["SUPER_ADMIN"; "ADMIN"] user ;;
  isPrimary <- parse (updateAssignmentSchema body) ;;
  (* Verify class exists and belongs to institute *)
  classData <- query (fun db =>
    Prisma.findFirst
      (fun c => (Class.id c =? id)
                && (Class.instituteId c =? User.instituteId user))
      (classes db)) ;;
  ensure (isSome classData) (AppError 404 ClassNotFound) ;;
  (* Verify assignment exists *)
  found <- query (fun db =>
    Prisma.findFirst
      (fun r => (Timetable.classId r =? id) && (Timetable.teacherId r =? teacherId))
      (timetables db)) ;;
  match found with
  | None => throw (AppError 404 TeacherAssignmentNotFound)
  | Some assignment =>
      (* If setting as primary, remove primary status from other teachers *)
      (if isPrimary
       then write (Prisma.updateMany
                     (fun r => (Timetable.classId r =? id)
                               && Timetable.isPrimary r
                               && negb (Timetable.teacherId r =? teacherId))
                     (Timetable.with_isPrimary false))
       else ret tt) ;;
      (* Update assignment *)
      write (Prisma.updateMany
               (fun r => Timetable.id r =? Timetable.id assignment)
               (Timetable.with_isPrimary isPrimary)) ;;
      ret (mkResponse 200 (Row (Timetable.with_isPrimary isPrimary assignment)))
  end.

(** [DELETE /:id/teachers/:teacherId] *)
Definition deleteClassTeacher (user : User.t) (id teacherId : string) : M Response :=
  authorize ["SUPER_ADMIN"; "ADMIN"] user ;;
  (* Verify class exists and belongs to institute *)
  classData <- query (fun db =>
    Prisma.findFirst
      (fun c => (Class.id c =? id)
                && (Class.instituteId c =? User.instituteId user))
      (classes db)) ;;
  ensure (isSome classData) (AppError 404 ClassNotFound) ;;
  (* Verify assignment exists *)
  found <- query (fun db =>
    Prisma.findFirst
      (fun r => (Timetable.classId r =? id) && (Timetable.teacherId r =? teacherId))
      (timetables db)) ;;
  match found with
  | None => throw (AppError 404 TeacherAssignmentNotFound)
  | Some assignment =>
      (* Delete assignment *)
      write (Prisma.deleteMany (fun r => Timetable.id r =? Timetable.id assignment)) ;;
      ret (mkResponse 200 NoData)
  end.

(* ================================================================== *)
(** ** The API: one request, one response *)

Inductive Request :=
| GET_timetable (classId teacherId : option string) (dayOfWeek : option DayOfWeek)
| GET_timetable_classes (classId : string)
| POST_timetable_classes (classId : string) (body : TimetableBody.t)
| GET_timetable_id (id : string)
| PUT_timetable_id (id : string) (body : TimetableBody.t)
| DELETE_timetable_id (id : string)
| GET_teachers_schedules (id : string) (dayOfWeek : option DayOfWeek)
| POST_teachers_schedules (id : string) (body : ScheduleBody.t)
| PUT_schedules_id (id : string) (body : ScheduleBody.t)
| DELETE_schedules_id (id : string)
| POST_schedules_conflicts_check (body : CheckBody.t)
| POST_classes_teachers (id : string) (body : AssignBody.t)
| PUT_classes_teachers (id teacherId : string) (isPrimary : option bool)
| DELETE_classes_teachers (id teacherId : string).

Definition route (user : User.t) (req : Request) : M Response :=
  match req with
  | GET_timetable classId teacherId dayOfWeek =>
      getTimetables user classId teacherId dayOfWeek
  | GET_timetable_classes classId => getClassTimetable classId
  | POST_timetable_classes classId body => postClassTimetable user classId body
  | GET_timetable_id id => getTimetable id
  | PUT_timetable_id id body => putTimetable user id body
  | DELETE_timetable_id id => deleteTimetable user id
  | GET_teachers_schedules id dayOfWeek => getTeacherSchedules user id dayOfWeek
  | POST_teachers_schedules id body => postTeacherSchedule user id body
  | PUT_schedules_id id body => putSchedule user id body
  | DELETE_schedules_id id => deleteSchedule user id
  | POST_schedules_conflicts_check body => postConflictsCheck user body
  | POST_classes_teachers id body => postClassTeacher user id body
  | PUT_classes_teachers id teacherId isPrimary =>
      putClassTeacher user id teacherId isPrimary
  | DELETE_classes_teachers id teacherId => deleteClassTeacher user id teacherId
  end.

(** The store after the request and what the caller receives. *)
Definition handle (env : Env) (user : User.t) (req : Request) (db : Db)
  : Db * Result Response :=
  run (route user req) env db.

(* ================================================================== *)
(** ** Interval overlap *)

(** A time range [[start, end)] of one day. *)
Definition Range : Type := (string * string)%type.

Definition range (r : Timetable.t) : Range :=
  (Timetable.startTime r, Timetable.endTime r).

Definition proper (a : Range) : Prop := StrOrd.lt (fst a) (snd a) = true.

(** The overlap of two ranges in the words of the specification:
    [a.start < b.end AND b.start < a.end]. *)
Definition overlaps (a b : Range) : bool :=
  StrOrd.lt (fst a) (snd b) && StrOrd.lt (fst b) (snd a).

Module StrOrdFacts.

Lemma le_lt_trans (a b c : string) :
  StrOrd.lt b a = false -> StrOrd.lt b c = true -> StrOrd.lt a c = true.
Proof.
  intros H1 H2. destruct (StrOrd.cmp a b) as [H _ _| -> |H _ _]; auto.
  - eapply StrOrd.lt_trans; eauto.
  - congruence.
Qed.

Lemma lt_le_trans (a b c : string) :
  StrOrd.lt a b = true -> StrOrd.lt c b = false -> StrOrd.lt a c = true.
Proof.
  intros H1 H2. destruct (StrOrd.cmp b c) as [H _ _| <- |H _ _]; auto.
  - eapply StrOrd.lt_trans; eauto.
  - congruence.
Qed.

End StrOrdFacts.

(** Closes a goal whose hypotheses order some strings in a cycle. *)
Ltac order_sat :=
  repeat match goal with
  | H1 : StrOrd.lt ?a ?b = true, H2 : StrOrd.lt ?b ?c = true |- _ =>
      lazymatch goal with
      | _ : StrOrd.lt a c = true |- _ => fail
      | _ => pose proof (StrOrd.lt_trans _ _ _ H1 H2)
      end
  | H1 : StrOrd.lt ?b ?a = false, H2 : StrOrd.lt ?b ?c = true |- _ =>
      lazymatch goal with
      | _ : StrOrd.lt a c = true |- _ => fail
      | _ => pose proof (StrOrdFacts.le_lt_trans _ _ _ H1 H2)
      end
  | H1 : StrOrd.lt ?a ?b = true, H2 : StrOrd.lt ?c ?b = false |- _ =>
      lazymatch goal with
      | _ : StrOrd.lt a c = true |- _ => fail
      | _ => pose proof (StrOrdFacts.lt_le_trans _ _ _ H1 H2)
      end
  end;
  match goal with
  | H : StrOrd.lt ?a ?a = true |- _ => rewrite StrOrd.lt_irrefl in H; discriminate H
  | H1 : StrOrd.lt ?a ?b = true, H2 : StrOrd.lt ?a ?b = false |- _ => congruence
  end.

(** Rewrites every comparison to [StrOrd.lt] and splits on each of them. *)
Ltac order_split :=
  unfold StrOrd.gt in *;
  rewrite ?StrOrd.le_nlt, ?StrOrd.ge_nlt in *;
  repeat match goal with
  | |- context [StrOrd.lt ?a ?b] =>
      let E := fresh "E" in destruct (StrOrd.lt a b) eqn:E
  end;
  simpl; try reflexivity; try discriminate.

Section Overlap.

Variables a b : Timetable.t.
Hypothesis proper_a : proper (range a).
Hypothesis proper_b : proper (range b).

Lemma postScheduleOR_overlaps :
  postScheduleOR (Timetable.startTime b) (Timetable.endTime b) a
  = overlaps (range a) (range b).
Proof.
  unfold proper, range in *; simpl in *.
  unfold postScheduleOR, overlaps; simpl.
  order_split; order_sat.
Qed.

Lemma putScheduleOR_overlaps :
  putScheduleOR (Timetable.startTime b) (Timetable.endTime b) a
  = overlaps (range a) (range b).
Proof. exact postScheduleOR_overlaps. Qed.

Lemma conflictsCheckOR_overlaps :
  conflictsCheckOR (Timetable.startTime b) (Timetable.endTime b) a
  = overlaps (range a) (range b).
Proof. exact postScheduleOR_overlaps. Qed.

End Overlap.

Lemma overlaps_sym (x y : Range) : overlaps x y = overlaps y x.
Proof. unfold overlaps. apply andb_comm. Qed.

Lemma overlaps_touching (x y : Range) :
  proper x -> proper y -> snd x = fst y -> overlaps x y = false.
Proof.
  destruct x as [xs xe], y as [ys ye]. unfold proper, overlaps. simpl.
  intros Hx Hy ->. rewrite StrOrd.lt_irrefl. apply andb_false_r.
Qed.

(** Whatever the ranges, an overlap is caught by the three clauses. *)
Lemma overlaps_postScheduleOR (r : Timetable.t) (s e : string) :
  overlaps (range r) (s, e) = true -> postScheduleOR s e r = true.
Proof.
  unfold overlaps, range, postScheduleOR. simpl.
  order_split; order_sat.
Qed.

(* ================================================================== *)
(** ** Stepping through a handler *)

Ltac unfold_handlers :=
  unfold handle, run, route,
    getTimetables, getClassTimetable, postClassTimetable, getTimetable,
    putTimetable, deleteTimetable, getTeacherSchedules, postTeacherSchedule,
    putSchedule, deleteSchedule, postConflictsCheck, postClassTeacher,
    putClassTeacher, deleteClassTeacher, authorize in *;
  unfold bind, ensure, parse, query, throw, ret, ask, write in *.

Ltac reduce_steps H :=
  cbv beta iota zeta in H; cbn [st_db st_writes] in H.

(** Splits on every test the handler in [H] runs, outermost test first. *)
Ltac split_steps H :=
  reduce_steps H;
  repeat (match type of H with
          | context [match ?x with _ => _ end] =>
              lazymatch x with
              | context [match _ with _ => _ end] => fail
              | _ => destruct x eqn:?
              end
          end;
          reduce_steps H;
          try discriminate H).

Ltac pair_inv H := inversion H; subst; clear H.

(** A request rejected by a check has written nothing. *)
Lemma rejected_unchanged (env : Env) (user : User.t) (req : Request) (db db' : Db)
      (e : Error) :
  handle env user req db = (db', Err e) -> e <> PrismaError -> db' = db.
Proof.
  intros H Hne.
  destruct req; unfold_handlers; split_steps H; pair_inv H;
    try reflexivity; try congruence.
Qed.

(* ================================================================== *)
(** ** A small institute, used by the examples below *)

Module Sample.

Definition instituteA : string := "a0000000-0000-4000-8000-00000000000a".
Definition instituteB : string := "b0000000-0000-4000-8000-00000000000b".

Definition adminId : string := "ad000000-0000-4000-8000-0000000000ad".
Definition teacherT : string := "11111111-1111-4111-8111-111111111111".
Definition teacherT2 : string := "22222222-2222-4222-8222-222222222222".
Definition teacherOfB : string := "33333333-3333-4333-8333-333333333333".
Definition subjectS : string := "55555555-5555-4555-8555-555555555555".
Definition subjectS2 : string := "66666666-6666-4666-8666-666666666666".
Definition classA : string := "aaaaaaaa-aaaa-4aaa-8aaa-aaaaaaaaaaaa".
Definition classB : string := "bbbbbbbb-bbbb-4bbb-8bbb-bbbbbbbbbbbb".
Definition classOfB : string := "cccccccc-cccc-4ccc-8ccc-cccccccccccc".
Definition entry1 : string := "e0000000-0000-4000-8000-000000000001".
Definition entry2 : string := "e0000000-0000-4000-8000-000000000002".
Definition entry3 : string := "e0000000-0000-4000-8000-000000000003".
Definition freshId : string := "e0000000-0000-4000-8000-0000000000ff".

(** The caller: an administrator of institute A. *)
Definition admin : User.t := User.mk adminId instituteA "ADMIN" true.

Definition env : Env :=
  {| uuid := freshId;
     default_isPrimary := false;
     default_isActive := true;
     partial_defaults := false;
     fault := None |}.

(** The same surroundings, with the database rejecting the second write of
    the request. *)
Definition envSecondWriteFails : Env :=
  {| uuid := freshId;
     default_isPrimary := false;
     default_isActive := true;
     partial_defaults := false;
     fault := Some 1 |}.

(** T/MONDAY/09:00-10:00/ClassA, teaching S. *)
Definition mondayNine : Timetable.t :=
  Timetable.mk entry1 classA subjectS teacherT MONDAY "09:00" "10:00" None false true.

(** ClassB's own slot: T2 teaches S on TUESDAY 11:00-12:00, as primary. *)
Definition tuesdayEleven : Timetable.t :=
  Timetable.mk entry2 classB subjectS teacherT2 TUESDAY "11:00" "12:00" None true true.

(** An entry of institute B. *)
Definition foreign : Timetable.t :=
  Timetable.mk entry3 classOfB subjectS2 teacherOfB FRIDAY "14:00" "15:00" None false true.

Definition tables (rows : list Timetable.t) : Db :=
  {| users :=
       [ admin;
         User.mk teacherT instituteA "TEACHER" true;
         User.mk teacherT2 instituteA "TEACHER" true;
         User.mk teacherOfB instituteB "TEACHER" true ];
     classes :=
       [ Class.mk classA instituteA "Class A";
         Class.mk classB instituteA "Class B";
         Class.mk classOfB instituteB "Class of B" ];
     subjects :=
       [ Subject.mk subjectS instituteA "S";
         Subject.mk subjectS2 instituteA "S2" ];
     teacherSubjects :=
       [ TeacherSubject.mk teacherT subjectS;
         TeacherSubject.mk teacherT2 subjectS ];
     timetables := rows |}.

(** Teacher T is qualified for S and teaches ClassA on MONDAY
    09:00-10:00. *)
Definition db : Db := tables [mondayNine].

Definition timetableBody (classId subjectId teacherId day startTime endTime : string)
  : TimetableBody.t :=
  TimetableBody.mk (Some classId) (Some subjectId) (Some teacherId) (Some day)
    (Some startTime) (Some endTime) None None.

Definition scheduleBody (classId day startTime endTime : string) : ScheduleBody.t :=
  ScheduleBody.mk (Some classId) (Some day) (Some startTime) (Some endTime) None.

End Sample.

(* ================================================================== *)
(** ** What a successful mutation has checked and written *)

Definition teacherOfInstitute (id instituteId : string) (u : User.t) : bool :=
  (User.id u =? id) && (User.instituteId u =? instituteId) && (User.role u =? "TEACHER").

(** [POST /classes/:classId] (timetable): the stored row and the checks
    behind it. *)
Lemma postClassTimetable_ok (env : Env) (user : User.t) (classId : string)
      (body : TimetableBody.t) (db db' : Db) (resp : Response) :
  handle env user (POST_timetable_classes classId body) db = (db', Ok resp) ->
  exists validated,
    createTimetableSchema body = Some validated
    /\ isSome (Prisma.findFirst
                 (fun q => (TeacherSubject.teacherId q =? TimetableInput.teacherId validated)
                           && (TeacherSubject.subjectId q =? TimetableInput.subjectId validated))
                 (teacherSubjects db)) = true
    /\ (let row :=
          Timetable.mk (uuid env)
            (TimetableInput.classId validated) (TimetableInput.subjectId validated)
            (TimetableInput.teacherId validated) (TimetableInput.dayOfWeek validated)
            (TimetableInput.startTime validated) (TimetableInput.endTime validated)
            (TimetableInput.room validated) (TimetableInput.isPrimary validated) true in
        db' = set_timetables (Prisma.create row) db
        /\ resp = mkResponse 201 (Row row)).
Proof.
  intros H. unfold_handlers. split_steps H; pair_inv H;
    eexists; cbv zeta; repeat split; eauto.
Qed.

(** [POST /:id/schedules]: the stored row and the checks behind it. *)
Lemma postTeacherSchedule_ok (env : Env) (user : User.t) (id : string)
      (body : ScheduleBody.t) (db db' : Db) (resp : Response) :
  handle env user (POST_teachers_schedules id body) db = (db', Ok resp) ->
  exists data,
    createScheduleSchema body = Some data
    /\ StrOrd.lt (ScheduleInput.startTime data) (ScheduleInput.endTime data) = true
    /\ (forall r, In r (timetables db) ->
                  Timetable.teacherId r = id ->
                  Timetable.dayOfWeek r = ScheduleInput.dayOfWeek data ->
                  postScheduleOR (ScheduleInput.startTime data)
                                 (ScheduleInput.endTime data) r = false)
    /\ (let row :=
          Timetable.mk (uuid env) (ScheduleInput.classId data) "" id
            (ScheduleInput.dayOfWeek data) (ScheduleInput.startTime data)
            (ScheduleInput.endTime data) (ScheduleInput.room data)
            (default_isPrimary env) (default_isActive env) in
        db' = set_timetables (Prisma.create row) db
        /\ resp = mkResponse 201 (Row row)).
Proof.
  intros H. unfold_handlers. split_steps H; pair_inv H;
    (eexists; cbv zeta; split; [reflexivity|]; split; [|split; [|split; reflexivity]]).
  all: try match goal with
    | E : negb (StrOrd.ge _ _) = true |- _ =>
        rewrite StrOrd.ge_nlt, negb_involutive in E; exact E
    end.
  all: intros r Hin Ht Hd;
    match goal with
    | E : Prisma.findFirst _ (timetables _) = None |- _ =>
        pose proof (find_none _ _ E r Hin) as Hnone
    end;
    cbv beta in Hnone; subst id;
    rewrite String.eqb_refl, Hd, Day.eqb_refl in Hnone; exact Hnone.
Qed.

(** [PUT /:id] (schedules): the updated row and the checks behind it. *)
Lemma putSchedule_ok (env : Env) (user : User.t) (id : string)
      (body : ScheduleBody.t) (db db' : Db) (resp : Response) :
  handle env user (PUT_schedules_id id body) db = (db', Ok resp) ->
  exists data existing,
    updateScheduleSchema body = Some data
    /\ In existing (timetables db)
    /\ Timetable.id existing = id
    /\ (let startTime :=
          orElse (SchedulePatch.startTime data) (Timetable.startTime existing) in
        let endTime :=
          orElse (SchedulePatch.endTime data) (Timetable.endTime existing) in
        let dayOfWeek :=
          orElse (SchedulePatch.dayOfWeek data) (Timetable.dayOfWeek existing) in
        StrOrd.lt startTime endTime = true
        /\ (forall r, In r (timetables db) ->
                      Timetable.id r <> id ->
                      Timetable.teacherId r = Timetable.teacherId existing ->
                      Timetable.dayOfWeek r = dayOfWeek ->
                      putScheduleOR startTime endTime r = false))
    /\ db' = set_timetables
               (Prisma.updateMany (fun r => Timetable.id r =? id)
                                  (SchedulePatch.apply data)) db
    /\ resp = mkResponse 200 (Row (SchedulePatch.apply data existing)).
Proof.
  intros H. unfold_handlers. split_steps H; pair_inv H.
  all: match goal with
       | E : Prisma.findFirst _ (timetables _) = Some ?x |- _ =>
           destruct (find_some _ _ E) as [Hin Hx];
           apply andb_true_iff in Hx; destruct Hx as [Hid _];
           apply String.eqb_eq in Hid
       end.
  all: do 2 eexists; cbv zeta;
    split; [reflexivity|]; split; [eassumption|]; split; [assumption|];
    split; [split|split; reflexivity].
  all: try match goal with
    | E : negb (StrOrd.ge _ _) = true |- StrOrd.lt _ _ = true =>
        rewrite StrOrd.ge_nlt, negb_involutive in E; exact E
    end.
  all: intros r Hr Hne Ht Hd;
    match goal with
    | E : Prisma.findFirst _ (timetables _) = None |- _ =>
        pose proof (find_none _ _ E r Hr) as Hnone
    end;
    cbv beta in Hnone;
    apply String.eqb_neq in Hne;
    rewrite Hne, Ht, String.eqb_refl, Hd, Day.eqb_refl in Hnone; exact Hnone.
Qed.

(** The id of the entry a [DELETE] request removes: the one it names, or
    the one of the first row of the class and teacher it names. *)
Definition deletedId (db : Db) (req : Request) : option string :=
  match req with
  | DELETE_timetable_id id | DELETE_schedules_id id => Some id
  | DELETE_classes_teachers id teacherId =>
      option_map Timetable.id
        (Prisma.findFirst
           (fun r => (Timetable.classId r =? id) && (Timetable.teacherId r =? teacherId))
           (timetables db))
  | _ => None
  end.

(** A successful [DELETE] removes the rows that carry that id. *)
Lemma delete_ok (env : Env) (user : User.t) (req : Request) (db db' : Db)
      (resp : Response) (target : string) :
  deletedId db req = Some target ->
  handle env user req db = (db', Ok resp) ->
  (exists entry, In entry (timetables db) /\ Timetable.id entry = target)
  /\ db' = set_timetables
             (Prisma.deleteMany (fun r => Timetable.id r =? target)) db
  /\ resp = mkResponse 200 NoData.
Proof.
  intros Hd H. destruct req; try discriminate Hd;
    unfold deletedId in Hd; unfold_handlers; split_steps H; pair_inv H.
  all: repeat match goal with
       | E : isSome ?o = true |- _ => destruct o eqn:?; [clear E|discriminate E]
       end.
  all: repeat match goal with
       | E : Prisma.findFirst _ (timetables _) = Some _ |- _ =>
           let Hin := fresh "Hin" in
           let Hp := fresh "Hp" in
           destruct (find_some _ _ E) as [Hin Hp]; cbv beta in Hp;
           rewrite ?andb_true_iff, ?String.eqb_eq in Hp;
           try rewrite E in Hd; clear E
       end.
  all: simpl in Hd; injection Hd as Hd; subst.
  all: split; [eexists; split; [eassumption|]; intuition congruence|].
  all: split; reflexivity.
Qed.

Definition isRead (req : Request) : bool :=
  match req with
  | GET_timetable _ _ _ | GET_timetable_classes _ | GET_timetable_id _
  | GET_teachers_schedules _ _ | POST_schedules_conflicts_check _ => true
  | _ => false
  end.

(** The [GET] handlers and the conflict check write nothing. *)
Lemma read_unchanged (env : Env) (user : User.t) (req : Request) (db db' : Db)
      (res : Result Response) :
  isRead req = true -> handle env user req db = (db', res) -> db' = db.
Proof.
  intros Hr H. destruct req; try discriminate Hr;
    unfold_handlers; split_steps H; pair_inv H; reflexivity.
Qed.

(** The row [POST /:id/teachers] inserts. *)
Definition assignmentRow (env : Env) (id : string) (data : AssignInput.t)
           (rows : list Timetable.t) : Timetable.t :=
  Timetable.mk (uuid env) id
    (match Prisma.findMany (fun r => Timetable.classId r =? id) rows with
     | first :: _ => Timetable.subjectId first
     | [] => ""
     end)
    (AssignInput.teacherId data) MONDAY "09:00" "10:00" None
    (AssignInput.isPrimary data) (default_isActive env).

(** [POST /:id/teachers]: the writes of a successful request. *)
Lemma postClassTeacher_ok (env : Env) (user : User.t) (id : string)
      (body : AssignBody.t) (db db' : Db) (resp : Response) :
  handle env user (POST_classes_teachers id body) db = (db', Ok resp) ->
  exists data,
    assignTeacherSchema body = Some data
    /\ db' = set_timetables
               (fun rows =>
                  Prisma.create (assignmentRow env id data (timetables db))
                    (if AssignInput.isPrimary data
                     then Prisma.updateMany
                            (fun r => (Timetable.classId r =? id) && Timetable.isPrimary r)
                            (Timetable.with_isPrimary false) rows
                     else rows)) db
    /\ resp = mkResponse 201 (Row (assignmentRow env id data (timetables db))).
Proof.
  intros H. unfold_handlers. split_steps H; pair_inv H.
  all: eexists; split; [reflexivity|].
  all: unfold assignmentRow;
       repeat match goal with
       | E : Prisma.findMany _ (timetables _) = _ |- _ => rewrite E
       | E : AssignInput.isPrimary _ = _ |- _ => rewrite E
       end.
  all: split; reflexivity.
Qed.

(** [PUT /:id/teachers/:teacherId]: the writes of a successful request. *)
Lemma putClassTeacher_ok (env : Env) (user : User.t) (id teacherId : string)
      (body : option bool) (db db' : Db) (resp : Response) :
  handle env user (PUT_classes_teachers id teacherId body) db = (db', Ok resp) ->
  exists isPrimary assignment,
    body = Some isPrimary
    /\ Prisma.findFirst
         (fun r => (Timetable.classId r =? id) && (Timetable.teacherId r =? teacherId))
         (timetables db) = Some assignment
    /\ db' = set_timetables
               (fun rows =>
                  Prisma.updateMany
                    (fun r => Timetable.id r =? Timetable.id assignment)
                    (Timetable.with_isPrimary isPrimary)
                    (if isPrimary
                     then Prisma.updateMany
                            (fun r => (Timetable.classId r =? id)
                                      && Timetable.isPrimary r
                                      && negb (Timetable.teacherId r =? teacherId))
                            (Timetable.with_isPrimary false) rows
                     else rows)) db
    /\ resp = mkResponse 200 (Row (Timetable.with_isPrimary isPrimary assignment)).
Proof.
  intros H. unfold_handlers. unfold updateAssignmentSchema in H.
  split_steps H; pair_inv H.
  all: do 2 eexists; split; [reflexivity|]; split; [reflexivity|].
  all: split; reflexivity.
Qed.

(* ================================================================== *)
(** ** The primary key and the no-double-booking invariant *)

(** [id] is the primary key of the timetable table. *)
Definition PrimaryKey (rows : list Timetable.t) : Prop :=
  NoDup (map Timetable.id rows).

(** Two different active entries of one teacher on one day whose ranges
    overlap. *)
Definition doubleBooked (a b : Timetable.t) : Prop :=
  Timetable.id a <> Timetable.id b
  /\ Timetable.isActive a = true
  /\ Timetable.isActive b = true
  /\ Timetable.teacherId a = Timetable.teacherId b
  /\ Timetable.dayOfWeek a = Timetable.dayOfWeek b
  /\ overlaps (range a) (range b) = true.

Definition NoDoubleBooking (rows : list Timetable.t) : Prop :=
  forall a b, In a rows -> In b rows -> ~ doubleBooked a b.

(** An update that leaves the id, the teacher, the slot and the activity of
    every row alone. *)
Definition keepsSlot (f : Timetable.t -> Timetable.t) : Prop :=
  forall r,
    Timetable.id (f r) = Timetable.id r
    /\ Timetable.isActive (f r) = Timetable.isActive r
    /\ Timetable.teacherId (f r) = Timetable.teacherId r
    /\ Timetable.dayOfWeek (f r) = Timetable.dayOfWeek r
    /\ range (f r) = range r.

Lemma with_isPrimary_keepsSlot (b : bool) : keepsSlot (Timetable.with_isPrimary b).
Proof. intros r. repeat split. Qed.

Section PrimaryKeyFacts.

Variable rows : list Timetable.t.
Hypothesis key : PrimaryKey rows.

Lemma PrimaryKey_unique (a b : Timetable.t) :
  In a rows -> In b rows -> Timetable.id a = Timetable.id b -> a = b.
Proof.
  unfold PrimaryKey in key. revert key.
  induction rows as [|r l IH]; simpl; [contradiction|].
  intros Hnd. inversion Hnd as [|? ? Hnotin Hnd']; subst.
  intros [<-|Ha] [<-|Hb] Hid; auto.
  - exfalso. apply Hnotin. rewrite Hid. now apply in_map.
  - exfalso. apply Hnotin. rewrite <- Hid. now apply in_map.
Qed.

Lemma PrimaryKey_create (row : Timetable.t) :
  ~ In (Timetable.id row) (map Timetable.id rows) ->
  PrimaryKey (Prisma.create row rows).
Proof.
  intros Hfresh. unfold PrimaryKey, Prisma.create in *.
  rewrite map_app. simpl.
  apply NoDup_app; [assumption|repeat constructor; intros []|].
  intros x Hx [<-|[]]. contradiction.
Qed.

Lemma PrimaryKey_deleteMany (p : Timetable.t -> bool) :
  PrimaryKey (Prisma.deleteMany p rows).
Proof.
  unfold PrimaryKey, Prisma.deleteMany in *. revert key.
  induction rows as [|r l IH]; simpl; intros Hnd; [constructor|].
  inversion Hnd as [|? ? Hnotin Hnd']; subst.
  destruct (negb (p r)); simpl; auto.
  constructor; auto.
  intros Hin. apply Hnotin. apply in_map_iff in Hin.
  destruct Hin as (x & Hx & Hin). apply filter_In in Hin.
  rewrite <- Hx. apply in_map. tauto.
Qed.

Lemma PrimaryKey_updateMany (p : Timetable.t -> bool) (f : Timetable.t -> Timetable.t) :
  (forall r, Timetable.id (f r) = Timetable.id r) ->
  PrimaryKey (Prisma.updateMany p f rows).
Proof.
  intros Hf. unfold PrimaryKey, Prisma.updateMany in *.
  rewrite map_map.
  erewrite map_ext; [exact key|].
  intros r. cbv beta. destruct (p r); auto.
Qed.

End PrimaryKeyFacts.

Section NoDoubleBookingFacts.

Variable rows : list Timetable.t.
Hypothesis free : NoDoubleBooking rows.

Lemma NoDoubleBooking_create (row : Timetable.t) :
  (forall r, In r rows ->
             Timetable.teacherId r = Timetable.teacherId row ->
             Timetable.dayOfWeek r = Timetable.dayOfWeek row ->
             overlaps (range r) (range row) = false) ->
  NoDoubleBooking (Prisma.create row rows).
Proof.
  intros Hnew a b Ha Hb (Hid & Ha1 & Ha2 & Ht & Hd & Hov).
  unfold Prisma.create in *.
  apply in_app_or in Ha. apply in_app_or in Hb.
  destruct Ha as [Ha|[<-|[]]], Hb as [Hb|[<-|[]]].
  - apply (free Ha Hb). unfold doubleBooked. tauto.
  - rewrite (Hnew a Ha Ht Hd) in Hov. discriminate.
  - rewrite overlaps_sym, (Hnew b Hb (eq_sym Ht) (eq_sym Hd)) in Hov. discriminate.
  - now apply Hid.
Qed.

Lemma NoDoubleBooking_deleteMany (p : Timetable.t -> bool) :
  NoDoubleBooking (Prisma.deleteMany p rows).
Proof.
  intros a b Ha Hb. unfold Prisma.deleteMany in *.
  apply filter_In in Ha. apply filter_In in Hb.
  apply free; tauto.
Qed.

Lemma NoDoubleBooking_updateMany (p : Timetable.t -> bool)
      (f : Timetable.t -> Timetable.t) :
  keepsSlot f -> NoDoubleBooking (Prisma.updateMany p f rows).
Proof.
  intros Hf a' b' Ha Hb. unfold Prisma.updateMany in *.
  apply in_map_iff in Ha. destruct Ha as (a & <- & Ha).
  apply in_map_iff in Hb. destruct Hb as (b & <- & Hb).
  intros Hdb. apply (free Ha Hb). revert Hdb. unfold doubleBooked.
  destruct (Hf a) as (A1 & A2 & A3 & A4 & A5).
  destruct (Hf b) as (B1 & B2 & B3 & B4 & B5).
  destruct (p a), (p b); rewrite ?A1, ?A2, ?A3, ?A4, ?A5, ?B1, ?B2, ?B3, ?B4, ?B5; tauto.
Qed.

(** Moving one entry to a slot that no other entry of its teacher touches. *)
Lemma NoDoubleBooking_reschedule (id : string) (existing : Timetable.t)
      (f : Timetable.t -> Timetable.t) :
  PrimaryKey rows ->
  In existing rows ->
  Timetable.id existing = id ->
  (forall r, Timetable.id (f r) = Timetable.id r
             /\ Timetable.teacherId (f r) = Timetable.teacherId r) ->
  (forall r, In r rows ->
             Timetable.id r <> id ->
             Timetable.teacherId r = Timetable.teacherId existing ->
             Timetable.dayOfWeek r = Timetable.dayOfWeek (f existing) ->
             overlaps (range r) (range (f existing)) = false) ->
  NoDoubleBooking (Prisma.updateMany (fun r => Timetable.id r =? id) f rows).
Proof.
  intros Hkey Hex Hexid Hf Hclear a' b' Ha Hb. unfold Prisma.updateMany in *.
  apply in_map_iff in Ha. destruct Ha as (a & <- & Ha).
  apply in_map_iff in Hb. destruct Hb as (b & <- & Hb).
  destruct (Timetable.id a =? id) eqn:Ea, (Timetable.id b =? id) eqn:Eb;
    rewrite ?String.eqb_eq, ?String.eqb_neq in *.
  - intros (Hid & _). apply Hid.
    destruct (Hf a) as [-> _], (Hf b) as [-> _]. congruence.
  - assert (a = existing) by (apply (PrimaryKey_unique Hkey); congruence).
    subst a. intros (_ & _ & _ & Ht & Hd & Hov).
    destruct (Hf existing) as [_ Hft]. rewrite Hft in Ht.
    rewrite overlaps_sym, (Hclear b Hb Eb (eq_sym Ht) (eq_sym Hd)) in Hov.
    discriminate.
  - assert (b = existing) by (apply (PrimaryKey_unique Hkey); congruence).
    subst b. intros (_ & _ & _ & Ht & Hd & Hov).
    destruct (Hf existing) as [_ Hft]. rewrite Hft in Ht.
    rewrite (Hclear a Ha Ea Ht Hd) in Hov. discriminate.
  - apply (free Ha Hb).
Qed.

End NoDoubleBookingFacts.

(* ================================================================== *)
(** ** The overlap predicate (C5) *)

(** C5.  For proper ranges ([start < end] on both sides, compared as
    strings), the three-clause conflict condition of the schedule create,
    the schedule update and the conflict check is the half-open overlap
    [a.start < b.end AND b.start < a.end]; hence it is symmetric, and two
    ranges that only touch ([a.end = b.start]) do not conflict. *)
Theorem C5_three_clauses_are_overlap (a b : Timetable.t) :
  proper (range a) ->
  proper (range b) ->
  forall clause,
    In clause [postScheduleOR; putScheduleOR; conflictsCheckOR] ->
    clause (Timetable.startTime b) (Timetable.endTime b) a
    = overlaps (range a) (range b)
    /\ clause (Timetable.startTime b) (Timetable.endTime b) a
       = clause (Timetable.startTime a) (Timetable.endTime a) b
    /\ (Timetable.endTime a = Timetable.startTime b ->
        clause (Timetable.startTime b) (Timetable.endTime b) a = false).
Proof.
  intros Ha Hb clause Hc.
  assert (Hab : clause (Timetable.startTime b) (Timetable.endTime b) a
                = overlaps (range a) (range b)).
  { destruct Hc as [<-|[<-|[<-|[]]]].
    - now apply postScheduleOR_overlaps.
    - now apply putScheduleOR_overlaps.
    - now apply conflictsCheckOR_overlaps. }
  assert (Hba : clause (Timetable.startTime a) (Timetable.endTime a) b
                = overlaps (range b) (range a)).
  { destruct Hc as [<-|[<-|[<-|[]]]].
    - now apply postScheduleOR_overlaps.
    - now apply putScheduleOR_overlaps.
    - now apply conflictsCheckOR_overlaps. }
  split; [exact Hab|]. split.
  - rewrite Hab, Hba. apply overlaps_sym.
  - intros Htouch. rewrite Hab. now apply overlaps_touching.
Qed.

Module SampleRanges.
Import Sample.

(** T/MONDAY/09:30-10:30/ClassB *)
Definition halfPastNine : Timetable.t :=
  Timetable.mk freshId classB subjectS teacherT MONDAY "09:30" "10:30" None true true.

(** T/MONDAY/10:00-11:00/ClassB *)
Definition mondayTen : Timetable.t :=
  Timetable.mk freshId classB subjectS teacherT MONDAY "10:00" "11:00" None true true.
End SampleRanges.

Lemma C5_three_clauses_are_overlap_witness :
  (postScheduleOR "09:30" "10:30" Sample.mondayNine = true
   /\ conflictsCheckOR "10:00" "11:00" Sample.mondayNine = false).
Proof.
  split.
  - exact (proj1 (@C5_three_clauses_are_overlap
                    Sample.mondayNine SampleRanges.halfPastNine
                    eq_refl eq_refl postScheduleOR (or_introl eq_refl))).
  - exact (proj2 (proj2 (@C5_three_clauses_are_overlap
                    Sample.mondayNine SampleRanges.mondayTen
                    eq_refl eq_refl conflictsCheckOR
                    (or_intror (or_intror (or_introl eq_refl))))) eq_refl).
Defined.

(* ================================================================== *)
(** ** Where the conflict check and the schedule create agree *)

Lemma required_checked (check : string -> bool) (field : option string) (s : string) :
  required check field = Some s -> check s = true.
Proof.
  unfold required. destruct field as [x|]; [|discriminate].
  destruct (check x) eqn:E; [|discriminate]. intros H. injection H as <-. exact E.
Qed.

Lemma time_nonEmpty (s : string) : Zod.time s = true -> nonEmpty (Some s) = Some s.
Proof.
  destruct s; [discriminate|]. reflexivity.
Qed.

Lemma createScheduleSchema_times (body : ScheduleBody.t) (data : ScheduleInput.t) :
  createScheduleSchema body = Some data ->
  Zod.time (ScheduleInput.startTime data) = true
  /\ Zod.time (ScheduleInput.endTime data) = true.
Proof.
  unfold createScheduleSchema.
  destruct (required Zod.uuid (ScheduleBody.classId body)); [|discriminate].
  destruct (requiredDay (ScheduleBody.dayOfWeek body)); [|discriminate].
  destruct (required Zod.time (ScheduleBody.startTime body)) eqn:Es; [|discriminate].
  destruct (required Zod.time (ScheduleBody.endTime body)) eqn:Ee; [|discriminate].
  intros H. injection H as <-. simpl.
  split; eapply required_checked; eauto.
Qed.

Lemma find_filter (A : Type) (p : A -> bool) (l : list A) :
  find p l = hd_error (filter p l).
Proof.
  induction l as [|x l IH]; simpl; [reflexivity|].
  destruct (p x); [reflexivity|exact IH].
Qed.

(** The probe for the slot of a schedule body. *)
Definition probeOf (teacherId : string) (data : ScheduleInput.t) : CheckBody.t :=
  CheckBody.mk (Some teacherId) (Some (ScheduleInput.dayOfWeek data))
    (Some (ScheduleInput.startTime data)) (Some (ScheduleInput.endTime data)) None.

(** For a well-formed schedule body with [startTime < endTime] that names a
    class of the caller's institute, sent by a caller allowed to create, the
    conflict check reports a conflict exactly when [POST /:id/schedules]
    fails with the time conflict. *)
Lemma check_agrees_with_postTeacherSchedule
      (env : Env) (user : User.t) (id : string) (body : ScheduleBody.t)
      (data : ScheduleInput.t) (db : Db) :
  existsb (String.eqb (User.role user)) ["SUPER_ADMIN"; "ADMIN"] = true ->
  createScheduleSchema body = Some data ->
  id <> "" ->
  isSome (Prisma.findFirst
            (fun c => (Class.id c =? ScheduleInput.classId data)
                      && (Class.instituteId c =? User.instituteId user))
            (classes db)) = true ->
  StrOrd.lt (ScheduleInput.startTime data) (ScheduleInput.endTime data) = true ->
  (exists conflicts,
      snd (handle env user (POST_schedules_conflicts_check (probeOf id data)) db)
      = Ok (mkResponse 200 (ConflictCheck true conflicts)))
  <-> (exists c,
          snd (handle env user (POST_teachers_schedules id body) db)
          = Err (AppError 400 (TimeConflictDetected c))).
Proof.
  intros Hrole Hdata Hid Hclass Hlt.
  destruct (createScheduleSchema_times _ Hdata) as [Hs He].
  unfold_handlers. unfold probeOf. cbn [CheckBody.teacherId CheckBody.dayOfWeek
    CheckBody.startTime CheckBody.endTime CheckBody.excludeScheduleId].
  rewrite (time_nonEmpty _ Hs), (time_nonEmpty _ He).
  assert (Hne : nonEmpty (Some id) = Some id).
  { unfold nonEmpty, truthy. apply String.eqb_neq in Hid. now rewrite Hid. }
  rewrite Hne, Hrole, Hdata. cbv beta iota zeta. cbn [st_db st_writes].
  destruct (isSome (Prisma.findFirst
                      (fun u => (User.id u =? id)
                                && (User.instituteId u =? User.instituteId user)
                                && (User.role u =? "TEACHER")) (users db))) eqn:Ht;
    cbv beta iota zeta; cbn [st_db st_writes snd].
  2: { split; intros [x Hx]; inversion Hx. }
  rewrite Hclass. cbv beta iota zeta. cbn [st_db st_writes snd].
  rewrite StrOrd.ge_nlt, Hlt. cbv beta iota zeta. cbn [negb st_db st_writes snd].
  unfold Prisma.findFirst, Prisma.findMany. rewrite find_filter.
  erewrite (filter_ext
              (fun r => (Timetable.teacherId r =? id)
                        && Day.eqb (Timetable.dayOfWeek r) (ScheduleInput.dayOfWeek data)
                        && conflictsCheckOR (ScheduleInput.startTime data)
                                            (ScheduleInput.endTime data) r
                        && whenSet (nonEmpty None) (fun x => negb (Timetable.id r =? x))));
    [|intros r; cbn [nonEmpty truthy whenSet]; rewrite andb_true_r; reflexivity].
  destruct (filter _ (timetables db)) as [|c cs]; cbn [hd_error length Nat.ltb Nat.leb].
  - split; intros [x Hx]; simpl in Hx; split_steps Hx; inversion Hx.
  - split; intros _; eexists; reflexivity.
Qed.

(** Whatever else a schedule body holds, [POST /:id/schedules] never stores
    a range with [startTime >= endTime]. *)
Lemma postTeacherSchedule_reversed_rejected
      (env : Env) (user : User.t) (id : string) (body : ScheduleBody.t)
      (data : ScheduleInput.t) (db db' : Db) (res : Result Response) :
  createScheduleSchema body = Some data ->
  StrOrd.ge (ScheduleInput.startTime data) (ScheduleInput.endTime data) = true ->
  handle env user (POST_teachers_schedules id body) db = (db', res) ->
  db' = db /\ exists e, res = Err e.
Proof.
  intros Hdata Hge H. unfold_handlers. rewrite Hdata in H.
  split_steps H; pair_inv H; try (split; [reflexivity|eexists; reflexivity]).
  all: rewrite Hge in *; discriminate.
Qed.

(* ================================================================== *)
(** ** The timetable routes against the schedule routes (C1, C4, C6, C7) *)

Module Scenario.
Import Sample SampleRanges.

(** The probe and the two create requests for T/MONDAY/09:30-10:30. *)
Definition checkHalfPastNine : Request :=
  POST_schedules_conflicts_check
    (CheckBody.mk (Some teacherT) (Some MONDAY) (Some "09:30") (Some "10:30") None).

Definition timetableHalfPastNine : Request :=
  POST_timetable_classes classB
    (timetableBody classB subjectS teacherT "MONDAY" "09:30" "10:30").

Definition scheduleHalfPastNine : Request :=
  POST_teachers_schedules teacherT (scheduleBody classB "MONDAY" "09:30" "10:30").

(** The create requests for the adjacent T/MONDAY/10:00-11:00. *)
Definition timetableTen : Request :=
  POST_timetable_classes classB
    (timetableBody classB subjectS teacherT "MONDAY" "10:00" "11:00").

Definition scheduleTen : Request :=
  POST_teachers_schedules teacherT (scheduleBody classB "MONDAY" "10:00" "11:00").

(** What [POST /:id/schedules] stores for 10:00-11:00: no subject, and the
    column defaults. *)
Definition scheduledTen : Timetable.t :=
  Timetable.mk freshId classB "" teacherT MONDAY "10:00" "11:00" None false true.

(** A range that ends before it starts, TUESDAY 10:00-09:00. *)
Definition timetableReversed : Request :=
  POST_timetable_classes classB
    (timetableBody classB subjectS teacherT "TUESDAY" "10:00" "09:00").

Definition scheduleReversed : Request :=
  POST_teachers_schedules teacherT (scheduleBody classB "TUESDAY" "10:00" "09:00").

Definition reversed : Timetable.t :=
  Timetable.mk freshId classB subjectS teacherT TUESDAY "10:00" "09:00" None true true.

(** T is qualified for S only; S2 is another subject of the institute. *)
Definition timetableUnqualified : Request :=
  POST_timetable_classes classB
    (timetableBody classB subjectS2 teacherT "TUESDAY" "09:00" "10:00").
End Scenario.

(** C1.  With the entry T/MONDAY/09:00-10:00 stored, the timetable create
    [POST /classes/:classId] for T/MONDAY/09:30-10:30 answers 201 and
    stores the overlapping entry, because it looks for an equal [startTime]
    only; the schedule create [POST /:id/schedules] rejects the same slot
    with the time conflict that names the stored entry.  The adjacent
    10:00-11:00 is accepted by both. *)
Theorem C1_timetable_create_stores_overlapping_entry :
  overlaps (range Sample.mondayNine) (range SampleRanges.halfPastNine) = true
  /\ handle Sample.env Sample.admin Scenario.timetableHalfPastNine Sample.db
     = (Sample.tables [Sample.mondayNine; SampleRanges.halfPastNine],
        Ok (mkResponse 201 (Row SampleRanges.halfPastNine)))
  /\ handle Sample.env Sample.admin Scenario.scheduleHalfPastNine Sample.db
     = (Sample.db, Err (AppError 400 (TimeConflictDetected Sample.mondayNine)))
  /\ handle Sample.env Sample.admin Scenario.timetableTen Sample.db
     = (Sample.tables [Sample.mondayNine; SampleRanges.mondayTen],
        Ok (mkResponse 201 (Row SampleRanges.mondayTen)))
  /\ handle Sample.env Sample.admin Scenario.scheduleTen Sample.db
     = (Sample.tables [Sample.mondayNine; Scenario.scheduledTen],
        Ok (mkResponse 201 (Row Scenario.scheduledTen))).
Proof. repeat split; vm_compute; reflexivity. Qed.

(** C4.  The timetable create [POST /classes/:classId] validates each time
    on its own and never compares them: for TUESDAY 10:00-09:00 it answers
    201 and stores the entry.  The schedule create [POST /:id/schedules]
    rejects the same range with 'End time must be after start time' and
    leaves the store as it was. *)
Theorem C4_timetable_create_stores_reversed_range :
  StrOrd.ge "10:00" "09:00" = true
  /\ handle Sample.env Sample.admin Scenario.timetableReversed Sample.db
     = (Sample.tables [Sample.mondayNine; Scenario.reversed],
        Ok (mkResponse 201 (Row Scenario.reversed)))
  /\ handle Sample.env Sample.admin Scenario.scheduleReversed Sample.db
     = (Sample.db, Err (AppError 400 EndTimeMustBeAfterStartTime)).
Proof. repeat split; vm_compute; reflexivity. Qed.

(** C6.  With T/MONDAY/09:00-10:00 stored, the conflict check for
    T/MONDAY/09:30-10:30 reports [hasConflict = true] and lists the stored
    entry, and the timetable create for the same teacher, day and range
    succeeds: the preview and that create do not use the same conflict
    logic. *)
Theorem C6_check_reports_conflict_timetable_create_succeeds :
  handle Sample.env Sample.admin Scenario.checkHalfPastNine Sample.db
  = (Sample.db, Ok (mkResponse 200 (ConflictCheck true [Sample.mondayNine])))
  /\ handle Sample.env Sample.admin Scenario.timetableHalfPastNine Sample.db
     = (Sample.tables [Sample.mondayNine; SampleRanges.halfPastNine],
        Ok (mkResponse 201 (Row SampleRanges.halfPastNine))).
Proof. repeat split; vm_compute; reflexivity. Qed.

(** C7.  The schedule create [POST /:id/schedules] stores a time-bearing
    entry with the empty subject id, which is not in the teacher's
    qualified subjects, and looks up no qualification; the timetable create
    rejects a subject the teacher is not qualified for. *)
Theorem C7_schedule_create_stores_unqualified_subject :
  handle Sample.env Sample.admin Scenario.scheduleTen Sample.db
  = (Sample.tables [Sample.mondayNine; Scenario.scheduledTen],
     Ok (mkResponse 201 (Row Scenario.scheduledTen)))
  /\ Prisma.findFirst
       (fun q => (TeacherSubject.teacherId q =? Timetable.teacherId Scenario.scheduledTen)
                 && (TeacherSubject.subjectId q =? Timetable.subjectId Scenario.scheduledTen))
       (teacherSubjects Sample.db) = None
  /\ handle Sample.env Sample.admin Scenario.timetableUnqualified Sample.db
     = (Sample.db, Err (AppError 400 TeacherNotQualified)).
Proof. repeat split; vm_compute; reflexivity. Qed.

(* ================================================================== *)
(** ** Failures and partial writes (C9) *)

Module Promotion.
Import Sample.

(** ClassA and ClassB with one entry each; T2 is the primary of ClassB. *)
Definition before : Db := tables [mondayNine; tuesdayEleven].

(** Assign T to ClassB as its primary teacher. *)
Definition assignPrimary : Request :=
  POST_classes_teachers classB (AssignBody.mk (Some teacherT) (Some true)).

Definition demoted : Timetable.t := Timetable.with_isPrimary false tuesdayEleven.

(** The placeholder row of the assignment. *)
Definition assigned : Timetable.t :=
  Timetable.mk freshId classB subjectS teacherT MONDAY "09:00" "10:00" None true true.
End Promotion.

(** C9.  [POST /:id/teachers] with [isPrimary = true] first demotes the
    primaries of the class and then inserts the new row, outside any
    transaction.  When the database rejects the insert the request fails
    and the demotion stays: the store after the failure differs from the
    store before the request. *)
Theorem C9_failed_assignment_leaves_demotion :
  handle Sample.envSecondWriteFails Sample.admin Promotion.assignPrimary Promotion.before
  = (Sample.tables [Sample.mondayNine; Promotion.demoted], Err PrismaError)
  /\ Timetable.isPrimary Sample.tuesdayEleven = true
  /\ Timetable.isPrimary Promotion.demoted = false
  /\ Sample.tables [Sample.mondayNine; Promotion.demoted] <> Promotion.before.
Proof.
  repeat split; try (vm_compute; reflexivity).
  intros H. vm_compute in H. discriminate H.
Qed.

(* ================================================================== *)
(** ** Tenant isolation of the reads (C10) *)

Module Tenants.
Import Sample.

(** Two stores that differ in one entry of institute B. *)
Definition without : Db := tables [mondayNine].
Definition with_ : Db := tables [mondayNine; foreign].
End Tenants.

(** C10.  [GET /] builds its [where] clause from the query string alone and
    [GET /:id] looks the entry up by id alone.  An administrator of
    institute A therefore receives the entry of institute B: the list
    differs between two stores that differ only in that entry, and the
    entry is returned by id.  The schedule routes do check the tenant:
    [GET /:id/schedules] answers 404 for the teacher of institute B. *)
Theorem C10_timetable_reads_return_other_tenants_entries :
  User.instituteId Sample.admin = Sample.instituteA
  /\ teacherInInstitute Tenants.with_ Sample.instituteA Sample.foreign = false
  /\ teacherInInstitute Tenants.with_ Sample.instituteB Sample.foreign = true
  /\ handle Sample.env Sample.admin (GET_timetable None None None) Tenants.without
     = (Tenants.without, Ok (mkResponse 200 (Rows [Sample.mondayNine])))
  /\ handle Sample.env Sample.admin (GET_timetable None None None) Tenants.with_
     = (Tenants.with_, Ok (mkResponse 200 (Rows [Sample.mondayNine; Sample.foreign])))
  /\ handle Sample.env Sample.admin (GET_timetable_id Sample.entry3) Tenants.without
     = (Tenants.without, Err (AppError 404 TimetableEntryNotFound))
  /\ handle Sample.env Sample.admin (GET_timetable_id Sample.entry3) Tenants.with_
     = (Tenants.with_, Ok (mkResponse 200 (Row Sample.foreign)))
  /\ handle Sample.env Sample.admin (GET_teachers_schedules Sample.teacherOfB None)
            Tenants.with_
     = (Tenants.with_, Err (AppError 404 TeacherNotFound)).
Proof. repeat split; vm_compute; reflexivity. Qed.

(* ================================================================== *)
(** ** Deleting an entry (C8) *)

(** The timetable rows a response shows. *)
Definition shown (resp : Response) : list Timetable.t :=
  match data resp with
  | Rows rows => rows
  | Row row => [row]
  | TeacherSchedules _ schedules => schedules
  | ConflictCheck _ conflicts => conflicts
  | NoData => []
  end.

Lemma in_insert (x r : Timetable.t) (l : list Timetable.t) :
  In x (Prisma.insert r l) <-> x = r \/ In x l.
Proof.
  induction l as [|y l IH]; simpl.
  - intuition congruence.
  - destruct (Prisma.before r y); simpl; rewrite ?IH; intuition congruence.
Qed.

Lemma in_orderByDayStart (x : Timetable.t) (l : list Timetable.t) :
  In x (Prisma.orderByDayStart l) <-> In x l.
Proof.
  unfold Prisma.orderByDayStart.
  induction l as [|y l IH]; simpl; [tauto|].
  rewrite in_insert, IH. intuition congruence.
Qed.

(** Every row a read shows is a row of the table. *)
Lemma read_shows_stored (env : Env) (user : User.t) (req : Request) (db db' : Db)
      (resp : Response) :
  isRead req = true ->
  handle env user req db = (db', Ok resp) ->
  forall r, In r (shown resp) -> In r (timetables db).
Proof.
  intros Hr H r. destruct req; try discriminate Hr;
    unfold_handlers; split_steps H; pair_inv H; unfold shown; simpl;
    unfold Prisma.findMany, Prisma.findFirst in *;
    rewrite ?in_orderByDayStart, ?filter_In; try tauto.
  intros [<-|[]].
  match goal with E : find _ _ = Some _ |- _ => apply find_some in E; tauto end.
Qed.

(** The entry a time conflict names is a row of the table. *)
Lemma conflict_is_stored (env : Env) (user : User.t) (req : Request) (db db' : Db)
      (code : nat) (c : Timetable.t) :
  handle env user req db = (db', Err (AppError code (TimeConflictDetected c))) ->
  In c (timetables db).
Proof.
  intros H. destruct req; unfold_handlers; split_steps H; pair_inv H.
  all: match goal with
       | E : Prisma.findFirst _ (timetables _) = Some ?x |- In ?x _ =>
           apply find_some in E; tauto
       end.
Qed.

Definition isDelete (req : Request) : bool :=
  match req with
  | DELETE_timetable_id _ | DELETE_schedules_id _ | DELETE_classes_teachers _ _ => true
  | _ => false
  end.

Lemma delete_names_entry (env : Env) (user : User.t) (req : Request) (db db' : Db)
      (resp : Response) :
  isDelete req = true ->
  handle env user req db = (db', Ok resp) ->
  exists target, deletedId db req = Some target.
Proof.
  intros Hd H. destruct req; try discriminate Hd; simpl; eauto.
  unfold_handlers; split_steps H; pair_inv H; simpl; eauto.
Qed.

(** C8 as stated fails: after [DELETE /:id] no row carries the id, so the
    entry is not kept with [isActive = false]. *)
Lemma C8_delete_does_not_retain_the_entry :
  In Sample.mondayNine (timetables Sample.db)
  /\ handle Sample.env Sample.admin (DELETE_timetable_id Sample.entry1) Sample.db
     = (Sample.tables [], Ok (mkResponse 200 NoData))
  /\ ~ (exists r, In r (timetables (Sample.tables []))
                  /\ Timetable.id r = Sample.entry1
                  /\ Timetable.isActive r = false).
Proof.
  split; [left; reflexivity|]. split; [vm_compute; reflexivity|].
  intros (r & [] & _).
Qed.

(** C8, amended.  A successful delete (of a timetable entry, a schedule or a
    teacher-class assignment) removes the entry from the table: no row with
    its id is left, every other row and every other table is as before, and
    afterwards no listing shows the entry and no conflict report names
    it. *)
Theorem C8_delete_removes_the_entry
        (env : Env) (user : User.t) (req : Request) (db db' : Db) (resp : Response)
        (target : string) :
  deletedId db req = Some target ->
  handle env user req db = (db', Ok resp) ->
  (exists entry, In entry (timetables db) /\ Timetable.id entry = target)
  /\ (forall r, In r (timetables db') -> Timetable.id r <> target)
  /\ timetables db'
     = filter (fun r => negb (Timetable.id r =? target)) (timetables db)
  /\ (users db', classes db', subjects db', teacherSubjects db')
     = (users db, classes db, subjects db, teacherSubjects db)
  /\ (forall env' user' req' db'' resp',
         isRead req' = true ->
         handle env' user' req' db' = (db'', Ok resp') ->
         forall r, In r (shown resp') -> Timetable.id r <> target)
  /\ (forall env' user' req' db'' code c,
         handle env' user' req' db' = (db'', Err (AppError code (TimeConflictDetected c))) ->
         Timetable.id c <> target).
Proof.
  intros Hd H.
  destruct (delete_ok _ _ _ _ Hd H) as (Hentry & -> & _).
  assert (Hgone : forall r,
             In r (timetables
                     (set_timetables
                        (Prisma.deleteMany (fun r => Timetable.id r =? target)) db)) ->
             Timetable.id r <> target).
  { intros r Hin. simpl in Hin. unfold Prisma.deleteMany in Hin.
    apply filter_In in Hin. destruct Hin as [_ Hne].
    apply negb_true_iff, String.eqb_neq in Hne. exact Hne. }
  repeat split; auto.
  - intros env' user' req' db'' resp' Hread Hr r Hin.
    apply Hgone. eapply read_shows_stored; eauto.
  - intros env' user' req' db'' code c Hc.
    apply Hgone. eapply conflict_is_stored; eauto.
Qed.

Lemma C8_delete_removes_the_entry_witness :
  timetables (Sample.tables [])
  = filter (fun r => negb (Timetable.id r =? Sample.entry1)) (timetables Sample.db).
Proof.
  exact (proj1 (proj2 (proj2
           (@C8_delete_removes_the_entry
              Sample.env Sample.admin (DELETE_timetable_id Sample.entry1)
              Sample.db (Sample.tables []) (mkResponse 200 NoData) Sample.entry1
              eq_refl eq_refl)))).
Defined.

(* ================================================================== *)
(** ** No double booking across mutations (C2) *)

Module Assignments.
Import Sample.

(** T teaches ClassA on MONDAY 09:00-10:00 and is now assigned to ClassB
    too. *)
Definition before : Db := tables [mondayNine; tuesdayEleven].

Definition assign : Request :=
  POST_classes_teachers classB (AssignBody.mk (Some teacherT) None).

(** The placeholder row: MONDAY 09:00-10:00 again. *)
Definition placeholder : Timetable.t :=
  Timetable.mk freshId classB subjectS teacherT MONDAY "09:00" "10:00" None false true.
End Assignments.

(** C2 as stated fails: assigning a teacher to a class inserts a row with
    the fixed slot MONDAY 09:00-10:00 and scans for no conflict.  Teacher T,
    who already teaches on MONDAY 09:00-10:00, is double booked after a
    successful assignment to a second class. *)
Lemma C2_assignment_create_double_books :
  NoDoubleBooking (timetables Assignments.before)
  /\ handle Sample.env Sample.admin Assignments.assign Assignments.before
     = (Sample.tables [Sample.mondayNine; Sample.tuesdayEleven; Assignments.placeholder],
        Ok (mkResponse 201 (Row Assignments.placeholder)))
  /\ ~ NoDoubleBooking
         (timetables
            (Sample.tables
               [Sample.mondayNine; Sample.tuesdayEleven; Assignments.placeholder])).
Proof.
  split; [|split].
  - intros a b [<-|[<-|[]]] [<-|[<-|[]]] (Hid & _ & _ & Ht & _);
      try (now apply Hid); discriminate Ht.
  - vm_compute. reflexivity.
  - intros Hfree.
    apply (Hfree Sample.mondayNine Assignments.placeholder).
    + left. reflexivity.
    + right. right. left. reflexivity.
    + repeat split; try reflexivity. discriminate.
Qed.

(** The mutations that scan for an interval conflict or leave every slot
    alone: all but the timetable create and update and the assignment
    create. *)
Definition keepsBookingsApart (req : Request) : bool :=
  match req with
  | POST_timetable_classes _ _ | PUT_timetable_id _ _ | POST_classes_teachers _ _ => false
  | _ => true
  end.

Lemma postScheduleOR_clear (r : Timetable.t) (s e : string) :
  postScheduleOR s e r = false -> overlaps (range r) (s, e) = false.
Proof.
  intros H. destruct (overlaps (range r) (s, e)) eqn:E; [|reflexivity].
  apply overlaps_postScheduleOR in E. congruence.
Qed.

(** C2, amended.  The schedule create, update and delete, the timetable
    delete and the assignment update and delete keep the bookings apart: if
    the ids are unique and no teacher has two overlapping active entries on
    one day before such a request, and the id of a created row is new, the
    same holds after it succeeds. *)
Theorem C2_checked_mutations_keep_bookings_apart
        (env : Env) (user : User.t) (req : Request) (db db' : Db) (resp : Response) :
  keepsBookingsApart req = true ->
  ~ In (uuid env) (map Timetable.id (timetables db)) ->
  PrimaryKey (timetables db) ->
  NoDoubleBooking (timetables db) ->
  handle env user req db = (db', Ok resp) ->
  PrimaryKey (timetables db') /\ NoDoubleBooking (timetables db').
Proof.
  intros Hreq Hfresh Hkey Hfree H.
  destruct (isRead req) eqn:Hread.
  { rewrite (read_unchanged _ _ _ _ Hread H). auto. }
  destruct (isDelete req) eqn:Hdel.
  { destruct (delete_names_entry _ _ _ _ Hdel H) as (target & Htarget).
    destruct (delete_ok _ _ _ _ Htarget H) as (_ & -> & _). simpl. split.
    - now apply PrimaryKey_deleteMany.
    - now apply NoDoubleBooking_deleteMany. }
  destruct req; try discriminate.
  - (* POST /:id/schedules *)
    destruct (postTeacherSchedule_ok _ _ _ _ _ H)
      as (data & _ & _ & Hclear & Hdb & _).
    cbv zeta in Hdb. subst db'. simpl. split.
    + now apply PrimaryKey_create.
    + apply NoDoubleBooking_create; [assumption|].
      intros r Hr Ht Hd. simpl in Ht, Hd.
      apply (postScheduleOR_clear r). now apply Hclear.
  - (* PUT /:id (schedules) *)
    destruct (putSchedule_ok _ _ _ _ _ H)
      as (data & existing & _ & Hin & Hid & (_ & Hclear) & -> & _).
    simpl. split.
    + apply PrimaryKey_updateMany; [assumption|]. reflexivity.
    + apply NoDoubleBooking_reschedule with (existing := existing);
        try assumption.
      * intros r. split; reflexivity.
      * intros r Hr Hne Ht Hd. simpl in Hd.
        apply (postScheduleOR_clear r). now apply Hclear.
  - (* PUT /:id/teachers/:teacherId *)
    destruct (putClassTeacher_ok _ _ _ _ _ _ H)
      as (flag & assignment & _ & _ & -> & _).
    simpl. split.
    + apply PrimaryKey_updateMany; [|reflexivity].
      destruct flag; [|assumption].
      apply PrimaryKey_updateMany; [assumption|reflexivity].
    + apply NoDoubleBooking_updateMany; [|apply with_isPrimary_keepsSlot].
      destruct flag; [|assumption].
      apply NoDoubleBooking_updateMany; [assumption|apply with_isPrimary_keepsSlot].
Qed.

Lemma C2_checked_mutations_keep_bookings_apart_witness :
  PrimaryKey (timetables (Sample.tables [Sample.mondayNine; Scenario.scheduledTen]))
  /\ NoDoubleBooking
       (timetables (Sample.tables [Sample.mondayNine; Scenario.scheduledTen])).
Proof.
  apply (@C2_checked_mutations_keep_bookings_apart
           Sample.env Sample.admin Scenario.scheduleTen Sample.db
           (Sample.tables [Sample.mondayNine; Scenario.scheduledTen])
           (mkResponse 201 (Row Scenario.scheduledTen))).
  - reflexivity.
  - simpl. intros [H|[]]. discriminate H.
  - repeat constructor. simpl. intros [].
  - intros a b [<-|[]] [<-|[]] (Hid & _). now apply Hid.
  - vm_compute. reflexivity.
Defined.

(* ================================================================== *)
(** ** The primary teacher of a class (C3) *)

(** The entries of a class that are marked primary. *)
Definition primaries (classId : string) (rows : list Timetable.t) : list Timetable.t :=
  filter (fun r => (Timetable.classId r =? classId) && Timetable.isPrimary r) rows.

Definition AtMostOnePrimary (rows : list Timetable.t) : Prop :=
  forall a b,
    In a rows -> In b rows ->
    Timetable.isActive a = true -> Timetable.isActive b = true ->
    Timetable.isPrimary a = true -> Timetable.isPrimary b = true ->
    Timetable.classId a = Timetable.classId b ->
    Timetable.id a = Timetable.id b.

Module SecondPrimary.
Import Sample.

(** ClassB has its primary entry (T2 on TUESDAY). *)
Definition before : Db := tables [mondayNine; tuesdayEleven].

(** A further slot of ClassB, [isPrimary] left to its default. *)
Definition create : Request :=
  POST_timetable_classes classB
    (timetableBody classB subjectS teacherT "WEDNESDAY" "09:00" "10:00").

Definition wednesdayNine : Timetable.t :=
  Timetable.mk freshId classB subjectS teacherT WEDNESDAY "09:00" "10:00" None true true.
End SecondPrimary.

(** C3 as stated fails: the timetable create defaults [isPrimary] to [true]
    and demotes nothing, so after it ClassB has two active primary
    entries. *)
Lemma C3_timetable_create_adds_a_second_primary :
  AtMostOnePrimary (timetables SecondPrimary.before)
  /\ handle Sample.env Sample.admin SecondPrimary.create SecondPrimary.before
     = (Sample.tables
          [Sample.mondayNine; Sample.tuesdayEleven; SecondPrimary.wednesdayNine],
        Ok (mkResponse 201 (Row SecondPrimary.wednesdayNine)))
  /\ ~ AtMostOnePrimary
         (timetables
            (Sample.tables
               [Sample.mondayNine; Sample.tuesdayEleven; SecondPrimary.wednesdayNine])).
Proof.
  split; [|split].
  - intros a b [<-|[<-|[]]] [<-|[<-|[]]] _ _ Ha Hb Hc;
      try reflexivity; discriminate.
  - vm_compute. reflexivity.
  - intros Hone.
    assert (E : Timetable.id Sample.tuesdayEleven
                = Timetable.id SecondPrimary.wednesdayNine).
    { apply Hone; try reflexivity.
      - right. left. reflexivity.
      - right. right. left. reflexivity. }
    discriminate E.
Qed.

(** The class whose primary teacher a request sets. *)
Definition promotedClass (req : Request) : option string :=
  match req with
  | POST_classes_teachers id body =>
      if orElse (AssignBody.isPrimary body) false then Some id else None
  | PUT_classes_teachers id _ (Some true) => Some id
  | _ => None
  end.

Section Filtering.

Variable q : Timetable.t -> bool.
Variable g : Timetable.t -> Timetable.t.

Lemma filter_map_none (rows : list Timetable.t) :
  (forall r, In r rows -> q (g r) = false) -> filter q (map g rows) = [].
Proof.
  induction rows as [|r rows IH]; simpl; intros H; [reflexivity|].
  rewrite (H r (or_introl eq_refl)). apply IH. intros; apply H; now right.
Qed.

(** Of rows with unique ids, the filter keeps the image of the one row it
    accepts. *)
Lemma filter_map_one (rows : list Timetable.t) (x : Timetable.t) :
  PrimaryKey rows ->
  In x rows ->
  (forall r, In r rows -> q (g r) = true <-> Timetable.id r = Timetable.id x) ->
  filter q (map g rows) = [g x].
Proof.
  unfold PrimaryKey.
  induction rows as [|r rows IH]; simpl; intros Hnd Hin Hq; [contradiction|].
  inversion Hnd as [|? ? Hnotin Hnd']; subst.
  destruct Hin as [->|Hin].
  - assert (E : q (g x) = true) by (apply Hq; auto).
    rewrite E. f_equal. apply filter_map_none.
    intros r Hr. destruct (q (g r)) eqn:Eq; [|reflexivity].
    exfalso. apply Hnotin.
    assert (Hid : Timetable.id r = Timetable.id x) by (apply Hq; auto).
    rewrite <- Hid. now apply in_map.
  - assert (E : q (g r) = false).
    { destruct (q (g r)) eqn:Eq; [|reflexivity].
      exfalso. apply Hnotin.
      assert (Hid : Timetable.id r = Timetable.id x) by (apply Hq; auto).
      rewrite Hid. now apply in_map. }
    rewrite E. apply IH; auto.
Qed.

End Filtering.

Section Promotion.

Variables c t aid : string.

(** The two writes of [PUT /:id/teachers/:teacherId] with
    [isPrimary = true], on one row. *)
Definition promoteRow (r : Timetable.t) : Timetable.t :=
  let r1 :=
    if (Timetable.classId r =? c) && Timetable.isPrimary r
       && negb (Timetable.teacherId r =? t)
    then Timetable.with_isPrimary false r else r in
  if Timetable.id r1 =? aid then Timetable.with_isPrimary true r1 else r1.

Lemma promoteRow_fields (r : Timetable.t) :
  Timetable.id (promoteRow r) = Timetable.id r
  /\ Timetable.classId (promoteRow r) = Timetable.classId r
  /\ Timetable.teacherId (promoteRow r) = Timetable.teacherId r.
Proof.
  unfold promoteRow.
  destruct ((Timetable.classId r =? c) && Timetable.isPrimary r
            && negb (Timetable.teacherId r =? t)); simpl;
    destruct (Timetable.id r =? aid); simpl; auto.
Qed.

Lemma promoteRow_primary (r : Timetable.t) :
  (Timetable.classId (promoteRow r) =? c) && Timetable.isPrimary (promoteRow r) = true
  <-> Timetable.classId r = c
      /\ (Timetable.id r = aid
          \/ (Timetable.isPrimary r = true /\ Timetable.teacherId r = t)).
Proof.
  unfold promoteRow.
  destruct (Timetable.classId r =? c) eqn:Ec,
           (Timetable.isPrimary r) eqn:Ep,
           (Timetable.teacherId r =? t) eqn:Et; simpl;
    destruct (Timetable.id r =? aid) eqn:Ei; simpl;
    rewrite ?Ec, ?Ep; simpl;
    rewrite ?String.eqb_eq, ?String.eqb_neq in *;
    intuition congruence.
Qed.

Lemma updateMany_promote (rows : list Timetable.t) :
  Prisma.updateMany (fun r => Timetable.id r =? aid) (Timetable.with_isPrimary true)
    (Prisma.updateMany
       (fun r => (Timetable.classId r =? c) && Timetable.isPrimary r
                 && negb (Timetable.teacherId r =? t))
       (Timetable.with_isPrimary false) rows)
  = map promoteRow rows.
Proof. unfold Prisma.updateMany. rewrite map_map. reflexivity. Qed.

End Promotion.

Lemma assignTeacherSchema_isPrimary (body : AssignBody.t) (data : AssignInput.t) :
  assignTeacherSchema body = Some data ->
  AssignInput.isPrimary data = orElse (AssignBody.isPrimary body) false.
Proof.
  unfold assignTeacherSchema.
  destruct (required Zod.uuid (AssignBody.teacherId body)); [|discriminate].
  intros H. injection H as <-. reflexivity.
Qed.

(** C3, amended.  A successful request that makes a teacher the primary of
    class [c] leaves the entry [e] it returns marked primary, and every
    primary entry of [c] belongs to the teacher of [e].  After the
    assignment create [e] is the new row and the only primary entry of [c];
    after the assignment update it is the only one when its teacher has no
    other entry in [c]. *)
Theorem C3_promotion_leaves_one_primary
        (env : Env) (user : User.t) (req : Request) (db db' : Db) (resp : Response)
        (c : string) :
  promotedClass req = Some c ->
  PrimaryKey (timetables db) ->
  handle env user req db = (db', Ok resp) ->
  exists e,
    data resp = Row e
    /\ In e (primaries c (timetables db'))
    /\ (forall r, In r (primaries c (timetables db')) ->
                  Timetable.teacherId r = Timetable.teacherId e)
    /\ match req with
       | POST_classes_teachers _ _ =>
           Timetable.id e = uuid env /\ primaries c (timetables db') = [e]
       | _ =>
           (forall r, In r (timetables db) ->
                      Timetable.classId r = c ->
                      Timetable.teacherId r = Timetable.teacherId e ->
                      Timetable.id r = Timetable.id e) ->
           primaries c (timetables db') = [e]
       end.
Proof.
  intros Hc Hkey H. destruct req; try discriminate Hc.
  - (* POST /:id/teachers *)
    simpl in Hc.
    destruct (orElse (AssignBody.isPrimary body) false) eqn:Hp; [|discriminate].
    injection Hc as ->.
    destruct (postClassTeacher_ok _ _ _ _ _ H) as (data & Hdata & -> & ->).
    rewrite (assignTeacherSchema_isPrimary _ Hdata), Hp.
    set (e := assignmentRow env c data (timetables db)).
    assert (Hone : primaries c (timetables
                      (set_timetables
                         (fun rows =>
                            Prisma.create e
                              (Prisma.updateMany
                                 (fun r => (Timetable.classId r =? c) && Timetable.isPrimary r)
                                 (Timetable.with_isPrimary false) rows)) db)) = [e]).
    { simpl. unfold primaries, Prisma.create, Prisma.updateMany.
      rewrite filter_app, filter_map_none.
      - simpl. rewrite String.eqb_refl.
        rewrite (assignTeacherSchema_isPrimary _ Hdata), Hp. reflexivity.
      - intros r _.
        destruct (Timetable.classId r =? c) eqn:Ec, (Timetable.isPrimary r) eqn:Ei;
          simpl; rewrite ?Ec, ?Ei; reflexivity. }
    exists e. rewrite Hone. repeat split.
    + left. reflexivity.
    + intros r [<-|[]]. reflexivity.
  - (* PUT /:id/teachers/:teacherId *)
    simpl in Hc. destruct isPrimary as [[|]|]; try discriminate Hc.
    injection Hc as ->.
    destruct (putClassTeacher_ok _ _ _ _ _ _ H)
      as (flag & assignment & Hflag & Hfound & -> & ->).
    injection Hflag as <-.
    apply find_some in Hfound. destruct Hfound as [Hin Hmatch].
    apply andb_true_iff in Hmatch. destruct Hmatch as [Hclass Hteacher].
    apply String.eqb_eq in Hclass, Hteacher.
    exists (Timetable.with_isPrimary true assignment).
    cbn [data timetables set_timetables]. rewrite updateMany_promote.
    unfold primaries.
    assert (He : promoteRow c teacherId (Timetable.id assignment) assignment
                 = Timetable.with_isPrimary true assignment).
    { unfold promoteRow. rewrite Hteacher, String.eqb_refl, andb_false_r.
      now rewrite String.eqb_refl. }
    split; [reflexivity|]. split; [|split].
    + apply filter_In. split.
      * rewrite <- He. now apply in_map.
      * simpl. now rewrite Hclass, String.eqb_refl.
    + intros r' Hr'. apply filter_In in Hr'. destruct Hr' as [Hr' Hq].
      apply in_map_iff in Hr'. destruct Hr' as (r & <- & Hr).
      apply promoteRow_primary in Hq. destruct Hq as [Hrc Hcases].
      destruct (promoteRow_fields c teacherId (Timetable.id assignment) r)
        as (_ & _ & ->).
      simpl. rewrite Hteacher.
      destruct Hcases as [Hid|[_ Ht]]; [|exact Ht].
      now rewrite (PrimaryKey_unique Hkey r assignment Hr Hin Hid).
    + intros Hsingle. rewrite <- He.
      apply filter_map_one; try assumption.
      intros r Hr. rewrite promoteRow_primary. split.
      * intros [Hrc [Hid|[_ Ht]]]; [exact Hid|].
        apply Hsingle; auto. simpl. congruence.
      * intros Hid. split; [|now left].
        now rewrite (PrimaryKey_unique Hkey r assignment Hr Hin Hid).
Qed.

Lemma C3_promotion_leaves_one_primary_witness :
  primaries Sample.classB
    (timetables
       (Sample.tables [Sample.mondayNine; Promotion.demoted; Promotion.assigned]))
  = [Promotion.assigned].
Proof.
  destruct (@C3_promotion_leaves_one_primary
              Sample.env Sample.admin Promotion.assignPrimary Promotion.before
              (Sample.tables [Sample.mondayNine; Promotion.demoted; Promotion.assigned])
              (mkResponse 201 (Row Promotion.assigned)) Sample.classB)
    as (e & He & _ & _ & _ & Hone).
  - reflexivity.
  - unfold PrimaryKey. simpl.
    constructor; [intros [H|[]]; discriminate H|].
    constructor; [intros []|constructor].
  - vm_compute. reflexivity.
  - simpl in He. injection He as <-. exact Hone.
Defined.


(* ================================================================== *)
(** * Further properties of the handlers *)

(* ================================================================== *)
(** ** Times: the pattern and the string order *)

(** Clock times and their zero-padded 24-hour notation, the reading of the
    strings the time pattern accepts. *)
Module Clock.

Definition digitChar (n : nat) : ascii := ascii_of_nat (48 + n).

Definition digitVal (c : ascii) : nat := nat_of_ascii c - 48.

(** ["HH:MM"] for hour [h] and minute [m]. *)
Definition format (h m : nat) : string :=
  String (digitChar (h / 10)) (String (digitChar (h mod 10))
    (String ":"
       (String (digitChar (m / 10)) (String (digitChar (m mod 10)) EmptyString)))).

(** Minutes since midnight of an ["HH:MM"] string. *)
Definition minutes (s : string) : nat :=
  match s with
  | String a (String b (String _ (String c (String d _)))) =>
      60 * (10 * digitVal a + digitVal b) + (10 * digitVal c + digitVal d)
  | _ => 0
  end.

Lemma digitVal_digitChar (n : nat) : n < 10 -> digitVal (digitChar n) = n.
Proof.
  intros H. unfold digitVal, digitChar.
  rewrite nat_ascii_embedding by lia. lia.
Qed.

Lemma compare_digitChar (a b : nat) :
  a < 10 -> b < 10 ->
  Ascii.compare (digitChar a) (digitChar b) = Nat.compare a b.
Proof.
  intros Ha Hb. unfold Ascii.compare, digitChar, ascii_of_nat.
  rewrite !N_ascii_embedding by lia.
  rewrite <- Nat2N.inj_compare.
  destruct (Nat.compare_spec a b), (Nat.compare_spec (48 + a) (48 + b));
    try reflexivity; lia.
Qed.

Lemma digits_of (n : nat) :
  n < 100 -> n / 10 < 10 /\ n mod 10 < 10 /\ n = 10 * (n / 10) + n mod 10.
Proof.
  intros H. split; [|split].
  - apply Nat.Div0.div_lt_upper_bound. lia.
  - apply Nat.mod_upper_bound. lia.
  - apply Nat.div_mod_eq.
Qed.

Lemma of_digits (a b : nat) :
  b < 10 -> (10 * a + b) / 10 = a /\ (10 * a + b) mod 10 = b.
Proof.
  intros Hb. split.
  - symmetry. apply Nat.div_unique with b; lia.
  - symmetry. apply Nat.mod_unique with a; lia.
Qed.

Lemma minutes_format (h m : nat) :
  h < 100 -> m < 100 -> minutes (format h m) = 60 * h + m.
Proof.
  intros Hh Hm. unfold minutes, format.
  destruct (digits_of Hh) as (A & B & E1), (digits_of Hm) as (C & D & E2).
  rewrite !digitVal_digitChar by assumption. lia.
Qed.

(** On the notation, the order of strings is the order of the clock. *)
Lemma lt_format (h m h' m' : nat) :
  h < 100 -> m < 100 -> h' < 100 -> m' < 100 ->
  StrOrd.lt (format h m) (format h' m') = Nat.ltb (100 * h + m) (100 * h' + m').
Proof.
  intros Hh Hm Hh' Hm'.
  destruct (digits_of Hh) as (A & B & E1), (digits_of Hm) as (C & D & E2).
  destruct (digits_of Hh') as (A' & B' & E1'), (digits_of Hm') as (C' & D' & E2').
  unfold StrOrd.lt, String.ltb, format. cbn [String.compare].
  rewrite !compare_digitChar by assumption.
  rewrite StrOrd.ascii_compare_refl.
  replace (100 * h + m)
    with (100 * (10 * (h / 10) + h mod 10) + (10 * (m / 10) + m mod 10)) by lia.
  replace (100 * h' + m')
    with (100 * (10 * (h' / 10) + h' mod 10) + (10 * (m' / 10) + m' mod 10)) by lia.
  clear E1 E2 E1' E2'.
  generalize dependent (h / 10). generalize dependent (h mod 10).
  generalize dependent (m / 10). generalize dependent (m mod 10).
  generalize dependent (h' / 10). generalize dependent (h' mod 10).
  generalize dependent (m' / 10). generalize dependent (m' mod 10).
  intros.
  destruct (Nat.ltb_spec (100 * (10 * n6 + n5) + (10 * n4 + n3))
                         (100 * (10 * n2 + n1) + (10 * n0 + n)));
    destruct (Nat.compare_spec n6 n2); try lia; try reflexivity;
    destruct (Nat.compare_spec n5 n1); try lia; try reflexivity;
    destruct (Nat.compare_spec n4 n0); try lia; try reflexivity;
    destruct (Nat.compare_spec n3 n); try lia; try reflexivity.
Qed.

End Clock.

Lemma between_digits (lo hi c : ascii) :
  (48 <= N_of_ascii lo)%N ->
  Zod.between lo hi c = true ->
  c = Clock.digitChar (Clock.digitVal c)
  /\ nat_of_ascii lo - 48 <= Clock.digitVal c <= nat_of_ascii hi - 48.
Proof.
  intros Hlo H. unfold Zod.between in H.
  apply andb_true_iff in H. destruct H as [H1 H2].
  apply N.leb_le in H1, H2.
  unfold Clock.digitChar, Clock.digitVal, nat_of_ascii in *.
  assert (E : 48 + (N.to_nat (N_of_ascii c) - 48) = N.to_nat (N_of_ascii c)) by lia.
  rewrite E. split; [|lia].
  symmetry. apply ascii_nat_embedding.
Qed.

Lemma digit_digits (c : ascii) :
  Zod.digit c = true ->
  c = Clock.digitChar (Clock.digitVal c) /\ Clock.digitVal c < 10.
Proof.
  intros H.
  destruct (@between_digits "0" "9" c) as [E B]; [vm_compute; discriminate|exact H|].
  split; [exact E|]. change (nat_of_ascii "9" - 48) with 9 in B. lia.
Qed.

Lemma time_all_clock_times :
  forallb (fun h => forallb (fun m => Zod.time (Clock.format h m)) (seq 0 60)) (seq 0 24)
  = true.
Proof. vm_compute. reflexivity. Qed.

Lemma time_iff_clock_time (s : string) :
  Zod.time s = true <-> exists h m, h < 24 /\ m < 60 /\ s = Clock.format h m.
Proof.
  split.
  - intros H. unfold Zod.time in H.
    destruct s as [|a [|b [|c [|d [|e [|f s]]]]]]; try discriminate H;
      cbn [Zod.matches] in H; rewrite ?andb_false_r in H; try discriminate H.
    rewrite !andb_true_r in H.
    apply orb_true_iff in H.
    assert (Hparts :
              (Zod.between "0" "1" a = true /\ Zod.digit b = true
               \/ Zod.chr "2" a = true /\ Zod.between "0" "3" b = true)
              /\ Zod.chr ":" c = true
              /\ Zod.between "0" "5" d = true /\ Zod.digit e = true).
    { rewrite !andb_true_iff in H. tauto. }
    clear H. destruct Hparts as (Hhour & Hc & Hd & He).
    apply Ascii.eqb_eq in Hc. subst c.
    destruct (@between_digits "0" "5" d) as [Ed Bd]; [vm_compute; discriminate|exact Hd|].
    destruct (digit_digits _ He) as [Ee Be].
    change (nat_of_ascii "5" - 48) with 5 in Bd.
    assert (Hh : exists va vb, va < 10 /\ vb < 10 /\ 10 * va + vb < 24
                               /\ a = Clock.digitChar va /\ b = Clock.digitChar vb).
    { destruct Hhour as [[Ha Hb]|[Ha Hb]].
      - destruct (@between_digits "0" "1" a) as [Ea Ba];
          [vm_compute; discriminate|exact Ha|].
        destruct (digit_digits _ Hb) as [Eb Bb].
        change (nat_of_ascii "1" - 48) with 1 in Ba.
        exists (Clock.digitVal a), (Clock.digitVal b). repeat split; auto; lia.
      - apply Ascii.eqb_eq in Ha. subst a.
        destruct (@between_digits "0" "3" b) as [Eb Bb];
          [vm_compute; discriminate|exact Hb|].
        change (nat_of_ascii "3" - 48) with 3 in Bb.
        exists 2, (Clock.digitVal b). repeat split; auto; lia. }
    destruct Hh as (va & vb & Hva & Hvb & Hlt & -> & ->).
    exists (10 * va + vb), (10 * Clock.digitVal d + Clock.digitVal e).
    split; [exact Hlt|]. split; [lia|].
    unfold Clock.format.
    destruct (Clock.of_digits va Hvb) as [-> ->].
    destruct (Clock.of_digits (Clock.digitVal d) Be) as [-> ->].
    now rewrite <- Ed, <- Ee.
  - intros (h & m & Hh & Hm & ->).
    pose proof time_all_clock_times as H.
    rewrite forallb_forall in H.
    specialize (H h). rewrite forallb_forall in H.
    apply H; apply in_seq; lia.
Qed.

(** X1.  The time pattern accepts exactly the zero-padded 24-hour times
    00:00 .. 23:59. *)
Theorem X1_time_pattern_accepts_exactly_clock_times (s : string) :
  Zod.time s = true <-> exists h m, h < 24 /\ m < 60 /\ s = Clock.format h m.
Proof. exact (time_iff_clock_time s). Qed.

(** X2.  On strings the time pattern accepts, the string comparison the
    handlers use is the comparison of clock times. *)
Theorem X2_accepted_times_compare_as_clock_times (s t : string) :
  Zod.time s = true ->
  Zod.time t = true ->
  StrOrd.lt s t = Nat.ltb (Clock.minutes s) (Clock.minutes t)
  /\ StrOrd.ge s t = Nat.leb (Clock.minutes t) (Clock.minutes s).
Proof.
  intros Hs Ht.
  apply time_iff_clock_time in Hs, Ht.
  destruct Hs as (h & m & Hh & Hm & ->), Ht as (h' & m' & Hh' & Hm' & ->).
  unfold StrOrd.ge. rewrite StrOrd.le_nlt.
  rewrite !Clock.lt_format, !Clock.minutes_format by lia.
  destruct (Nat.ltb_spec (100 * h + m) (100 * h' + m')),
           (Nat.ltb_spec (60 * h + m) (60 * h' + m')),
           (Nat.leb_spec (60 * h' + m') (60 * h + m));
    simpl; try lia; split; reflexivity.
Qed.

Lemma X2_accepted_times_compare_as_clock_times_witness :
  StrOrd.lt "09:30" "10:00" = Nat.ltb 570 600.
Proof.
  exact (proj1 (@X2_accepted_times_compare_as_clock_times "09:30" "10:00"
                  eq_refl eq_refl)).
Defined.

(* ================================================================== *)
(** ** Ranges the handlers store *)

Definition ProperRanges (rows : list Timetable.t) : Prop :=
  forall r, In r rows -> proper (range r).

(** The mutations that compare [startTime] with [endTime] or write no time:
    all but the timetable create and update. *)
Definition validatesRange (req : Request) : bool :=
  match req with
  | POST_timetable_classes _ _ | PUT_timetable_id _ _ => false
  | _ => true
  end.

Lemma ProperRanges_updateMany (rows : list Timetable.t) (p : Timetable.t -> bool)
      (f : Timetable.t -> Timetable.t) :
  ProperRanges rows ->
  (forall r, In r rows -> p r = true -> proper (range (f r))) ->
  ProperRanges (Prisma.updateMany p f rows).
Proof.
  intros Hrows Hf r' Hr'. unfold Prisma.updateMany in Hr'.
  apply in_map_iff in Hr'. destruct Hr' as (r & <- & Hr).
  destruct (p r) eqn:E; auto.
Qed.

(** X3.  Every successful request other than the timetable create and
    update leaves [startTime < endTime] on every row, if it held before
    and the ids are unique. *)
Theorem X3_ranges_stay_proper
        (env : Env) (user : User.t) (req : Request) (db db' : Db) (resp : Response) :
  validatesRange req = true ->
  PrimaryKey (timetables db) ->
  ProperRanges (timetables db) ->
  handle env user req db = (db', Ok resp) ->
  ProperRanges (timetables db').
Proof.
  intros Hreq Hkey Hproper H.
  destruct (isRead req) eqn:Hread.
  { now rewrite (read_unchanged _ _ _ _ Hread H). }
  destruct (isDelete req) eqn:Hdel.
  { destruct (delete_names_entry _ _ _ _ Hdel H) as (target & Htarget).
    destruct (delete_ok _ _ _ _ Htarget H) as (_ & -> & _). simpl.
    intros r Hr. unfold Prisma.deleteMany in Hr. apply filter_In in Hr.
    apply Hproper. tauto. }
  destruct req; try discriminate.
  - (* POST /:id/schedules *)
    destruct (postTeacherSchedule_ok _ _ _ _ _ H) as (data & _ & Hlt & _ & Hdb & _).
    cbv zeta in Hdb. subst db'. simpl. unfold Prisma.create.
    intros r Hr. apply in_app_or in Hr. destruct Hr as [Hr|[<-|[]]]; auto.
  - (* PUT /:id (schedules) *)
    destruct (putSchedule_ok _ _ _ _ _ H)
      as (data & existing & _ & Hin & Hid & (Hlt & _) & -> & _).
    simpl. apply ProperRanges_updateMany; [assumption|].
    intros r Hr Hp. apply String.eqb_eq in Hp.
    assert (r = existing) by (apply (PrimaryKey_unique Hkey); congruence).
    subst r. exact Hlt.
  - (* POST /:id/teachers *)
    destruct (postClassTeacher_ok _ _ _ _ _ H) as (data & _ & -> & _).
    simpl. unfold Prisma.create.
    intros r Hr. apply in_app_or in Hr. destruct Hr as [Hr|[<-|[]]].
    + destruct (AssignInput.isPrimary data); [|now apply Hproper].
      revert r Hr. apply ProperRanges_updateMany; [assumption|].
      intros r Hr _. exact (Hproper r Hr).
    + reflexivity.
  - (* PUT /:id/teachers/:teacherId *)
    destruct (putClassTeacher_ok _ _ _ _ _ _ H)
      as (flag & assignment & _ & _ & -> & _).
    simpl.
    assert (Hfirst : ProperRanges
                       (if flag
                        then Prisma.updateMany
                               (fun r => (Timetable.classId r =? id)
                                         && Timetable.isPrimary r
                                         && negb (Timetable.teacherId r =? teacherId))
                               (Timetable.with_isPrimary false) (timetables db)
                        else timetables db)).
    { destruct flag; [|assumption].
      apply ProperRanges_updateMany; [assumption|].
      intros r Hr _. exact (Hproper r Hr). }
    apply ProperRanges_updateMany; [assumption|].
    intros r Hr _. exact (Hfirst r Hr).
Qed.

Lemma X3_ranges_stay_proper_witness :
  ProperRanges (timetables (Sample.tables [Sample.mondayNine; Scenario.scheduledTen])).
Proof.
  apply (@X3_ranges_stay_proper
           Sample.env Sample.admin Scenario.scheduleTen Sample.db
           (Sample.tables [Sample.mondayNine; Scenario.scheduledTen])
           (mkResponse 201 (Row Scenario.scheduledTen))).
  - reflexivity.
  - repeat constructor. simpl. intros [].
  - intros r [<-|[]]. reflexivity.
  - vm_compute. reflexivity.
Defined.

(* ================================================================== *)
(** ** The timetable create and update *)

(** X4.  [POST /classes/:classId] never answers 'This timetable entry
    already exists': a row with the same class, subject, teacher, day and
    start time is a row with the same teacher, day and start time, which the
    check before has already rejected. *)
Theorem X4_timetable_create_never_reports_duplicate
        (env : Env) (user : User.t) (classId : string) (body : TimetableBody.t)
        (db : Db) (code : nat) :
  snd (handle env user (POST_timetable_classes classId body) db)
  <> Err (AppError code TimetableEntryExists).
Proof.
  destruct (handle env user (POST_timetable_classes classId body) db)
    as [db' res] eqn:H.
  simpl. intros ->. unfold_handlers. split_steps H; pair_inv H.
  repeat match goal with
         | E : negb (isSome ?o) = _ |- _ => destruct o eqn:?; simpl in E; try discriminate E; clear E
         end.
  match goal with
  | E1 : Prisma.findFirst _ (timetables _) = Some ?x,
    E2 : Prisma.findFirst _ (timetables _) = None |- _ =>
      destruct (find_some _ _ E1) as [Hin Hp];
      pose proof (find_none _ _ E2 x Hin) as Hn
  end.
  cbv beta in Hp, Hn.
  rewrite !andb_true_iff in Hp. destruct Hp as ((((_ & _) & Ht) & Hd) & Hs).
  rewrite Ht, Hd, Hs in Hn. discriminate Hn.
Qed.

(** No teacher has two entries that start at the same time on one day. *)
Definition DistinctStarts (rows : list Timetable.t) : Prop :=
  forall a b,
    In a rows -> In b rows ->
    Timetable.id a <> Timetable.id b ->
    Timetable.teacherId a = Timetable.teacherId b ->
    Timetable.dayOfWeek a = Timetable.dayOfWeek b ->
    Timetable.startTime a <> Timetable.startTime b.

Lemma DistinctStarts_create (rows : list Timetable.t) (row : Timetable.t) :
  DistinctStarts rows ->
  (forall r, In r rows ->
             Timetable.teacherId r = Timetable.teacherId row ->
             Timetable.dayOfWeek r = Timetable.dayOfWeek row ->
             Timetable.startTime r <> Timetable.startTime row) ->
  DistinctStarts (Prisma.create row rows).
Proof.
  intros Hrows Hnew a b Ha Hb Hid Ht Hd. unfold Prisma.create in *.
  apply in_app_or in Ha. apply in_app_or in Hb.
  destruct Ha as [Ha|[<-|[]]], Hb as [Hb|[<-|[]]].
  - now apply Hrows.
  - now apply Hnew.
  - intros E. apply (Hnew b Hb); congruence.
  - now elim Hid.
Qed.

(** A candidate with [startTime < endTime] that starts when a stored entry
    starts meets one of the three clauses, whatever the stored range. *)
Lemma same_start_postScheduleOR (r : Timetable.t) (s e : string) :
  StrOrd.lt s e = true -> Timetable.startTime r = s -> postScheduleOR s e r = true.
Proof.
  intros Hlt <-. unfold postScheduleOR.
  order_split; order_sat.
Qed.

(** X5.  Both creates keep the start times of a teacher's entries of one
    day distinct: the timetable create by its equal-start check, the
    schedule create because an equal start meets the three clauses. *)
Theorem X5_creates_keep_starts_distinct
        (env : Env) (user : User.t) (req : Request) (db db' : Db) (resp : Response) :
  match req with
  | POST_timetable_classes _ _ | POST_teachers_schedules _ _ => True
  | _ => False
  end ->
  DistinctStarts (timetables db) ->
  handle env user req db = (db', Ok resp) ->
  DistinctStarts (timetables db').
Proof.
  intros Hreq Hrows H. destruct req; try contradiction.
  - (* POST /classes/:classId *)
    unfold_handlers. split_steps H; pair_inv H; simpl.
    all: apply DistinctStarts_create; [assumption|]; simpl; intros r Hr Ht Hd Hs.
    all: match goal with
         | E : negb (isSome (Prisma.findFirst
                               (fun r => (Timetable.teacherId r =? _) && _ && _) _)) = true
           |- _ =>
             destruct (Prisma.findFirst _ _) eqn:Ef in E; [discriminate E|];
             pose proof (find_none _ _ Ef r Hr) as Hn
         end.
    all: cbv beta in Hn; rewrite Ht, Hd, Hs, !String.eqb_refl, Day.eqb_refl in Hn;
      discriminate Hn.
  - (* POST /:id/schedules *)
    destruct (postTeacherSchedule_ok _ _ _ _ _ H)
      as (data & _ & Hlt & Hclear & Hdb & _).
    cbv zeta in Hdb. subst db'. simpl.
    apply DistinctStarts_create; [assumption|]. simpl.
    intros r Hr Ht Hd Hs.
    specialize (Hclear r Hr Ht Hd).
    rewrite (same_start_postScheduleOR r _ Hlt Hs) in Hclear. discriminate Hclear.
Qed.

Lemma X5_creates_keep_starts_distinct_witness :
  DistinctStarts
    (timetables (Sample.tables [Sample.mondayNine; SampleRanges.halfPastNine])).
Proof.
  apply (@X5_creates_keep_starts_distinct
           Sample.env Sample.admin Scenario.timetableHalfPastNine Sample.db
           (Sample.tables [Sample.mondayNine; SampleRanges.halfPastNine])
           (mkResponse 201 (Row SampleRanges.halfPastNine))).
  - exact I.
  - intros a b [<-|[]] [<-|[]] Hid. now elim Hid.
  - vm_compute. reflexivity.
Defined.




(* ================================================================== *)
(** ** Who may call what *)

(** X7.  A caller who is neither SUPER_ADMIN nor ADMIN gets 403 from every
    create, update and delete, with nothing written; the listings and the
    conflict check do not look at the role: their answer depends on the
    caller's institute only. *)
Theorem X7_writes_need_an_administrator
        (env : Env) (user : User.t) (req : Request) (db : Db) :
  existsb (String.eqb (User.role user)) ["SUPER_ADMIN"; "ADMIN"] = false ->
  (isRead req = false ->
   handle env user req db = (db, Err (AppError 403 Forbidden)))
  /\ (isRead req = true ->
      forall other,
        User.instituteId other = User.instituteId user ->
        handle env other req db = handle env user req db).
Proof.
  intros Hrole. split.
  - intros Hread. destruct req; try discriminate Hread;
      unfold_handlers; rewrite Hrole; reflexivity.
  - intros Hread other Hinst. destruct req; try discriminate Hread;
      unfold_handlers; rewrite ?Hinst; reflexivity.
Qed.

Module Roles.
(** A teacher of institute A as the caller. *)
Definition teacher : User.t :=
  User.mk Sample.teacherT Sample.instituteA "TEACHER" true.
End Roles.

Lemma X7_writes_need_an_administrator_witness :
  handle Sample.env Roles.teacher (DELETE_timetable_id Sample.entry1) Sample.db
  = (Sample.db, Err (AppError 403 Forbidden)).
Proof.
  exact (proj1 (@X7_writes_need_an_administrator
                  Sample.env Roles.teacher (DELETE_timetable_id Sample.entry1)
                  Sample.db eq_refl) eq_refl).
Defined.

(* ================================================================== *)
(** ** The conflict check *)

(** X8.  When [POST /conflicts/check] answers, it has written nothing and
    lists every stored entry of the teacher on that day that meets the three
    clauses, except the excluded one, and nothing else; [hasConflict] is
    false exactly when that list is empty. *)
Theorem X8_conflict_check_lists_all_conflicts
        (env : Env) (user : User.t) (body : CheckBody.t) (db db' : Db)
        (resp : Response) :
  handle env user (POST_schedules_conflicts_check body) db = (db', Ok resp) ->
  db' = db
  /\ exists teacherId dayOfWeek startTime endTime hasConflict conflicts,
      nonEmpty (CheckBody.teacherId body) = Some teacherId
      /\ CheckBody.dayOfWeek body = Some dayOfWeek
      /\ nonEmpty (CheckBody.startTime body) = Some startTime
      /\ nonEmpty (CheckBody.endTime body) = Some endTime
      /\ resp = mkResponse 200 (ConflictCheck hasConflict conflicts)
      /\ (hasConflict = false <-> conflicts = [])
      /\ (forall r,
             In r conflicts <->
             In r (timetables db)
             /\ Timetable.teacherId r = teacherId
             /\ Timetable.dayOfWeek r = dayOfWeek
             /\ conflictsCheckOR startTime endTime r = true
             /\ nonEmpty (CheckBody.excludeScheduleId body) <> Some (Timetable.id r)).
Proof.
  intros H. unfold_handlers. split_steps H; pair_inv H.
  split; [reflexivity|].
  do 6 eexists. repeat (split; [reflexivity|]). split.
  - destruct (Prisma.findMany _ _); unfold Nat.ltb; simpl; split; intros E;
      congruence.
  - intros r. unfold Prisma.findMany. rewrite filter_In, !andb_true_iff.
    rewrite String.eqb_eq, Day.eqb_eq.
    destruct (nonEmpty (CheckBody.excludeScheduleId body)) as [x|]; simpl.
    + rewrite negb_true_iff, String.eqb_neq. intuition congruence.
    + intuition congruence.
Qed.

Lemma X8_conflict_check_lists_all_conflicts_witness :
  fst (handle Sample.env Sample.admin Scenario.checkHalfPastNine Sample.db) = Sample.db.
Proof.
  exact (proj1 (@X8_conflict_check_lists_all_conflicts
                  Sample.env Sample.admin
                  (CheckBody.mk (Some Sample.teacherT) (Some MONDAY) (Some "09:30")
                     (Some "10:30") None)
                  Sample.db Sample.db
                  (mkResponse 200 (ConflictCheck true [Sample.mondayNine]))
                  eq_refl)).
Defined.

(* ================================================================== *)
(** ** The order of the listings *)

From Stdlib Require Import Sorted Permutation.

(** [a] comes no later than [b] in [orderBy: dayOfWeek, startTime]. *)
Definition Before (a b : Timetable.t) : Prop := Prisma.before a b = true.

Lemma before_total (a b : Timetable.t) :
  Prisma.before a b = false -> Prisma.before b a = true.
Proof.
  unfold Prisma.before. rewrite !StrOrd.le_nlt.
  destruct (Nat.ltb_spec (Day.index (Timetable.dayOfWeek a))
                         (Day.index (Timetable.dayOfWeek b)));
    destruct (Nat.ltb_spec (Day.index (Timetable.dayOfWeek b))
                           (Day.index (Timetable.dayOfWeek a)));
    destruct (Nat.eqb_spec (Day.index (Timetable.dayOfWeek a))
                           (Day.index (Timetable.dayOfWeek b)));
    destruct (Nat.eqb_spec (Day.index (Timetable.dayOfWeek b))
                           (Day.index (Timetable.dayOfWeek a)));
    simpl; try lia; try discriminate; try reflexivity.
  intros Hs. apply negb_false_iff in Hs.
  now rewrite (StrOrd.lt_asym _ _ Hs).
Qed.

Lemma before_trans (a b c : Timetable.t) : Before a b -> Before b c -> Before a c.
Proof.
  unfold Before, Prisma.before. rewrite !StrOrd.le_nlt.
  destruct (Nat.ltb_spec (Day.index (Timetable.dayOfWeek a))
                         (Day.index (Timetable.dayOfWeek b)));
    destruct (Nat.ltb_spec (Day.index (Timetable.dayOfWeek b))
                           (Day.index (Timetable.dayOfWeek c)));
    destruct (Nat.ltb_spec (Day.index (Timetable.dayOfWeek a))
                           (Day.index (Timetable.dayOfWeek c)));
    destruct (Nat.eqb_spec (Day.index (Timetable.dayOfWeek a))
                           (Day.index (Timetable.dayOfWeek b)));
    destruct (Nat.eqb_spec (Day.index (Timetable.dayOfWeek b))
                           (Day.index (Timetable.dayOfWeek c)));
    destruct (Nat.eqb_spec (Day.index (Timetable.dayOfWeek a))
                           (Day.index (Timetable.dayOfWeek c)));
    simpl; try lia; try discriminate; try reflexivity.
  intros Hab Hbc. apply negb_true_iff in Hab, Hbc. apply negb_true_iff.
  destruct (StrOrd.lt (Timetable.startTime c) (Timetable.startTime a)) eqn:Hca;
    [|reflexivity].
  order_sat.
Qed.

Lemma insert_HdRel (x r : Timetable.t) (l : list Timetable.t) :
  Before x r -> HdRel Before x l -> HdRel Before x (Prisma.insert r l).
Proof.
  intros Hxr Hl. destruct l as [|y l]; simpl.
  - now constructor.
  - destruct (Prisma.before r y); constructor; auto.
    now inversion Hl.
Qed.

Lemma insert_Sorted (r : Timetable.t) (l : list Timetable.t) :
  Sorted Before l -> Sorted Before (Prisma.insert r l).
Proof.
  induction l as [|x l IH]; simpl; intros Hl.
  - repeat constructor.
  - destruct (Prisma.before r x) eqn:E.
    + constructor; [assumption|]. now constructor.
    + inversion Hl as [|? ? Hs Hh]; subst. constructor; [now apply IH|].
      apply insert_HdRel; [|assumption]. now apply before_total.
Qed.

Lemma orderByDayStart_Sorted (l : list Timetable.t) :
  Sorted Before (Prisma.orderByDayStart l).
Proof.
  unfold Prisma.orderByDayStart.
  induction l as [|x l IH]; simpl; [constructor|]. now apply insert_Sorted.
Qed.

Lemma insert_Permutation (r : Timetable.t) (l : list Timetable.t) :
  Permutation (Prisma.insert r l) (r :: l).
Proof.
  induction l as [|x l IH]; simpl; [reflexivity|].
  destruct (Prisma.before r x); [reflexivity|].
  rewrite IH. apply perm_swap.
Qed.

Lemma orderByDayStart_Permutation (l : list Timetable.t) :
  Permutation (Prisma.orderByDayStart l) l.
Proof.
  unfold Prisma.orderByDayStart.
  induction l as [|x l IH]; simpl; [reflexivity|].
  rewrite insert_Permutation. now constructor.
Qed.

(** The rows a listing asks for. *)
Definition listingWhere (req : Request) (r : Timetable.t) : bool :=
  match req with
  | GET_timetable classId teacherId dayOfWeek =>
      whenSet (nonEmpty classId) (String.eqb (Timetable.classId r))
      && whenSet (nonEmpty teacherId) (String.eqb (Timetable.teacherId r))
      && whenSet dayOfWeek (Day.eqb (Timetable.dayOfWeek r))
  | GET_timetable_classes classId => Timetable.classId r =? classId
  | GET_teachers_schedules id dayOfWeek =>
      (Timetable.teacherId r =? id)
      && whenSet dayOfWeek (Day.eqb (Timetable.dayOfWeek r))
  | _ => false
  end.

Definition isListing (req : Request) : bool :=
  match req with
  | GET_timetable _ _ _ | GET_timetable_classes _ | GET_teachers_schedules _ _ => true
  | _ => false
  end.

(** X9.  A listing that answers shows each row it asks for exactly once,
    ordered by day of the week and then by start time: every row comes no
    later than all rows after it. *)
Theorem X9_listings_are_ordered_and_complete
        (env : Env) (user : User.t) (req : Request) (db db' : Db) (resp : Response) :
  isListing req = true ->
  handle env user req db = (db', Ok resp) ->
  StronglySorted Before (shown resp)
  /\ Permutation (shown resp) (filter (listingWhere req) (timetables db)).
Proof.
  intros Hl H.
  assert (Hshown : shown resp
                   = Prisma.orderByDayStart (filter (listingWhere req) (timetables db))).
  { destruct req; try discriminate Hl;
      unfold_handlers; split_steps H; pair_inv H; reflexivity. }
  rewrite Hshown. split.
  - apply Sorted_StronglySorted.
    + intros a b c. apply before_trans.
    + apply orderByDayStart_Sorted.
  - apply orderByDayStart_Permutation.
Qed.

Module Week.
Import Sample.
(** Two entries stored in the opposite order of the week. *)
Definition rows : list Timetable.t := [tuesdayEleven; mondayNine].
End Week.

Lemma X9_listings_are_ordered_and_complete_witness :
  StronglySorted Before [Sample.mondayNine; Sample.tuesdayEleven]
  /\ Permutation [Sample.mondayNine; Sample.tuesdayEleven] Week.rows.
Proof.
  exact (@X9_listings_are_ordered_and_complete
           Sample.env Sample.admin (GET_timetable None None None)
           (Sample.tables Week.rows) (Sample.tables Week.rows)
           (mkResponse 200 (Rows [Sample.mondayNine; Sample.tuesdayEleven]))
           eq_refl eq_refl).
Defined.

(* ================================================================== *)
(** ** Creating, looking up and deleting an entry *)

Definition isCreate (req : Request) : bool :=
  match req with
  | POST_timetable_classes _ _ | POST_teachers_schedules _ _ => true
  | _ => false
  end.

Lemma find_create_fresh (rows : list Timetable.t) (row : Timetable.t) :
  ~ In (Timetable.id row) (map Timetable.id rows) ->
  find (fun r => Timetable.id r =? Timetable.id row) (Prisma.create row rows)
  = Some row.
Proof.
  unfold Prisma.create. induction rows as [|x rows IH]; simpl; intros Hfresh.
  - now rewrite String.eqb_refl.
  - destruct (Timetable.id x =? Timetable.id row) eqn:E.
    + apply String.eqb_eq in E. exfalso. apply Hfresh. now left.
    + apply IH. intros Hin. apply Hfresh. now right.
Qed.

Lemma deleteMany_create_fresh (rows : list Timetable.t) (row : Timetable.t) :
  ~ In (Timetable.id row) (map Timetable.id rows) ->
  Prisma.deleteMany (fun r => Timetable.id r =? Timetable.id row)
                    (Prisma.create row rows)
  = rows.
Proof.
  unfold Prisma.create, Prisma.deleteMany.
  induction rows as [|x rows IH]; simpl; intros Hfresh.
  - now rewrite String.eqb_refl.
  - destruct (Timetable.id x =? Timetable.id row) eqn:E; simpl.
    + apply String.eqb_eq in E. exfalso. apply Hfresh. now left.
    + f_equal. apply IH. intros Hin. apply Hfresh. now right.
Qed.

(** What both creates have checked about the caller and the teacher, and
    the row they wrote. *)
Lemma create_ok (env : Env) (user : User.t) (req : Request) (db db' : Db)
      (resp : Response) :
  isCreate req = true ->
  handle env user req db = (db', Ok resp) ->
  exists row,
    resp = mkResponse 201 (Row row)
    /\ Timetable.id row = uuid env
    /\ db' = set_timetables (Prisma.create row) db
    /\ existsb (String.eqb (User.role user)) ["SUPER_ADMIN"; "ADMIN"] = true
    /\ teacherInInstitute db (User.instituteId user) row = true.
Proof.
  intros Hc H. destruct req; try discriminate Hc;
    unfold_handlers; split_steps H; pair_inv H.
  all: eexists; split; [reflexivity|]; split; [reflexivity|];
    split; [reflexivity|]; split; [assumption|].
  all: unfold teacherInInstitute; cbn [Timetable.teacherId].
  all: match goal with
       | E : isSome (Prisma.findFirst ?p (users _)) = true |- _ =>
           destruct (Prisma.findFirst p _) as [u|] eqn:Eu; [|discriminate E];
           apply find_some in Eu; destruct Eu as [Hin Hu]
       end.
  all: apply existsb_exists; exists u; split; [assumption|].
  all: cbv beta in Hu; rewrite !andb_true_iff in Hu; rewrite andb_true_iff; tauto.
Qed.

(** X10.  After a successful create, [GET /:id] with the generated id
    answers the created row to any caller, provided the id is new. *)
Theorem X10_created_entry_is_found_by_id
        (env : Env) (user : User.t) (req : Request) (db db' : Db) (resp : Response) :
  isCreate req = true ->
  ~ In (uuid env) (map Timetable.id (timetables db)) ->
  handle env user req db = (db', Ok resp) ->
  exists row,
    resp = mkResponse 201 (Row row)
    /\ forall env' caller,
        handle env' caller (GET_timetable_id (uuid env)) db'
        = (db', Ok (mkResponse 200 (Row row))).
Proof.
  intros Hc Hfresh H.
  destruct (create_ok _ _ _ _ Hc H) as (row & -> & Hid & -> & _).
  exists row. split; [reflexivity|]. intros env' caller.
  unfold_handlers. cbn [st_db timetables set_timetables].
  unfold Prisma.findFirst. rewrite <- Hid in *.
  now rewrite find_create_fresh.
Qed.

Lemma X10_created_entry_is_found_by_id_witness :
  handle Sample.env Roles.teacher (GET_timetable_id Sample.freshId)
         (Sample.tables [Sample.mondayNine; Scenario.scheduledTen])
  = (Sample.tables [Sample.mondayNine; Scenario.scheduledTen],
     Ok (mkResponse 200 (Row Scenario.scheduledTen))).
Proof.
  destruct (@X10_created_entry_is_found_by_id
              Sample.env Sample.admin Scenario.scheduleTen Sample.db
              (Sample.tables [Sample.mondayNine; Scenario.scheduledTen])
              (mkResponse 201 (Row Scenario.scheduledTen)))
    as (row & Hrow & Hget).
  - reflexivity.
  - simpl. intros [H|[]]. discriminate H.
  - vm_compute. reflexivity.
  - injection Hrow as <-. apply Hget.
Defined.

Lemma set_timetables_back (db : Db) (w : list Timetable.t -> list Timetable.t) :
  w (timetables db) = timetables db -> set_timetables w db = db.
Proof. destruct db. unfold set_timetables. simpl. now intros ->. Qed.

(** X11.  Deleting the created entry undoes the create: after a successful
    create with a new id, [DELETE /timetable/:id] and [DELETE /schedules/:id]
    by the same caller each give back the store as it was before the
    create. *)
Theorem X11_delete_undoes_create
        (env env' : Env) (user : User.t) (req : Request) (db db' : Db)
        (resp : Response) :
  isCreate req = true ->
  ~ In (uuid env) (map Timetable.id (timetables db)) ->
  fault env' = None ->
  handle env user req db = (db', Ok resp) ->
  handle env' user (DELETE_timetable_id (uuid env)) db'
  = (db, Ok (mkResponse 200 NoData))
  /\ handle env' user (DELETE_schedules_id (uuid env)) db'
     = (db, Ok (mkResponse 200 NoData)).
Proof.
  intros Hc Hfresh Hfault H.
  destruct (create_ok _ _ _ _ Hc H) as (row & _ & Hid & -> & Hrole & Hteacher).
  rewrite <- Hid in *.
  assert (Hback : set_timetables
                    (Prisma.deleteMany (fun r => Timetable.id r =? Timetable.id row))
                    (set_timetables (Prisma.create row) db) = db).
  { destruct db. unfold set_timetables. simpl. f_equal.
    now apply deleteMany_create_fresh. }
  split; unfold_handlers; rewrite Hrole; cbv beta iota zeta;
    cbn [st_db st_writes timetables set_timetables users];
    unfold Prisma.findFirst.
  - rewrite find_create_fresh by assumption.
    cbn [isSome]. cbv beta iota zeta. cbn [st_db st_writes]. rewrite Hfault.
    now rewrite Hback.
  - assert (Hfind : find (fun r => (Timetable.id r =? Timetable.id row)
                                  && teacherInInstitute
                                       (set_timetables (Prisma.create row) db)
                                       (User.instituteId user) r)
                         (Prisma.create row (timetables db)) = Some row).
    { unfold Prisma.create. clear Hback.
      induction (timetables db) as [|x rows IH]; simpl.
      - rewrite String.eqb_refl. simpl.
        unfold teacherInInstitute in *. simpl in *. now rewrite Hteacher.
      - destruct (Timetable.id x =? Timetable.id row) eqn:E.
        + apply String.eqb_eq in E. exfalso. apply Hfresh. simpl. now left.
        + simpl. apply IH. intros Hin. apply Hfresh. simpl. now right. }
    unfold teacherInInstitute in Hfind |- *.
    rewrite Hfind.
    cbn [isSome]. cbv beta iota zeta. cbn [st_db st_writes]. rewrite Hfault.
    now rewrite Hback.
Qed.

Lemma X11_delete_undoes_create_witness :
  handle Sample.env Sample.admin (DELETE_schedules_id Sample.freshId)
         (Sample.tables [Sample.mondayNine; Scenario.scheduledTen])
  = (Sample.db, Ok (mkResponse 200 NoData)).
Proof.
  apply (@X11_delete_undoes_create
           Sample.env Sample.env Sample.admin Scenario.scheduleTen Sample.db
           (Sample.tables [Sample.mondayNine; Scenario.scheduledTen])
           (mkResponse 201 (Row Scenario.scheduledTen))).
  - reflexivity.
  - simpl. intros [H|[]]. discriminate H.
  - reflexivity.
  - vm_compute. reflexivity.
Defined.

Lemma find_deleteMany_same (id : string) (rows : list Timetable.t) :
  find (fun r => Timetable.id r =? id)
       (Prisma.deleteMany (fun r => Timetable.id r =? id) rows)
  = None.
Proof.
  unfold Prisma.deleteMany.
  induction rows as [|x rows IH]; simpl; [reflexivity|].
  destruct (Timetable.id x =? id) eqn:E; simpl; [exact IH|].
  now rewrite E.
Qed.

(** X12.  For an administrator, [DELETE /timetable/:id] answers 404 and
    writes nothing when no entry has the id; otherwise it removes the entry,
    of whatever institute, and deleting it again answers 404. *)
Theorem X12_timetable_delete_outcomes
        (env : Env) (user : User.t) (id : string) (db : Db) :
  existsb (String.eqb (User.role user)) ["SUPER_ADMIN"; "ADMIN"] = true ->
  fault env = None ->
  match Prisma.findFirst (fun r => Timetable.id r =? id) (timetables db) with
  | None =>
      handle env user (DELETE_timetable_id id) db
      = (db, Err (AppError 404 TimetableEntryNotFound))
  | Some _ =>
      let db' :=
        set_timetables (Prisma.deleteMany (fun r => Timetable.id r =? id)) db in
      handle env user (DELETE_timetable_id id) db = (db', Ok (mkResponse 200 NoData))
      /\ handle env user (DELETE_timetable_id id) db'
         = (db', Err (AppError 404 TimetableEntryNotFound))
  end.
Proof.
  intros Hrole Hfault.
  destruct (Prisma.findFirst _ (timetables db)) as [e|] eqn:Hfind.
  - cbv zeta. split.
    + unfold_handlers. rewrite Hrole. cbv beta iota zeta. cbn [st_db st_writes].
      rewrite Hfind. cbn [isSome]. cbv beta iota zeta. cbn [st_db st_writes].
      now rewrite Hfault.
    + unfold_handlers. rewrite Hrole. cbv beta iota zeta. cbn [st_db st_writes].
      assert (Hgone : Prisma.findFirst (fun r => Timetable.id r =? id)
                        (timetables
                           (set_timetables
                              (Prisma.deleteMany (fun r => Timetable.id r =? id)) db))
                      = None).
      { simpl. apply find_deleteMany_same. }
      rewrite Hgone. reflexivity.
  - unfold_handlers. rewrite Hrole. cbv beta iota zeta. cbn [st_db st_writes].
    rewrite Hfind. reflexivity.
Qed.

Lemma X12_timetable_delete_outcomes_witness :
  handle Sample.env Sample.admin (DELETE_timetable_id Sample.entry3) Sample.db
  = (Sample.db, Err (AppError 404 TimetableEntryNotFound)).
Proof.
  exact (@X12_timetable_delete_outcomes
           Sample.env Sample.admin Sample.entry3 Sample.db eq_refl eq_refl).
Defined.

(* ================================================================== *)
(** ** Assigning a teacher to a class *)



Lemma find_create_match (p : Timetable.t -> bool) (rows : list Timetable.t)
      (row : Timetable.t) :
  p row = true -> find p (Prisma.create row rows) <> None.
Proof.
  intros Hp. unfold Prisma.create.
  induction rows as [|x rows IH]; simpl.
  - rewrite Hp. discriminate.
  - destruct (p x); [discriminate|exact IH].
Qed.

Lemma assignTeacherSchema_teacherId (body : AssignBody.t) (data : AssignInput.t) :
  assignTeacherSchema body = Some data ->
  AssignBody.teacherId body = Some (AssignInput.teacherId data).
Proof.
  unfold assignTeacherSchema, required.
  destruct (AssignBody.teacherId body) as [t|]; [|discriminate].
  destruct (Zod.uuid t); [|discriminate].
  intros H. injection H as <-. reflexivity.
Qed.

(** X14.  A teacher is assigned to a class at most once through
    [POST /:id/teachers]: after a successful assignment every further
    request for the same class and teacher, by any caller and with any
    [isPrimary], fails and writes nothing. *)
Theorem X14_second_assignment_is_rejected
        (env : Env) (user : User.t) (id : string) (body : AssignBody.t)
        (db db1 : Db) (resp : Response) :
  handle env user (POST_classes_teachers id body) db = (db1, Ok resp) ->
  forall env' caller body' db2 res,
    AssignBody.teacherId body' = AssignBody.teacherId body ->
    handle env' caller (POST_classes_teachers id body') db1 = (db2, res) ->
    db2 = db1 /\ exists e, res = Err e.
Proof.
  intros H env' caller body' db2 res Hsame H2.
  destruct (postClassTeacher_ok _ _ _ _ _ H) as (data & Hdata & Hdb & _).
  apply assignTeacherSchema_teacherId in Hdata.
  assert (Hfound : forall data',
             assignTeacherSchema body' = Some data' ->
             Prisma.findFirst
               (fun r => (Timetable.classId r =? id)
                         && (Timetable.teacherId r =? AssignInput.teacherId data'))
               (timetables db1) <> None).
  { intros data' Hdata'. apply assignTeacherSchema_teacherId in Hdata'.
    rewrite Hsame, Hdata in Hdata'. injection Hdata' as Et.
    subst db1. simpl. unfold Prisma.findFirst.
    apply find_create_match. simpl. now rewrite Et, !String.eqb_refl. }
  clear H Hdb.
  unfold_handlers. split_steps H2; pair_inv H2;
    try (split; [reflexivity|eexists; reflexivity]).
  all: exfalso;
    match goal with
    | Es : assignTeacherSchema _ = Some ?d,
      E : negb (isSome (Prisma.findFirst _ (timetables _))) = true |- _ =>
        apply (Hfound d eq_refl);
        destruct (Prisma.findFirst _ _) in E |- *; [discriminate E|reflexivity]
    end.
Qed.

Lemma X14_second_assignment_is_rejected_witness :
  fst (handle Sample.env Sample.admin Promotion.assignPrimary
         (Sample.tables [Sample.mondayNine; Promotion.demoted; Promotion.assigned]))
  = Sample.tables [Sample.mondayNine; Promotion.demoted; Promotion.assigned].
Proof.
  exact (proj1 (@X14_second_assignment_is_rejected
                  Sample.env Sample.admin Sample.classB
                  (AssignBody.mk (Some Sample.teacherT) (Some true))
                  Promotion.before
                  (Sample.tables
                     [Sample.mondayNine; Promotion.demoted; Promotion.assigned])
                  (mkResponse 201 (Row Promotion.assigned))
                  eq_refl
                  Sample.env Sample.admin
                  (AssignBody.mk (Some Sample.teacherT) (Some true))
                  _ _ eq_refl (surjective_pairing _))).
Defined.

(* ================================================================== *)
(** ** The institute of a schedule *)

(** The entry a schedule update or delete names. *)
Definition scheduleTarget (req : Request) : option string :=
  match req with
  | PUT_schedules_id id _ | DELETE_schedules_id id => Some id
  | _ => None
  end.

(** X15.  [PUT /schedules/:id] and [DELETE /schedules/:id] never touch an
    entry whose teacher is not of the caller's institute: the request fails
    and the store stays as it is. *)
Theorem X15_schedule_writes_stay_in_the_institute
        (env : Env) (user : User.t) (req : Request) (id : string)
        (db db' : Db) (res : Result Response) :
  scheduleTarget req = Some id ->
  (forall r, In r (timetables db) ->
             Timetable.id r = id ->
             teacherInInstitute db (User.instituteId user) r = false) ->
  handle env user req db = (db', res) ->
  db' = db /\ exists e, res = Err e /\ e <> PrismaError.
Proof.
  intros Ht Hforeign H.
  destruct req; try discriminate Ht; simpl in Ht; injection Ht as ->;
    unfold_handlers; split_steps H; pair_inv H;
    try (split; [reflexivity|eexists; split; [reflexivity|discriminate]]).
  all: exfalso.
  all: repeat match goal with
       | E : isSome ?o = true |- _ => destruct o eqn:?; [clear E|discriminate E]
       end.
  all: match goal with
       | E : Prisma.findFirst (fun r => (Timetable.id r =? _) && _) _ = Some ?x |- _ =>
           apply find_some in E; destruct E as [Hin Hp];
           apply andb_true_iff in Hp; destruct Hp as [Hid Hinst];
           apply String.eqb_eq in Hid;
           rewrite (Hforeign x Hin Hid) in Hinst; discriminate Hinst
       end.
Qed.

Lemma X15_schedule_writes_stay_in_the_institute_witness :
  fst (handle Sample.env Sample.admin (DELETE_schedules_id Sample.entry3) Tenants.with_)
  = Tenants.with_.
Proof.
  refine (proj1 (@X15_schedule_writes_stay_in_the_institute
                   Sample.env Sample.admin (DELETE_schedules_id Sample.entry3)
                   Sample.entry3 Tenants.with_ _ _ eq_refl _ (surjective_pairing _))).
  intros r [<-|[<-|[]]] Hid.
  - discriminate Hid.
  - reflexivity.
Defined.

(* ================================================================== *)
(** * Qualifications and the subjects of a class

    The handlers of [teacher-subject.routes.ts] (POST, GET and DELETE of
    [/:id/subjects]) maintain the teacher-subject table the timetable create
    consults; the subject handlers of [class.routes.ts]
    ([/:id/subjects]) read and write the timetable table. *)

Inductive RosterMessage :=
| TeacherAlreadyAssignedToSubject  (* 'Teacher is already assigned to this subject' *)
| SubjectAssignmentNotFound        (* 'Subject assignment not found' *)
| SubjectsNotFound                 (* 'One or more subjects not found' *)
| SubjectNotAssociated.            (* 'Subject not associated with this class' *)

(** The errors of these routes: those of the timetable routes and four
    messages of their own. *)
Inductive RosterError :=
| Shared (e : Error)
| RosterAppError (statusCode : nat) (message : RosterMessage).

Inductive RosterData :=
| Qualification (row : TeacherSubject.t)
| Qualifications (rows : list TeacherSubject.t)
| Entries (rows : list Timetable.t)
| Nothing.

Record RosterResponse := mkRosterResponse { rosterStatus : nat; rosterData : RosterData }.

Inductive RosterResult (A : Type) :=
| Done (a : A)
| Failed (e : RosterError).
Arguments Done {A} a.
Arguments Failed {A} e.

Definition R (A : Type) : Type := Env -> St -> St * RosterResult A.

Definition retR {A} (a : A) : R A := fun _ st => (st, Done a).

Definition bindR {A B} (m : R A) (k : A -> R B) : R B :=
  fun env st =>
    match m env st with
    | (st', Done a) => k a env st'
    | (st', Failed e) => (st', Failed e)
    end.

Definition throwR {A} (e : RosterError) : R A := fun _ st => (st, Failed e).

(** A step shared with the timetable handlers. *)
Definition lift {A} (m : M A) : R A :=
  fun env st =>
    match m env st with
    | (st', Ok a) => (st', Done a)
    | (st', Err e) => (st', Failed (Shared e))
    end.

Definition ensureR (cond : bool) (e : RosterError) : R unit :=
  if cond then retR tt else throwR e.

(** A write to any table; like [write], it takes effect at once. *)
Definition writeDb (w : Db -> Db) : R unit :=
  fun env st =>
    let n := st_writes st in
    match fault env with
    | Some k =>
        if Nat.eqb k n then (mkSt (st_db st) (S n), Failed (Shared PrismaError))
        else (mkSt (w (st_db st)) (S n), Done tt)
    | None => (mkSt (w (st_db st)) (S n), Done tt)
    end.

(** The number of writes the request has issued so far. *)
Definition written : R nat := fun _ st => (st, Done (st_writes st)).

Declare Scope roster_scope.
Delimit Scope roster_scope with roster.
Notation "x <- m ;; k" := (bindR m (fun x => k))
  (at level 61, m at next level, right associativity) : roster_scope.
Notation "m ;; k" := (bindR m (fun _ => k))
  (at level 61, right associativity) : roster_scope.

Definition runRoster {A} (m : R A) (env : Env) (db : Db) : Db * RosterResult A :=
  let (st, r) := m env (mkSt db 0) in (st_db st, r).

Definition set_teacherSubjects (f : list TeacherSubject.t -> list TeacherSubject.t)
           (db : Db) : Db :=
  mkDb (users db) (classes db) (subjects db) (f (teacherSubjects db)) (timetables db).

(** [for (const x of xs) { ... }] *)
Fixpoint forEach {A} (xs : list A) (body : A -> R unit) : R unit :=
  match xs with
  | [] => retR tt
  | x :: xs' => bindR (body x) (fun _ => forEach xs' body)
  end.

Local Close Scope handler_scope.
Local Open Scope roster_scope.

(** [assignSubjectSchema]: [{ subjectId: z.string().uuid() }] *)
Definition assignSubjectSchema (subjectId : option string) : option string :=
  required Zod.uuid subjectId.

(** [addSubjectSchema]: [{ subjectIds: z.array(z.string().uuid()).min(1) }] *)
Definition addSubjectSchema (subjectIds : option (list string)) : option (list string) :=
  match subjectIds with
  | Some (x :: xs) => if forallb Zod.uuid (x :: xs) then Some (x :: xs) else None
  | _ => None
  end.

(** [where: { teacherId_subjectId: { teacherId, subjectId } }]: the pair is
    the unique key of the table, which [findUnique] and [delete] address a
    row by. *)
Definition qualifies (teacherId subjectId : string) (q : TeacherSubject.t) : bool :=
  (TeacherSubject.teacherId q =? teacherId) && (TeacherSubject.subjectId q =? subjectId).

(** [POST /teachers/:id/subjects] *)
Definition postTeacherSubject (user : User.t) (id : string) (body : option string)
  : R RosterResponse :=
  lift (authorize ["SUPER_ADMIN"; "ADMIN"] user) ;;
  subjectId <- lift (parse (assignSubjectSchema body)) ;;
  (* Verify teacher exists and belongs to institute *)
  teacher <- lift (query (fun db =>
    Prisma.findFirst
      (fun u => (User.id u =? id)
                && (User.instituteId u =? User.instituteId user)
                && (User.role u =? "TEACHER")
                && User.isActive u)
      (users db))) ;;
  ensureR (isSome teacher) (Shared (AppError 404 TeacherNotFoundOrInactive)) ;;
  (* Verify subject exists and belongs to institute *)
  subject <- lift (query (fun db =>
    Prisma.findFirst
      (fun s => (Subject.id s =? subjectId)
                && (Subject.instituteId s =? User.instituteId user))
      (subjects db))) ;;
  ensureR (isSome subject) (Shared (AppError 404 SubjectNotFound)) ;;
  (* Check if assignment already exists *)
  existingAssignment <- lift (query (fun db =>
    Prisma.findFirst (qualifies id subjectId) (teacherSubjects db))) ;;
  ensureR (negb (isSome existingAssignment))
          (RosterAppError 400 TeacherAlreadyAssignedToSubject) ;;
  (* Create assignment *)
  let assignment := TeacherSubject.mk id subjectId in
  writeDb (set_teacherSubjects (Prisma.create assignment)) ;;
  retR (mkRosterResponse 201 (Qualification assignment)).

(** [GET /teachers/:id/subjects] *)
Definition getTeacherSubjects (user : User.t) (id : string) : R RosterResponse :=
  teacher <- lift (query (fun db =>
    Prisma.findFirst
      (fun u => (User.id u =? id)
                && (User.instituteId u =? User.instituteId user)
                && (User.role u =? "TEACHER"))
      (users db))) ;;
  ensureR (isSome teacher) (Shared (AppError 404 TeacherNotFound)) ;;
  assignments <- lift (query (fun db =>
    Prisma.findMany (fun q => TeacherSubject.teacherId q =? id) (teacherSubjects db))) ;;
  retR (mkRosterResponse 200 (Qualifications assignments)).

(** [DELETE /teachers/:id/subjects/:subjectId] *)
Definition deleteTeacherSubject (user : User.t) (id subjectId : string)
  : R RosterResponse :=
  lift (authorize ["SUPER_ADMIN"; "ADMIN"] user) ;;
  (* Verify teacher exists and belongs to institute *)
  teacher <- lift (query (fun db =>
    Prisma.findFirst
      (fun u => (User.id u =? id)
                && (User.instituteId u =? User.instituteId user)
                && (User.role u =? "TEACHER"))
      (users db))) ;;
  ensureR (isSome teacher) (Shared (AppError 404 TeacherNotFound)) ;;
  (* Verify assignment exists *)
  assignment <- lift (query (fun db =>
    Prisma.findFirst (qualifies id subjectId) (teacherSubjects db))) ;;
  ensureR (isSome assignment) (RosterAppError 404 SubjectAssignmentNotFound) ;;
  (* Delete assignment *)
  writeDb (set_teacherSubjects (Prisma.deleteMany (qualifies id subjectId))) ;;
  retR (mkRosterResponse 200 Nothing).

(** [GET /classes/:id/subjects] *)
Definition getClassSubjects (user : User.t) (id : string) : R RosterResponse :=
  classData <- lift (query (fun db =>
    Prisma.findFirst
      (fun c => (Class.id c =? id) && (Class.instituteId c =? User.instituteId user))
      (classes db))) ;;
  ensureR (isSome classData) (Shared (AppError 404 ClassNotFound)) ;;
  subjects <- lift (query (fun db =>
    Prisma.findMany (fun r => Timetable.classId r =? id) (timetables db))) ;;
  retR (mkRosterResponse 200 (Entries subjects)).

(** The row [POST /classes/:id/subjects] inserts for one subject. *)
Definition subjectRow (env : Env) (newId classId subjectId : string) : Timetable.t :=
  Timetable.mk newId classId subjectId
    ""          (* TODO: This should be assigned separately *)
    MONDAY      (* Default value *)
    "09:00"     (* Default value *)
    "10:00"     (* Default value *)
    None (default_isPrimary env) (default_isActive env).

(** The body of the loop [for (const subjectId of subjectIds)] of
    [POST /classes/:id/subjects]; [ids n] is the id the database generates
    for a row inserted by the [n]-th write of the request. *)
Definition addSubject (ids : nat -> string) (id subjectId : string) : R unit :=
  existing <- lift (query (fun db =>
    Prisma.findFirst
      (fun r => (Timetable.classId r =? id) && (Timetable.subjectId r =? subjectId))
      (timetables db))) ;;
  if isSome existing then retR tt
  else
    (* Create timetable entry with required fields *)
    env <- lift ask ;;
    n <- written ;;
    writeDb (set_timetables (Prisma.create (subjectRow env (ids n) id subjectId))).

(** [POST /classes/:id/subjects] *)
Definition postClassSubjects (ids : nat -> string) (user : User.t) (id : string)
           (body : option (list string)) : R RosterResponse :=
  lift (authorize ["SUPER_ADMIN"; "ADMIN"] user) ;;
  subjectIds <- lift (parse (addSubjectSchema body)) ;;
  (* Verify class exists *)
  classData <- lift (query (fun db =>
    Prisma.findFirst
      (fun c => (Class.id c =? id) && (Class.instituteId c =? User.instituteId user))
      (classes db))) ;;
  ensureR (isSome classData) (Shared (AppError 404 ClassNotFound)) ;;
  (* Verify subjects exist and belong to institute *)
  subjects <- lift (query (fun db =>
    Prisma.findMany
      (fun s => existsb (String.eqb (Subject.id s)) subjectIds
                && (Subject.instituteId s =? User.instituteId user))
      (subjects db))) ;;
  ensureR (Nat.eqb (List.length subjects) (List.length subjectIds))
          (RosterAppError 404 SubjectsNotFound) ;;
  (* Add subjects to class via timetable (skip if already exists) *)
  forEach subjectIds (addSubject ids id) ;;
  (* Get updated class with all subjects *)
  updated <- lift (query (fun db =>
    Prisma.findMany (fun r => Timetable.classId r =? id) (timetables db))) ;;
  retR (mkRosterResponse 200 (Entries updated)).

(** [DELETE /classes/:id/subjects/:subjectId] *)
Definition deleteClassSubject (user : User.t) (id subjectId : string)
  : R RosterResponse :=
  lift (authorize ["SUPER_ADMIN"; "ADMIN"] user) ;;
  (* Verify class exists *)
  classData <- lift (query (fun db =>
    Prisma.findFirst
      (fun c => (Class.id c =? id) && (Class.instituteId c =? User.instituteId user))
      (classes db))) ;;
  ensureR (isSome classData) (Shared (AppError 404 ClassNotFound)) ;;
  (* Verify subject is associated with class via timetable *)
  timetableEntry <- lift (query (fun db =>
    Prisma.findFirst
      (fun r => (Timetable.classId r =? id) && (Timetable.subjectId r =? subjectId))
      (timetables db))) ;;
  ensureR (isSome timetableEntry) (RosterAppError 404 SubjectNotAssociated) ;;
  (* Remove subject from class via timetable *)
  writeDb (set_timetables
             (Prisma.deleteMany
                (fun r => (Timetable.classId r =? id)
                          && (Timetable.subjectId r =? subjectId)))) ;;
  retR (mkRosterResponse 200 Nothing).

Inductive RosterRequest :=
| POST_teachers_subjects (id : string) (subjectId : option string)
| GET_teachers_subjects (id : string)
| DELETE_teachers_subjects (id subjectId : string)
| GET_classes_subjects (id : string)
| POST_classes_subjects (id : string) (subjectIds : option (list string))
| DELETE_classes_subjects (id subjectId : string).

Definition routeRoster (ids : nat -> string) (user : User.t) (req : RosterRequest)
  : R RosterResponse :=
  match req with
  | POST_teachers_subjects id subjectId => postTeacherSubject user id subjectId
  | GET_teachers_subjects id => getTeacherSubjects user id
  | DELETE_teachers_subjects id subjectId => deleteTeacherSubject user id subjectId
  | GET_classes_subjects id => getClassSubjects user id
  | POST_classes_subjects id subjectIds => postClassSubjects ids user id subjectIds
  | DELETE_classes_subjects id subjectId => deleteClassSubject user id subjectId
  end.

Definition handleRoster (ids : nat -> string) (env : Env) (user : User.t)
           (req : RosterRequest) (db : Db) : Db * RosterResult RosterResponse :=
  runRoster (routeRoster ids user req) env db.

(* ================================================================== *)
(** ** Stepping through these handlers *)

Ltac unfold_roster :=
  unfold handleRoster, runRoster, routeRoster,
    postTeacherSubject, getTeacherSubjects, deleteTeacherSubject,
    getClassSubjects, postClassSubjects, deleteClassSubject in *;
  unfold ensureR, lift, writeDb, written, bindR, retR, throwR in *;
  unfold authorize, bind, ensure, parse, query, throw, ret, ask in *.

Lemma qualifies_iff (teacherId subjectId : string) (q : TeacherSubject.t) :
  qualifies teacherId subjectId q = true <-> q = TeacherSubject.mk teacherId subjectId.
Proof.
  unfold qualifies. rewrite andb_true_iff, !String.eqb_eq.
  destruct q as [t s]; simpl. split.
  - intros [-> ->]. reflexivity.
  - intros E. injection E as -> ->. auto.
Qed.

Lemma find_qualifies_none (teacherId subjectId : string) (qs : list TeacherSubject.t) :
  find (qualifies teacherId subjectId) qs = None <->
  ~ In (TeacherSubject.mk teacherId subjectId) qs.
Proof.
  split.
  - intros H Hin. pose proof (find_none _ _ H _ Hin) as Hq.
    rewrite (proj2 (qualifies_iff teacherId subjectId _) eq_refl) in Hq.
    discriminate Hq.
  - intros H. destruct (find _ qs) as [q|] eqn:E; [|reflexivity].
    apply find_some in E. destruct E as [Hin Hq].
    apply qualifies_iff in Hq. subst q. contradiction.
Qed.

(** What a successful assignment or removal of a qualification wrote. *)
Lemma postTeacherSubject_ok (ids : nat -> string) (env : Env) (user : User.t)
      (id : string) (body : option string) (db db' : Db) (resp : RosterResponse) :
  handleRoster ids env user (POST_teachers_subjects id body) db = (db', Done resp) ->
  exists subjectId,
    body = Some subjectId
    /\ Zod.uuid subjectId = true
    /\ existsb (String.eqb (User.role user)) ["SUPER_ADMIN"; "ADMIN"] = true
    /\ isSome (Prisma.findFirst
                 (fun u => (User.id u =? id)
                           && (User.instituteId u =? User.instituteId user)
                           && (User.role u =? "TEACHER") && User.isActive u)
                 (users db)) = true
    /\ isSome (Prisma.findFirst
                 (fun s => (Subject.id s =? subjectId)
                           && (Subject.instituteId s =? User.instituteId user))
                 (subjects db)) = true
    /\ ~ In (TeacherSubject.mk id subjectId) (teacherSubjects db)
    /\ db' = set_teacherSubjects (Prisma.create (TeacherSubject.mk id subjectId)) db
    /\ resp = mkRosterResponse 201 (Qualification (TeacherSubject.mk id subjectId)).
Proof.
  intros H. unfold_roster. unfold assignSubjectSchema, required in H.
  split_steps H; pair_inv H.
  all: eexists; split; [reflexivity|];
    repeat (split; [first [assumption|reflexivity]|]).
  all: split; [|split; reflexivity].
  all: apply find_qualifies_none; unfold Prisma.findFirst in *;
    match goal with
    | E : negb (isSome ?o) = true |- _ => destruct o; [discriminate E|reflexivity]
    end.
Qed.

Lemma deleteTeacherSubject_ok (ids : nat -> string) (env : Env) (user : User.t)
      (id subjectId : string) (db db' : Db) (resp : RosterResponse) :
  handleRoster ids env user (DELETE_teachers_subjects id subjectId) db
  = (db', Done resp) ->
  In (TeacherSubject.mk id subjectId) (teacherSubjects db)
  /\ db' = set_teacherSubjects (Prisma.deleteMany (qualifies id subjectId)) db
  /\ resp = mkRosterResponse 200 Nothing.
Proof.
  intros H. unfold_roster. split_steps H; pair_inv H.
  all: split; [|split; reflexivity].
  all: match goal with
       | E : isSome (Prisma.findFirst (qualifies _ _) _) = true |- _ =>
           destruct (Prisma.findFirst (qualifies _ _) _) as [q|] eqn:Eq in E;
           [|discriminate E];
           apply find_some in Eq; destruct Eq as [Hin Hq];
           apply qualifies_iff in Hq; now subst q
       end.
Qed.

Definition touchesQualifications (req : RosterRequest) : bool :=
  match req with
  | POST_teachers_subjects _ _ | DELETE_teachers_subjects _ _ => true
  | _ => false
  end.

(** X16.  The qualification routes keep each teacher-subject pair at most
    once in the table. *)
Theorem X16_qualifications_stay_unique
        (ids : nat -> string) (env : Env) (user : User.t) (req : RosterRequest)
        (db db' : Db) (resp : RosterResponse) :
  touchesQualifications req = true ->
  NoDup (teacherSubjects db) ->
  handleRoster ids env user req db = (db', Done resp) ->
  NoDup (teacherSubjects db').
Proof.
  intros Hreq Hnd H. destruct req; try discriminate Hreq.
  - destruct (postTeacherSubject_ok _ _ _ _ _ _ H)
      as (s & _ & _ & _ & _ & _ & Hnew & -> & _).
    simpl. unfold Prisma.create.
    apply NoDup_app; [assumption|repeat constructor; intros []|].
    intros q Hq [<-|[]]. contradiction.
  - destruct (deleteTeacherSubject_ok _ _ _ _ _ _ H) as (_ & -> & _).
    simpl. unfold Prisma.deleteMany. now apply NoDup_filter.
Qed.

Module Qualifying.
Import Sample.

(** Qualify T for S2 as well. *)
Definition assign : RosterRequest := POST_teachers_subjects teacherT (Some subjectS2).

Definition remove : RosterRequest := DELETE_teachers_subjects teacherT subjectS2.

Definition ids (n : nat) : string := freshId.

Definition after : Db :=
  set_teacherSubjects (Prisma.create (TeacherSubject.mk teacherT subjectS2)) db.
End Qualifying.

Lemma X16_qualifications_stay_unique_witness :
  NoDup (teacherSubjects Qualifying.after).
Proof.
  apply (@X16_qualifications_stay_unique
           Qualifying.ids Sample.env Sample.admin Qualifying.assign Sample.db
           Qualifying.after
           (mkRosterResponse 201
              (Qualification (TeacherSubject.mk Sample.teacherT Sample.subjectS2)))).
  - reflexivity.
  - simpl. constructor; [intros [H|[]]; discriminate H|].
    constructor; [intros []|constructor].
  - vm_compute. reflexivity.
Defined.

Lemma createTimetableSchema_ids (body : TimetableBody.t) (validated : TimetableInput.t) :
  createTimetableSchema body = Some validated ->
  TimetableBody.teacherId body = Some (TimetableInput.teacherId validated)
  /\ TimetableBody.subjectId body = Some (TimetableInput.subjectId validated).
Proof.
  unfold createTimetableSchema, required.
  destruct (TimetableBody.classId body) as [c|]; [|discriminate].
  destruct (Zod.uuid c); [|discriminate].
  destruct (TimetableBody.subjectId body) as [s|]; [|discriminate].
  destruct (Zod.uuid s); [|discriminate].
  destruct (TimetableBody.teacherId body) as [t|]; [|discriminate].
  destruct (Zod.uuid t); [|discriminate].
  destruct (requiredDay (TimetableBody.dayOfWeek body)); [|discriminate].
  destruct (TimetableBody.startTime body) as [st|]; [|discriminate].
  destruct (Zod.time st); [|discriminate].
  destruct (TimetableBody.endTime body) as [en|]; [|discriminate].
  destruct (Zod.time en); [|discriminate].
  intros H. injection H as <-. simpl. auto.
Qed.

(** X17.  Once [POST /teachers/:id/subjects] has qualified a teacher for a
    subject, no timetable create for that teacher and subject is answered
    'Teacher is not qualified to teach this subject'. *)
Theorem X17_assigned_qualification_opens_the_timetable
        (ids : nat -> string) (env : Env) (user : User.t) (id : string)
        (subjectId : option string) (db db1 : Db) (resp : RosterResponse) :
  handleRoster ids env user (POST_teachers_subjects id subjectId) db
  = (db1, Done resp) ->
  forall env' caller classId body code,
    TimetableBody.teacherId body = Some id ->
    TimetableBody.subjectId body = subjectId ->
    snd (handle env' caller (POST_timetable_classes classId body) db1)
    <> Err (AppError code TeacherNotQualified).
Proof.
  intros H env' caller classId body code Ht Hs.
  destruct (postTeacherSubject_ok _ _ _ _ _ _ H)
    as (s & -> & _ & _ & _ & _ & _ & -> & _).
  destruct (handle env' caller (POST_timetable_classes classId body) _)
    as [db2 res] eqn:H2.
  simpl. intros ->. unfold_handlers. split_steps H2; pair_inv H2.
  match goal with
  | E : createTimetableSchema body = Some ?v |- _ =>
      destruct (createTimetableSchema_ids _ E) as [Et Es]
  end.
  rewrite Ht in Et. rewrite Hs in Es. injection Et as Et. injection Es as Es.
  match goal with
  | E : isSome (Prisma.findFirst _ (teacherSubjects _)) = false |- _ =>
      destruct (Prisma.findFirst _ _) as [q|] eqn:Eq in E; [discriminate E|];
      clear E; simpl in Eq; unfold Prisma.findFirst, Prisma.create in Eq;
      pose proof (find_none _ _ Eq (TeacherSubject.mk id s)) as Hn
  end.
  simpl in Hn. rewrite <- Et, <- Es, !String.eqb_refl in Hn.
  discriminate Hn. apply in_or_app. right. now left.
Qed.

Lemma X17_assigned_qualification_opens_the_timetable_witness :
  snd (handle Sample.env Sample.admin Scenario.timetableUnqualified Qualifying.after)
  <> Err (AppError 400 TeacherNotQualified).
Proof.
  apply (@X17_assigned_qualification_opens_the_timetable
           Qualifying.ids Sample.env Sample.admin Sample.teacherT
           (Some Sample.subjectS2) Sample.db Qualifying.after
           (mkRosterResponse 201
              (Qualification (TeacherSubject.mk Sample.teacherT Sample.subjectS2)))).
  - vm_compute. reflexivity.
  - reflexivity.
  - reflexivity.
Defined.

Lemma Error_eq_PrismaError (e : Error) : e = PrismaError \/ e <> PrismaError.
Proof. destruct e; [right|right|left]; congruence. Qed.

(** X18.  Once [DELETE /teachers/:id/subjects/:subjectId] has removed a
    qualification, every timetable create for that teacher and subject
    fails and writes nothing (each pair being stored once, as the key of
    the table has it). *)
Theorem X18_removed_qualification_closes_the_timetable
        (ids : nat -> string) (env : Env) (user : User.t) (id subjectId : string)
        (db db1 : Db) (resp : RosterResponse) :
  NoDup (teacherSubjects db) ->
  handleRoster ids env user (DELETE_teachers_subjects id subjectId) db
  = (db1, Done resp) ->
  forall env' caller classId body db2 res,
    TimetableBody.teacherId body = Some id ->
    TimetableBody.subjectId body = Some subjectId ->
    handle env' caller (POST_timetable_classes classId body) db1 = (db2, res) ->
    db2 = db1 /\ exists e, res = Err e.
Proof.
  intros _ H env' caller classId body db2 res Ht Hs H2.
  destruct (deleteTeacherSubject_ok _ _ _ _ _ _ H) as (_ & -> & _).
  destruct res as [resp2|e].
  - exfalso.
    destruct (postClassTimetable_ok _ _ _ _ _ H2) as (v & Hv & Hq & _).
    destruct (createTimetableSchema_ids _ Hv) as [Et Es].
    rewrite Ht in Et. rewrite Hs in Es. injection Et as Et. injection Es as Es.
    destruct (Prisma.findFirst _ _) as [q|] eqn:Eq in Hq; [|discriminate Hq].
    apply find_some in Eq. destruct Eq as [Hin Hmatch].
    simpl in Hin. unfold Prisma.deleteMany in Hin. apply filter_In in Hin.
    destruct Hin as [_ Hneg]. unfold qualifies in Hneg.
    rewrite <- Et, <- Es in Hmatch.
    rewrite Hmatch in Hneg. discriminate Hneg.
  - split; [|eauto].
    destruct (Error_eq_PrismaError e) as [->|Hne].
    + exfalso. unfold_handlers. split_steps H2; pair_inv H2.
      match goal with
      | E : createTimetableSchema body = Some ?v |- _ =>
          destruct (createTimetableSchema_ids _ E) as [Et Es]
      end.
      rewrite Ht in Et. rewrite Hs in Es. injection Et as Et. injection Es as Es.
      match goal with
      | E : isSome (Prisma.findFirst _ (teacherSubjects _)) = true |- _ =>
          destruct (Prisma.findFirst _ _) as [q|] eqn:Eq in E; [|discriminate E];
          apply find_some in Eq; destruct Eq as [Hin Hmatch];
          simpl in Hin; unfold Prisma.deleteMany in Hin; apply filter_In in Hin;
          destruct Hin as [_ Hneg]; unfold qualifies in Hneg;
          rewrite <- Et, <- Es in Hmatch;
          rewrite Hmatch in Hneg; discriminate Hneg
      end.
    + exact (rejected_unchanged _ _ _ _ H2 Hne).
Qed.

Lemma X18_removed_qualification_closes_the_timetable_witness :
  let db1 := set_teacherSubjects
               (Prisma.deleteMany (qualifies Sample.teacherT Sample.subjectS)) Sample.db in
  let request :=
    POST_timetable_classes Sample.classB
      (Sample.timetableBody Sample.classB Sample.subjectS Sample.teacherT
         "TUESDAY" "09:00" "10:00") in
  fst (handle Sample.env Sample.admin request db1) = db1
  /\ exists e, snd (handle Sample.env Sample.admin request db1) = Err e.
Proof.
  cbv zeta.
  refine (@X18_removed_qualification_closes_the_timetable
            Qualifying.ids Sample.env Sample.admin Sample.teacherT Sample.subjectS
            Sample.db _ (mkRosterResponse 200 Nothing) _ _
            Sample.env Sample.admin Sample.classB
            (Sample.timetableBody Sample.classB Sample.subjectS Sample.teacherT
               "TUESDAY" "09:00" "10:00") _ _ _ _ _).
  - simpl. constructor; [intros [H|[]]; discriminate H|].
    constructor; [intros []|constructor].
  - vm_compute. reflexivity.
  - reflexivity.
  - reflexivity.
  - apply surjective_pairing.
Defined.

Lemma deleteMany_create_new (teacherId subjectId : string) (qs : list TeacherSubject.t) :
  ~ In (TeacherSubject.mk teacherId subjectId) qs ->
  Prisma.deleteMany (qualifies teacherId subjectId)
    (Prisma.create (TeacherSubject.mk teacherId subjectId) qs) = qs.
Proof.
  unfold Prisma.deleteMany, Prisma.create. intros Hnew.
  rewrite filter_app. simpl.
  rewrite (proj2 (qualifies_iff teacherId subjectId _) eq_refl). simpl.
  rewrite app_nil_r. induction qs as [|q qs IH]; [reflexivity|]. simpl.
  destruct (qualifies teacherId subjectId q) eqn:Eq.
  - apply qualifies_iff in Eq. subst q. exfalso. apply Hnew. now left.
  - simpl. f_equal. apply IH. intros Hin. apply Hnew. now right.
Qed.

(** X19.  A qualification just assigned can be removed again by the same
    caller, and the removal restores the store as it was before the
    assignment. *)
Theorem X19_removal_undoes_assignment
        (ids : nat -> string) (env env' : Env) (user : User.t)
        (id : string) (subjectId : option string) (s : string)
        (db db1 : Db) (resp : RosterResponse) :
  subjectId = Some s ->
  fault env' = None ->
  handleRoster ids env user (POST_teachers_subjects id subjectId) db
  = (db1, Done resp) ->
  handleRoster ids env' user (DELETE_teachers_subjects id s) db1
  = (db, Done (mkRosterResponse 200 Nothing)).
Proof.
  intros -> Hfault H.
  destruct (postTeacherSubject_ok _ _ _ _ _ _ H)
    as (s' & Es & _ & Hrole & Hteacher & _ & Hnew & -> & _).
  injection Es as <-. clear H.
  unfold_roster. rewrite Hrole. cbn [negb].
  cbn [st_db st_writes users teacherSubjects set_teacherSubjects].
  unfold Prisma.findFirst in *.
  destruct (find _ (users db)) as [u|] eqn:Eu in Hteacher; [|discriminate Hteacher].
  apply find_some in Eu. destruct Eu as [Hin Hu].
  rewrite !andb_true_iff in Hu. destruct Hu as [[[Hu1 Hu2] Hu3] _].
  destruct (find (fun u0 => (User.id u0 =? id)
                            && (User.instituteId u0 =? User.instituteId user)
                            && (User.role u0 =? "TEACHER")) (users db)) eqn:Ev.
  2:{ pose proof (find_none _ _ Ev _ Hin) as Hn.
      cbv beta in Hn. rewrite Hu1, Hu2, Hu3 in Hn. discriminate Hn. }
  cbn [isSome st_db st_writes users teacherSubjects set_teacherSubjects].
  destruct (find (qualifies id s) (Prisma.create (TeacherSubject.mk id s) (teacherSubjects db)))
    eqn:Eq.
  2:{ apply find_qualifies_none in Eq. exfalso. apply Eq.
      unfold Prisma.create. apply in_or_app. right. now left. }
  cbn [isSome st_db st_writes]. rewrite Hfault.
  cbn [st_db st_writes users classes subjects timetables teacherSubjects
       set_teacherSubjects].
  unfold set_teacherSubjects at 1. cbn [users classes subjects timetables
    teacherSubjects set_teacherSubjects].
  rewrite (deleteMany_create_new _ _ _ Hnew). destruct db; reflexivity.
Qed.

Lemma X19_removal_undoes_assignment_witness :
  handleRoster Qualifying.ids Sample.env Sample.admin Qualifying.remove Qualifying.after
  = (Sample.db, Done (mkRosterResponse 200 Nothing)).
Proof.
  apply (@X19_removal_undoes_assignment
           Qualifying.ids Sample.env Sample.env Sample.admin Sample.teacherT
           (Some Sample.subjectS2) Sample.subjectS2 Sample.db Qualifying.after
           (mkRosterResponse 201
              (Qualification (TeacherSubject.mk Sample.teacherT Sample.subjectS2)))).
  - reflexivity.
  - reflexivity.
  - vm_compute. reflexivity.
Defined.

(* ================================================================== *)
(** ** The subjects of a class *)

(** The where-clause [{ classId: id, subjectId }]. *)
Definition ofClassSubject (id subjectId : string) (r : Timetable.t) : bool :=
  (Timetable.classId r =? id) && (Timetable.subjectId r =? subjectId).

(** The class has an entry for the subject. *)
Definition inClass (id subjectId : string) (rows : list Timetable.t) : bool :=
  existsb (ofClassSubject id subjectId) rows.

Lemma isSome_find {A} (p : A -> bool) (l : list A) : isSome (find p l) = existsb p l.
Proof.
  induction l as [|a l IH]; [reflexivity|]. simpl. destruct (p a); [reflexivity|exact IH].
Qed.

Lemma inClass_subjectRow (env : Env) (newId id s s' : string) :
  ofClassSubject id s' (subjectRow env newId id s) = (s =? s').
Proof. unfold ofClassSubject, subjectRow. simpl. now rewrite String.eqb_refl. Qed.

Lemma inClass_create (env : Env) (newId id s s' : string) (rows : list Timetable.t) :
  inClass id s' (Prisma.create (subjectRow env newId id s) rows)
  = inClass id s' rows || (s =? s').
Proof.
  unfold inClass, Prisma.create. rewrite existsb_app. simpl.
  now rewrite inClass_subjectRow, orb_false_r.
Qed.

Lemma inClass_app (id s : string) (rows more : list Timetable.t) :
  inClass id s (rows ++ more) = inClass id s rows || inClass id s more.
Proof. apply existsb_app. Qed.

(** One pass of the loop body. *)
Lemma addSubject_step (ids : nat -> string) (id s : string) (env : Env) (st : St) :
  addSubject ids id s env st =
  if inClass id s (timetables (st_db st)) then (st, Done tt)
  else
    match fault env with
    | Some k =>
        if Nat.eqb k (st_writes st)
        then (mkSt (st_db st) (S (st_writes st)), Failed (Shared PrismaError))
        else (mkSt (set_timetables
                      (Prisma.create (subjectRow env (ids (st_writes st)) id s))
                      (st_db st))
                   (S (st_writes st)), Done tt)
    | None => (mkSt (set_timetables
                       (Prisma.create (subjectRow env (ids (st_writes st)) id s))
                       (st_db st))
                    (S (st_writes st)), Done tt)
    end.
Proof.
  unfold addSubject, inClass, ofClassSubject.
  unfold ensureR, lift, writeDb, written, bindR, retR, throwR.
  unfold query, ask, Prisma.findFirst. cbv beta iota zeta.
  rewrite <- isSome_find.
  destruct (isSome _); [reflexivity|].
  destruct (fault env) as [k|]; [destruct (Nat.eqb k _)|]; reflexivity.
Qed.

(** A placeholder of class [id]: no teacher, MONDAY 09:00-10:00. *)
Definition placeholder (id : string) (r : Timetable.t) : Prop :=
  Timetable.classId r = id
  /\ Timetable.teacherId r = ""
  /\ Timetable.dayOfWeek r = MONDAY
  /\ Timetable.startTime r = "09:00"
  /\ Timetable.endTime r = "10:00".

(** The loop issues no write when the class has every listed subject. *)
Lemma addSubjects_present (ids : nat -> string) (id : string) (env : Env)
      (l : list string) (st : St) :
  (forall s, In s l -> inClass id s (timetables (st_db st)) = true) ->
  forEach l (addSubject ids id) env st = (st, Done tt).
Proof.
  induction l as [|s l IH]; intros Hall; [reflexivity|].
  simpl. unfold bindR. rewrite addSubject_step, (Hall s (or_introl eq_refl)).
  apply IH. intros s' Hs'. apply Hall. now right.
Qed.

Lemma set_timetables_app_nil (db : Db) : set_timetables (fun rows => rows ++ []) db = db.
Proof. apply set_timetables_back. apply app_nil_r. Qed.

(** What the loop has written when it stops: placeholders appended to the
    table, one for each listed subject the class did not have. *)
Lemma addSubjects_run (ids : nat -> string) (id : string) (env : Env)
      (l : list string) :
  forall (st st' : St) (r : RosterResult unit),
    forEach l (addSubject ids id) env st = (st', r) ->
    exists added,
      st_db st' = set_timetables (fun rows => rows ++ added) (st_db st)
      /\ Forall (placeholder id) added
      /\ NoDup (map Timetable.subjectId added)
      /\ (forall s, In s (map Timetable.subjectId added) ->
                    In s l /\ inClass id s (timetables (st_db st)) = false)
      /\ (r = Done tt ->
          forall s, In s l -> inClass id s (timetables (st_db st)) = false ->
                    In s (map Timetable.subjectId added)).
Proof.
  induction l as [|s l IH]; intros st st' r H.
  - simpl in H. unfold retR in H. pair_inv H. exists [].
    rewrite set_timetables_app_nil. repeat split; try constructor.
    all: simpl; intros; simpl in *; tauto.
  - simpl in H. unfold bindR in H. rewrite addSubject_step in H.
    destruct (inClass id s (timetables (st_db st))) eqn:Hs.
    + destruct (IH _ _ _ H) as (added & Hdb & Hph & Hnd & Hin & Hall).
      exists added. repeat split; try assumption.
      * right. now apply Hin.
      * now apply Hin.
      * intros Hr s' [<-|Hs'] Hmiss; [congruence|]. now apply Hall.
    + assert (Hstop : forall w, (mkSt (st_db st) w, @Failed unit (Shared PrismaError)) = (st', r) ->
                exists added,
                  st_db st' = set_timetables (fun rows => rows ++ added) (st_db st)
                  /\ Forall (placeholder id) added
                  /\ NoDup (map Timetable.subjectId added)
                  /\ (forall s0, In s0 (map Timetable.subjectId added) ->
                        In s0 (s :: l) /\ inClass id s0 (timetables (st_db st)) = false)
                  /\ (r = Done tt ->
                      forall s0, In s0 (s :: l) ->
                        inClass id s0 (timetables (st_db st)) = false ->
                        In s0 (map Timetable.subjectId added))).
      { intros w E. pair_inv E. exists []. simpl.
        rewrite set_timetables_app_nil. repeat split; try constructor.
        all: simpl; intros; simpl in *; solve [tauto|discriminate]. }
      assert (Hgo : forall w,
                forEach l (addSubject ids id) env
                  (mkSt (set_timetables
                           (Prisma.create (subjectRow env (ids (st_writes st)) id s))
                           (st_db st)) w) = (st', r) ->
                exists added,
                  st_db st' = set_timetables (fun rows => rows ++ added) (st_db st)
                  /\ Forall (placeholder id) added
                  /\ NoDup (map Timetable.subjectId added)
                  /\ (forall s0, In s0 (map Timetable.subjectId added) ->
                        In s0 (s :: l) /\ inClass id s0 (timetables (st_db st)) = false)
                  /\ (r = Done tt ->
                      forall s0, In s0 (s :: l) ->
                        inClass id s0 (timetables (st_db st)) = false ->
                        In s0 (map Timetable.subjectId added))).
      { intros w E.
        destruct (IH _ _ _ E) as (added & Hdb & Hph & Hnd & Hin & Hall).
        cbn [st_db timetables set_timetables] in Hdb, Hin, Hall.
        exists (subjectRow env (ids (st_writes st)) id s :: added).
        split; [|split; [|split; [|split]]].
        - rewrite Hdb. unfold set_timetables, Prisma.create. simpl.
          now rewrite <- app_assoc.
        - constructor; [|exact Hph]. unfold placeholder, subjectRow. simpl. auto.
        - simpl. constructor; [|exact Hnd]. intros Habs.
          destruct (Hin _ Habs) as [_ Hno].
          rewrite inClass_create, String.eqb_refl, orb_true_r in Hno.
          discriminate Hno.
        - simpl. intros s0 [<-|Hs0]; [split; [now left|exact Hs]|].
          destruct (Hin _ Hs0) as [Hl Hno]. split; [now right|].
          rewrite inClass_create in Hno. apply orb_false_iff in Hno. tauto.
        - intros Hr s0 Hs0 Hmiss. simpl.
          destruct (String.eqb_spec s s0) as [->|Hne]; [now left|right].
          destruct Hs0 as [->|Hs0]; [contradiction|].
          apply (Hall Hr _ Hs0). rewrite inClass_create, Hmiss.
          simpl. now apply String.eqb_neq. }
      destruct (fault env) as [k|]; [destruct (Nat.eqb k (st_writes st))|].
      * exact (Hstop _ H).
      * exact (Hgo _ H).
      * exact (Hgo _ H).
Qed.

Lemma addSubjectSchema_some (body : option (list string)) (subjectIds : list string) :
  addSubjectSchema body = Some subjectIds ->
  body = Some subjectIds /\ subjectIds <> [] /\ forallb Zod.uuid subjectIds = true.
Proof.
  unfold addSubjectSchema. destruct body as [[|x xs]|]; try discriminate.
  destruct (forallb Zod.uuid (x :: xs)) eqn:E; [|discriminate].
  intros H. injection H as <-. repeat split; [discriminate|exact E].
Qed.

(** The subjects [POST /classes/:id/subjects] finds for the listed ids. *)
Definition listedSubjects (user : User.t) (subjectIds : list string) (db : Db)
  : list Subject.t :=
  Prisma.findMany
    (fun s => existsb (String.eqb (Subject.id s)) subjectIds
              && (Subject.instituteId s =? User.instituteId user))
    (subjects db).

(** What a successful [POST /classes/:id/subjects] has checked and run. *)
Lemma postClassSubjects_ok (ids : nat -> string) (env : Env) (user : User.t)
      (id : string) (body : option (list string)) (db db' : Db)
      (resp : RosterResponse) :
  handleRoster ids env user (POST_classes_subjects id body) db = (db', Done resp) ->
  exists subjectIds st',
    addSubjectSchema body = Some subjectIds
    /\ existsb (String.eqb (User.role user)) ["SUPER_ADMIN"; "ADMIN"] = true
    /\ isSome (Prisma.findFirst
                 (fun c => (Class.id c =? id)
                           && (Class.instituteId c =? User.instituteId user))
                 (classes db)) = true
    /\ List.length (listedSubjects user subjectIds db) = List.length subjectIds
    /\ forEach subjectIds (addSubject ids id) env (mkSt db 0) = (st', Done tt)
    /\ db' = st_db st'
    /\ resp = mkRosterResponse 200
                (Entries (Prisma.findMany (fun r => Timetable.classId r =? id)
                            (timetables db'))).
Proof.
  intros H. unfold_roster. split_steps H; pair_inv H.
  match goal with
  | E : forEach ?l _ _ _ = (?s, Done ?a) |- _ => exists l, s; destruct a
  end.
  repeat split; try assumption. now apply Nat.eqb_eq.
Qed.

(** Rows selected from a table with distinct keys have distinct keys. *)
Lemma selected_keys_distinct {Row Key : Type} (key : Row -> Key) (keep : Row -> bool)
      (rows : list Row) :
  NoDup (map key rows) -> NoDup (map key (filter keep rows)).
Proof.
  intros Hkeys. induction rows as [|row rows IH]; simpl; [constructor|].
  simpl in Hkeys. inversion Hkeys as [|? ? Hnew Hrest]; subst.
  destruct (keep row); simpl; [constructor|]; auto.
  intros Hin. apply Hnew. apply in_map_iff in Hin.
  destruct Hin as (x & Ex & Hx). apply filter_In in Hx.
  apply in_map_iff. exists x. tauto.
Qed.

(** X20.  With subject ids unique in the store, [POST /classes/:id/subjects]
    succeeds only for a list of distinct ids, each the id of a subject of the
    caller's institute: a list that repeats an id is refused. *)
Theorem X20_listed_subjects_are_distinct_and_of_the_institute
        (ids : nat -> string) (env : Env) (user : User.t) (id : string)
        (body : option (list string)) (db db' : Db) (resp : RosterResponse) :
  NoDup (map Subject.id (subjects db)) ->
  handleRoster ids env user (POST_classes_subjects id body) db = (db', Done resp) ->
  exists subjectIds,
    body = Some subjectIds
    /\ NoDup subjectIds
    /\ forall s, In s subjectIds ->
         exists subject,
           In subject (subjects db)
           /\ Subject.id subject = s
           /\ Subject.instituteId subject = User.instituteId user.
Proof.
  intros Hkeys H.
  destruct (postClassSubjects_ok _ _ _ _ _ _ H)
    as (subjectIds & st' & Hbody & _ & _ & Hlen & _).
  apply addSubjectSchema_some in Hbody. destruct Hbody as [-> _].
  exists subjectIds. split; [reflexivity|].
  set (found := map Subject.id (listedSubjects user subjectIds db)).
  assert (Hnd : NoDup found) by (apply selected_keys_distinct; exact Hkeys).
  assert (Hle : List.length subjectIds <= List.length found).
  { unfold found. rewrite length_map, Hlen. apply Nat.le_refl. }
  assert (Hincl : incl found subjectIds).
  { intros s Hs. apply in_map_iff in Hs. destruct Hs as (x & <- & Hx).
    apply filter_In in Hx. destruct Hx as [_ Hx].
    apply andb_true_iff in Hx. destruct Hx as [Hx _].
    apply existsb_exists in Hx. destruct Hx as (y & Hy & E).
    apply String.eqb_eq in E. now rewrite E. }
  split.
  - exact (NoDup_incl_NoDup Hnd Hle Hincl).
  - intros s Hs.
    pose proof (NoDup_length_incl Hnd Hle Hincl s Hs) as Hfound.
    apply in_map_iff in Hfound. destruct Hfound as (x & <- & Hx).
    apply filter_In in Hx. destruct Hx as [Hin Hx].
    apply andb_true_iff in Hx. destruct Hx as [_ Hx].
    apply String.eqb_eq in Hx. exists x. auto.
Qed.

Module Curriculum.
Import Sample.

Definition ids (n : nat) : string :=
  match n with
  | 0 => "e1000000-0000-4000-8000-0000000000e1"
  | _ => "e2000000-0000-4000-8000-0000000000e2"
  end.

(** Class B gets both subjects of the institute. *)
Definition add : RosterRequest := POST_classes_subjects classB (Some [subjectS; subjectS2]).

Definition added : list Timetable.t :=
  [ subjectRow env (ids 0) classB subjectS; subjectRow env (ids 1) classB subjectS2 ].

Definition after : Db := set_timetables (fun rows => rows ++ added) db.

Definition answer : RosterResponse := mkRosterResponse 200 (Entries added).

End Curriculum.

Lemma X20_listed_subjects_are_distinct_and_of_the_institute_witness :
  exists subjectIds,
    Some [Sample.subjectS; Sample.subjectS2] = Some subjectIds
    /\ NoDup subjectIds
    /\ forall s, In s subjectIds ->
         exists subject,
           In subject (subjects Sample.db)
           /\ Subject.id subject = s
           /\ Subject.instituteId subject = User.instituteId Sample.admin.
Proof.
  apply (@X20_listed_subjects_are_distinct_and_of_the_institute
           Curriculum.ids Sample.env Sample.admin Sample.classB
           (Some [Sample.subjectS; Sample.subjectS2]) Sample.db
           Curriculum.after Curriculum.answer).
  - simpl. repeat constructor; simpl; intuition discriminate.
  - vm_compute. reflexivity.
Defined.

(** X21.  A successful [POST /classes/:id/subjects] appends to the timetable
    exactly one placeholder entry (no teacher, MONDAY 09:00-10:00) of the
    class for each listed subject the class had no entry for; the other rows
    and the other tables stay as they were. *)
Theorem X21_one_placeholder_for_each_missing_subject
        (ids : nat -> string) (env : Env) (user : User.t) (id : string)
        (body : option (list string)) (db db' : Db) (resp : RosterResponse) :
  handleRoster ids env user (POST_classes_subjects id body) db = (db', Done resp) ->
  exists subjectIds added,
    body = Some subjectIds
    /\ db' = set_timetables (fun rows => rows ++ added) db
    /\ Forall (placeholder id) added
    /\ NoDup (map Timetable.subjectId added)
    /\ forall s, In s (map Timetable.subjectId added)
                 <-> In s subjectIds /\ inClass id s (timetables db) = false.
Proof.
  intros H.
  destruct (postClassSubjects_ok _ _ _ _ _ _ H)
    as (subjectIds & st' & Hbody & _ & _ & _ & Hloop & -> & _).
  apply addSubjectSchema_some in Hbody. destruct Hbody as [-> _].
  destruct (addSubjects_run _ _ _ _ _ Hloop) as (added & Hdb & Hph & Hnd & Hin & Hall).
  exists subjectIds, added. cbn [st_db] in *.
  repeat split; try assumption.
  - now apply Hin.
  - now apply Hin.
  - intros [Hs Hmiss]. now apply Hall.
Qed.

Lemma X21_one_placeholder_for_each_missing_subject_witness :
  exists subjectIds added,
    Some [Sample.subjectS; Sample.subjectS2] = Some subjectIds
    /\ Curriculum.after = set_timetables (fun rows => rows ++ added) Sample.db
    /\ Forall (placeholder Sample.classB) added
    /\ NoDup (map Timetable.subjectId added)
    /\ forall s, In s (map Timetable.subjectId added)
                 <-> In s subjectIds
                     /\ inClass Sample.classB s (timetables Sample.db) = false.
Proof.
  apply (@X21_one_placeholder_for_each_missing_subject
           Curriculum.ids Sample.env Sample.admin Sample.classB
           (Some [Sample.subjectS; Sample.subjectS2]) Sample.db
           Curriculum.after Curriculum.answer).
  vm_compute. reflexivity.
Defined.

Lemma inClass_of_row (id s : string) (row : Timetable.t) (rows : list Timetable.t) :
  In row rows -> Timetable.classId row = id -> Timetable.subjectId row = s ->
  inClass id s rows = true.
Proof.
  intros Hin Hc Hs. unfold inClass. apply existsb_exists. exists row.
  split; [exact Hin|]. unfold ofClassSubject. now rewrite Hc, Hs, !String.eqb_refl.
Qed.

(** X22.  Repeating a successful [POST /classes/:id/subjects] issues no
    write and gives the same answer: the store after the first request is
    the store after the second, whatever ids the database would generate
    and even when it would reject a write. *)
Theorem X22_adding_subjects_twice_adds_nothing
        (ids ids' : nat -> string) (env env' : Env) (user : User.t) (id : string)
        (body : option (list string)) (db db1 : Db) (resp : RosterResponse) :
  handleRoster ids env user (POST_classes_subjects id body) db = (db1, Done resp) ->
  handleRoster ids' env' user (POST_classes_subjects id body) db1 = (db1, Done resp).
Proof.
  intros H.
  destruct (postClassSubjects_ok _ _ _ _ _ _ H)
    as (subjectIds & st' & Hbody & Hrole & Hclass & Hlen & Hloop & -> & ->).
  destruct (addSubjects_run _ _ _ _ _ Hloop) as (added & Hdb & Hph & _ & _ & Hall).
  cbn [st_db] in Hdb, Hall.
  assert (Hpresent : forall s, In s subjectIds ->
                               inClass id s (timetables (st_db st')) = true).
  { intros s Hs. rewrite Hdb. cbn [timetables set_timetables]. rewrite inClass_app.
    destruct (inClass id s (timetables db)) eqn:E; [reflexivity|].
    pose proof (Hall eq_refl s Hs E) as Hin. simpl.
    apply in_map_iff in Hin. destruct Hin as (row & Erow & Hrow).
    apply inClass_of_row with (row := row); [exact Hrow| |exact Erow].
    rewrite Forall_forall in Hph. apply (Hph _ Hrow). }
  clear H Hloop.
  unfold handleRoster, runRoster, routeRoster, postClassSubjects.
  unfold ensureR, lift, bindR, retR, throwR.
  unfold authorize, bind, ensure, parse, query, throw, ret.
  rewrite Hrole, Hbody. cbn [negb]. cbv beta iota zeta. cbn [st_db st_writes].
  assert (Hc : classes (st_db st') = classes db) by (now rewrite Hdb).
  assert (Hs : subjects (st_db st') = subjects db) by (now rewrite Hdb).
  unfold listedSubjects in Hlen.
  rewrite Hc, Hclass. cbv beta iota zeta. cbn [st_db st_writes].
  rewrite Hs, Hlen, Nat.eqb_refl. cbv beta iota zeta.
  rewrite (addSubjects_present ids' id env' subjectIds (mkSt (st_db st') 0) Hpresent).
  reflexivity.
Qed.

Lemma X22_adding_subjects_twice_adds_nothing_witness :
  handleRoster Qualifying.ids Sample.envSecondWriteFails Sample.admin Curriculum.add
    Curriculum.after
  = (Curriculum.after, Done Curriculum.answer).
Proof.
  apply (@X22_adding_subjects_twice_adds_nothing
           Curriculum.ids Qualifying.ids Sample.env Sample.envSecondWriteFails
           Sample.admin Sample.classB (Some [Sample.subjectS; Sample.subjectS2])
           Sample.db Curriculum.after Curriculum.answer).
  vm_compute. reflexivity.
Defined.

Lemma deleteMany_create_subjectRow (env : Env) (newId id s : string)
      (rows : list Timetable.t) :
  inClass id s rows = false ->
  Prisma.deleteMany (ofClassSubject id s) (Prisma.create (subjectRow env newId id s) rows)
  = rows.
Proof.
  unfold Prisma.deleteMany, Prisma.create, inClass. intros Hmiss.
  rewrite filter_app. simpl. rewrite inClass_subjectRow, String.eqb_refl. simpl.
  rewrite app_nil_r. induction rows as [|r rows IH]; [reflexivity|].
  simpl in *. apply orb_false_iff in Hmiss. destruct Hmiss as [Hr Hrest].
  rewrite Hr. simpl. f_equal. now apply IH.
Qed.

(** X23.  Adding one subject the class does not have and then removing it
    with [DELETE /classes/:id/subjects/:subjectId] gives back the store as
    it was before the subject was added. *)
Theorem X23_removing_the_subject_undoes_adding_it
        (ids ids' : nat -> string) (env env' : Env) (user : User.t)
        (id s : string) (db db1 : Db) (resp : RosterResponse) :
  inClass id s (timetables db) = false ->
  fault env' = None ->
  handleRoster ids env user (POST_classes_subjects id (Some [s])) db
  = (db1, Done resp) ->
  handleRoster ids' env' user (DELETE_classes_subjects id s) db1
  = (db, Done (mkRosterResponse 200 Nothing)).
Proof.
  intros Hmiss Hfault H.
  destruct (postClassSubjects_ok _ _ _ _ _ _ H)
    as (subjectIds & st' & Hbody & Hrole & Hclass & _ & Hloop & -> & _).
  apply addSubjectSchema_some in Hbody. destruct Hbody as [Hbody _].
  injection Hbody as <-. clear H.
  simpl in Hloop. unfold bindR, retR in Hloop. rewrite addSubject_step in Hloop.
  cbn [st_db st_writes] in Hloop. rewrite Hmiss in Hloop.
  assert (Hst : st_db st'
                = set_timetables (Prisma.create (subjectRow env (ids 0) id s)) db).
  { destruct (fault env) as [k|]; [destruct (Nat.eqb k 0)|];
      pair_inv Hloop; reflexivity. }
  clear Hloop. rewrite Hst.
  unfold handleRoster, runRoster, routeRoster, deleteClassSubject.
  unfold ensureR, lift, writeDb, bindR, retR, throwR.
  unfold authorize, bind, ensure, parse, query, throw, ret.
  rewrite Hrole, Hfault. cbn [negb]. cbv beta iota zeta.
  cbn [st_db st_writes classes timetables set_timetables].
  rewrite Hclass. cbv beta iota zeta.
  cbn [st_db st_writes classes timetables set_timetables].
  unfold Prisma.findFirst. rewrite isSome_find.
  change (fun r => (Timetable.classId r =? id) && (Timetable.subjectId r =? s))
    with (ofClassSubject id s).
  assert (Hin : existsb (ofClassSubject id s)
                  (Prisma.create (subjectRow env (ids 0) id s) (timetables db)) = true).
  { change (inClass id s (Prisma.create (subjectRow env (ids 0) id s) (timetables db))
            = true).
    now rewrite inClass_create, String.eqb_refl, orb_true_r. }
  rewrite Hin.
  cbv beta iota zeta. cbn [st_db st_writes users classes subjects teacherSubjects
    timetables set_timetables].
  unfold set_timetables.
  cbn [users classes subjects teacherSubjects timetables].
  change (fun r => (Timetable.classId r =? id) && (Timetable.subjectId r =? s))
    with (ofClassSubject id s).
  rewrite (deleteMany_create_subjectRow _ _ _ _ _ Hmiss). destruct db; reflexivity.
Qed.

Lemma X23_removing_the_subject_undoes_adding_it_witness :
  handleRoster Qualifying.ids Sample.env Sample.admin
    (DELETE_classes_subjects Sample.classB Sample.subjectS2)
    (set_timetables
       (Prisma.create
          (subjectRow Sample.env (Curriculum.ids 0) Sample.classB Sample.subjectS2))
       Sample.db)
  = (Sample.db, Done (mkRosterResponse 200 Nothing)).
Proof.
  apply (@X23_removing_the_subject_undoes_adding_it
           Curriculum.ids Qualifying.ids Sample.env Sample.env Sample.admin
           Sample.classB Sample.subjectS2 Sample.db _
           (mkRosterResponse 200
              (Entries [subjectRow Sample.env (Curriculum.ids 0) Sample.classB
                          Sample.subjectS2]))).
  - reflexivity.
  - reflexivity.
  - vm_compute. reflexivity.
Defined.

(* ================================================================== *)
(** ** The routes index: which handler a request reaches

    [routes/index.ts] mounts the routers with [router.use(prefix, routes)];
    several routers share a prefix.  Express walks the mounts in the order
    of the file and, inside a router, the routes in the order they were
    registered; the first route whose method and path match handles the
    request.  Every handler of this API answers or calls [next(error)], so
    no later route sees a request an earlier one has matched. *)

Local Close Scope roster_scope.

Module Express.

Inductive Method := GET | POST | PUT | PATCH | DELETE.

Definition Method_eqb (a b : Method) : bool :=
  match a, b with
  | GET, GET | POST, POST | PUT, PUT | PATCH, PATCH | DELETE, DELETE => true
  | _, _ => false
  end.

(** A segment of a route path: literal text, or a parameter [:name]. *)
Inductive Segment :=
| Lit (text : string)
| Par (name : string).

(** The pieces of a path between its slashes. *)
Fixpoint pieces (path : string) : list string :=
  match path with
  | EmptyString => [""]
  | String c rest =>
      if Ascii.eqb c "/" then "" :: pieces rest
      else match pieces rest with
           | p :: ps => String c p :: ps
           | [] => [String c ""]
           end
  end.

Definition segment (piece : string) : Segment :=
  match piece with
  | String ":" name => Par name
  | _ => Lit piece
  end.

(** A route path such as ['/:id/teachers/:teacherId'], by segments. *)
Definition pattern (path : string) : list Segment :=
  map segment (filter (fun p => negb (p =? "")) (pieces path)).

Definition lower (c : ascii) : ascii :=
  let n := N_of_ascii c in
  if (65 <=? n)%N && (n <=? 90)%N then ascii_of_N (n + 32) else c.

Fixpoint lowercase (s : string) : string :=
  match s with
  | EmptyString => EmptyString
  | String c rest => String (lower c) (lowercase rest)
  end.

Fixpoint hasSlash (s : string) : bool :=
  match s with
  | EmptyString => false
  | String c rest => Ascii.eqb c "/" || hasSlash rest
  end.

(** What a parameter matches: [[^\/]+?]. *)
Definition plain (s : string) : bool := negb (s =? "") && negb (hasSlash s).

Definition Params := list (string * string).

(** Routers are created with [Router()]: matching is not case sensitive. *)
Definition matchSegment (p : Segment) (s : string) : option Params :=
  match p with
  | Lit text => if lowercase text =? lowercase s then Some [] else None
  | Par name => if plain s then Some [(name, s)] else None
  end.

(** A route matches the whole of the remaining path. *)
Fixpoint matchPath (p : list Segment) (segments : list string) : option Params :=
  match p, segments with
  | [], [] => Some []
  | x :: p', s :: segments' =>
      match matchSegment x s, matchPath p' segments' with
      | Some a, Some b => Some (a ++ b)
      | _, _ => None
      end
  | _, _ => None
  end.

(** A mount matches the start of the path and hands the rest to its router. *)
Fixpoint matchPrefix (p : list Segment) (segments : list string) : option (list string) :=
  match p, segments with
  | [], _ => Some segments
  | x :: p', s :: segments' =>
      match matchSegment x s with
      | Some _ => matchPrefix p' segments'
      | None => None
      end
  | _ :: _, [] => None
  end.

(** [router.get(path, ...)], [router.post(path, ...)], ... *)
Record Route := route { method : Method; path : string }.

Record Router := mkRouter { name : string; routes : list Route }.

(** The route that handles a request, and the parameters it reads. *)
Record Handled := handled { router : string; matched : Route; params : Params }.

Fixpoint handle (owner : string) (rs : list Route) (m : Method) (segments : list string)
  : option Handled :=
  match rs with
  | [] => None
  | r :: rs' =>
      if Method_eqb (method r) m
      then match matchPath (pattern (path r)) segments with
           | Some ps => Some (handled owner r ps)
           | None => handle owner rs' m segments
           end
      else handle owner rs' m segments
  end.

(** [router.use(prefix, routes)] *)
Record Mount := use { prefix : string; mounted : Router }.

Fixpoint dispatch (mounts : list Mount) (m : Method) (segments : list string)
  : option Handled :=
  match mounts with
  | [] => None
  | u :: mounts' =>
      match matchPrefix (pattern (prefix u)) segments with
      | Some rest =>
          match handle (name (mounted u)) (routes (mounted u)) m rest with
          | Some h => Some h
          | None => dispatch mounts' m segments
          end
      | None => dispatch mounts' m segments
      end
  end.

End Express.

Module Routes.
Import Express.

Definition get := route GET.
Definition post := route POST.
Definition put := route PUT.
Definition patch := route PATCH.
Definition delete := route DELETE.

(** [auth.routes.ts] *)
Definition authRoutes : Router :=
  mkRouter "authRoutes"
    [ post "/register"; post "/login"; post "/refresh"; get "/me" ].

(** [student.routes.ts] *)
Definition studentRoutes : Router :=
  mkRouter "studentRoutes"
    [ get "/"; get "/:id"; post "/"; put "/:id"; delete "/:id" ].

(** [attendance.routes.ts] *)
Definition attendanceRoutes : Router :=
  mkRouter "attendanceRoutes"
    [ get "/"; post "/"; post "/bulk"; get "/stats/:studentId" ].

(** [fee.routes.ts] *)
Definition feeRoutes : Router :=
  mkRouter "feeRoutes"
    [ get "/"; get "/:id"; post "/"; post "/:id/payment";
      get "/student/:studentId/summary" ].

(** [class.routes.ts] *)
Definition classRoutes : Router :=
  mkRouter "classRoutes"
    [ get "/"; get "/:id"; post "/"; put "/:id"; delete "/:id";
      get "/:id/subjects"; post "/:id/subjects"; delete "/:id/subjects/:subjectId";
      post "/:id/students"; delete "/:id/students/:studentId" ].

(** [teacher.routes.ts] *)
Definition teacherRoutes : Router :=
  mkRouter "teacherRoutes"
    [ get "/"; get "/:id"; post "/"; put "/:id"; delete "/:id" ].

(** [teacher-assignment.routes.ts] *)
Definition teacherAssignmentRoutes : Router :=
  mkRouter "teacherAssignmentRoutes"
    [ get "/:id/teachers"; post "/:id/teachers";
      put "/:id/teachers/:teacherId"; delete "/:id/teachers/:teacherId" ].

(** [teacher-subject.routes.ts] *)
Definition teacherSubjectRoutes : Router :=
  mkRouter "teacherSubjectRoutes"
    [ post "/:id/subjects"; get "/:id/subjects"; delete "/:id/subjects/:subjectId" ].

(** [teacher-schedule.routes.ts] *)
Definition teacherScheduleRoutes : Router :=
  mkRouter "teacherScheduleRoutes"
    [ get "/:id/schedules"; post "/:id/schedules"; put "/:id"; delete "/:id";
      post "/conflicts/check" ].

(** [timetable.routes.ts] *)
Definition timetableRoutes : Router :=
  mkRouter "timetableRoutes"
    [ get "/"; get "/classes/:classId"; post "/classes/:classId";
      get "/:id"; put "/:id"; delete "/:id" ].

(** [user.routes.ts] *)
Definition userRoutes : Router :=
  mkRouter "userRoutes"
    [ get "/"; get "/:id"; post "/"; put "/:id"; patch "/:id/role";
      patch "/:id/status"; put "/:id/password"; delete "/:id" ].

(** [subject.routes.ts] *)
Definition subjectRoutes : Router :=
  mkRouter "subjectRoutes"
    [ get "/"; get "/:id"; post "/"; put "/:id"; delete "/:id" ].

(** [dashboard.routes.ts] *)
Definition dashboardRoutes : Router :=
  mkRouter "dashboardRoutes"
    [ get "/stats"; get "/stats/attendance-by-class"; get "/stats/fees-by-class";
      get "/stats/students-by-class" ].

(** [routes/index.ts]: the mounts, in the order of the file. *)
Definition index : list Mount :=
  [ use "/auth" authRoutes;
    use "/students" studentRoutes;
    use "/attendance" attendanceRoutes;
    use "/fees" feeRoutes;
    use "/classes" classRoutes;
    use "/classes" teacherAssignmentRoutes;
    use "/timetable" timetableRoutes;
    use "/classes" timetableRoutes;
    use "/teachers" teacherSubjectRoutes;
    use "/teachers" teacherScheduleRoutes;
    use "/teachers" teacherRoutes;
    use "/schedules" teacherScheduleRoutes;
    use "/users" userRoutes;
    use "/subjects" subjectRoutes;
    use "/dashboard" dashboardRoutes ].

End Routes.

Section Dispatching.
Import Express.

Lemma handle_inv (owner : string) (rs : list Route) (m : Method)
      (segments : list string) (h : Handled) :
  handle owner rs m segments = Some h ->
  router h = owner
  /\ In (matched h) rs
  /\ method (matched h) = m
  /\ matchPath (pattern (path (matched h))) segments = Some (params h).
Proof.
  induction rs as [|r rs IH]; simpl; [discriminate|].
  destruct (Method_eqb (method r) m) eqn:Em.
  - destruct (matchPath (pattern (path r)) segments) as [ps|] eqn:Ep.
    + intros H. injection H as <-. simpl. repeat split; auto.
      destruct (method r), m; (reflexivity || discriminate Em).
    + intros H. destruct (IH H) as (? & ? & ? & ?). auto.
  - intros H. destruct (IH H) as (? & ? & ? & ?). auto.
Qed.

(** The mount that handles a request is the first, in the order of the
    index, that matches the path and has a route for it. *)
Lemma dispatch_inv (mounts : list Mount) (m : Method) (segments : list string)
      (h : Handled) :
  dispatch mounts m segments = Some h ->
  exists i u rest,
    nth_error mounts i = Some u
    /\ matchPrefix (pattern (prefix u)) segments = Some rest
    /\ handle (name (mounted u)) (routes (mounted u)) m rest = Some h
    /\ forall j v rest',
         j < i -> nth_error mounts j = Some v ->
         matchPrefix (pattern (prefix v)) segments = Some rest' ->
         handle (name (mounted v)) (routes (mounted v)) m rest' = None.
Proof.
  induction mounts as [|u mounts IH]; simpl; [discriminate|].
  destruct (matchPrefix (pattern (prefix u)) segments) as [rest|] eqn:Ep.
  - destruct (handle (name (mounted u)) (routes (mounted u)) m rest) as [h'|] eqn:Eh.
    + intros H. injection H as <-. exists 0, u, rest. repeat split; auto.
      intros j v rest' Hj. inversion Hj.
    + intros H. destruct (IH H) as (i & v & rest' & Hn & Hp & Hh & Hbefore).
      exists (S i), v, rest'. repeat split; auto.
      intros [|j] w rest'' Hj Hw Hp'; simpl in Hw.
      * injection Hw as <-. rewrite Ep in Hp'. injection Hp' as <-. exact Eh.
      * apply (Hbefore j w rest''); auto. now apply PeanoNat.lt_S_n.
  - intros H. destruct (IH H) as (i & v & rest' & Hn & Hp & Hh & Hbefore).
    exists (S i), v, rest'. repeat split; auto.
    intros [|j] w rest'' Hj Hw Hp'; simpl in Hw.
    + injection Hw as <-. rewrite Ep in Hp'. discriminate Hp'.
    + apply (Hbefore j w rest''); auto. now apply PeanoNat.lt_S_n.
Qed.

(** A path of one parameter matches one plain segment and nothing else. *)
Lemma matchPath_one_parameter (segments : list string) (ps : Params) :
  matchPath (pattern "/:id") segments = Some ps ->
  exists id, segments = [id] /\ plain id = true.
Proof.
  destruct segments as [|id [|]]; simpl; try discriminate.
  - destruct (plain id) eqn:E; [eauto|discriminate].
  - destruct (plain id); discriminate.
Qed.

Lemma matchPath_root (segments : list string) (ps : Params) :
  matchPath (pattern "/") segments = Some ps -> segments = [].
Proof. destruct segments; simpl; [reflexivity|discriminate]. Qed.

End Dispatching.



Section Shadowing.
Import Express.

(** The mount of the index a router's request came through. *)
Lemma index_mount (i : nat) (u : Mount) (owner : string) :
  nth_error Routes.index i = Some u -> name (mounted u) = owner ->
  (owner = "teacherRoutes" -> i = 10 /\ u = use "/teachers" Routes.teacherRoutes)
  /\ (owner = "timetableRoutes" ->
      (i = 6 /\ u = use "/timetable" Routes.timetableRoutes)
      \/ (i = 7 /\ u = use "/classes" Routes.timetableRoutes)).
Proof.
  intros Hn Ho.
  do 15 (destruct i as [|i];
         [simpl in Hn; injection Hn as <-; simpl in Ho; subst owner;
          split; intros E; try discriminate E; auto|]).
  destruct i; discriminate Hn.
Qed.

End Shadowing.

(** X25.  No request reaches the teacher update ([PUT /:id]) or the teacher
    delete ([DELETE /:id]) of [teacher.routes.ts]: whatever the method and
    the path, a request the teacher router handles is a [GET] or goes to
    its [/] routes. *)
Theorem X25_teacher_update_and_delete_are_never_reached
        (m : Express.Method) (segments : list string) (h : Express.Handled) :
  Express.dispatch Routes.index m segments = Some h ->
  Express.router h = "teacherRoutes" ->
  Express.method (Express.matched h) = Express.GET
  \/ Express.path (Express.matched h) = "/".
Proof.
  intros H Hr.
  destruct (dispatch_inv _ _ _ H) as (i & u & rest & Hn & Hp & Hh & Hbefore).
  destruct (handle_inv _ _ _ _ Hh) as (Ho & Hin & Hm & Hmatch).
  rewrite Hr in Ho. symmetry in Ho.
  destruct (proj1 (index_mount _ Hn Ho) eq_refl) as [-> ->].
  assert (Hshadow : Express.handle "teacherScheduleRoutes"
                      (Express.routes Routes.teacherScheduleRoutes) m rest = None).
  { apply (Hbefore 9 (Express.use "/teachers" Routes.teacherScheduleRoutes) rest).
    - repeat constructor.
    - reflexivity.
    - exact Hp. }
  simpl in Hin.
  destruct Hin as [E|[E|[E|[E|[E|[]]]]]]; rewrite <- E in *; simpl; auto.
  - exfalso. simpl in Hm. subst m.
    destruct (matchPath_one_parameter _ Hmatch) as (id & -> & Hid).
    cbn in Hshadow. rewrite Hid in Hshadow. discriminate Hshadow.
  - exfalso. simpl in Hm. subst m.
    destruct (matchPath_one_parameter _ Hmatch) as (id & -> & Hid).
    cbn in Hshadow. rewrite Hid in Hshadow. discriminate Hshadow.
Qed.

Lemma X25_teacher_update_and_delete_are_never_reached_witness :
  Express.method
    (Express.matched
       (Express.handled "teacherRoutes" (Routes.get "/:id") [("id", Sample.teacherT)]))
  = Express.GET
  \/ Express.path
       (Express.matched
          (Express.handled "teacherRoutes" (Routes.get "/:id") [("id", Sample.teacherT)]))
     = "/".
Proof.
  apply (@X25_teacher_update_and_delete_are_never_reached
           Express.GET ["teachers"; Sample.teacherT]).
  - reflexivity.
  - reflexivity.
Defined.

(** X26.  Under [/classes] the timetable router answers only on its
    [/classes/:classId] routes, that is on [/classes/classes/<classId>]: its
    [/] and [/:id] routes are taken by the class router mounted before it. *)
Theorem X26_timetable_routes_under_classes
        (m : Express.Method) (rest : list string) (h : Express.Handled) :
  Express.dispatch Routes.index m ("classes" :: rest) = Some h ->
  Express.router h = "timetableRoutes" ->
  Express.path (Express.matched h) = "/classes/:classId"
  /\ exists c classId, rest = [c; classId] /\ Express.lowercase c = "classes".
Proof.
  intros H Hr.
  destruct (dispatch_inv _ _ _ H) as (i & u & rest' & Hn & Hp & Hh & Hbefore).
  destruct (handle_inv _ _ _ _ Hh) as (Ho & Hin & Hm & Hmatch).
  rewrite Hr in Ho. symmetry in Ho.
  destruct (proj2 (index_mount _ Hn Ho) eq_refl) as [[-> ->]|[-> ->]];
    [discriminate Hp|].
  injection Hp as <-.
  assert (Hshadow : Express.handle "classRoutes"
                      (Express.routes Routes.classRoutes) m rest = None).
  { apply (Hbefore 4 (Express.use "/classes" Routes.classRoutes) rest).
    - repeat constructor.
    - reflexivity.
    - reflexivity. }
  assert (Hclasses : forall ps,
             Express.matchPath (Express.pattern "/classes/:classId") rest = Some ps ->
             exists c classId, rest = [c; classId] /\ Express.lowercase c = "classes").
  { intros ps.
    change (Express.pattern "/classes/:classId")
      with [Express.Lit "classes"; Express.Par "classId"].
    destruct rest as [|c [|classId [|]]]; try discriminate.
    - cbn [Express.matchPath].
      destruct (Express.matchSegment (Express.Lit "classes") c); discriminate.
    - intros Hps. exists c, classId. split; [reflexivity|].
      cbn [Express.matchPath] in Hps.
      destruct (Express.matchSegment (Express.Lit "classes") c) eqn:E;
        [|discriminate Hps].
      unfold Express.matchSegment in E.
      change (Express.lowercase "classes") with "classes" in E.
      destruct (String.eqb_spec "classes" (Express.lowercase c)); [auto|discriminate E].
    - cbn [Express.matchPath].
      destruct (Express.matchSegment (Express.Lit "classes") c);
        destruct (Express.matchSegment (Express.Par "classId") classId);
        discriminate. }
  clear H Hn Hbefore Hh Ho. simpl in Hin.
  destruct Hin as [E|[E|[E|[E|[E|[E|[]]]]]]]; rewrite <- E in Hm, Hmatch |- *;
    cbn [Express.path Express.method Routes.get Routes.post Routes.put Routes.delete]
      in Hm, Hmatch |- *;
    try (split; [reflexivity|eapply Hclasses; eassumption]); exfalso; subst m.
  - apply matchPath_root in Hmatch. subst rest. discriminate Hshadow.
  - destruct (matchPath_one_parameter _ Hmatch) as (id & -> & Hid).
    cbn in Hshadow. rewrite Hid in Hshadow. discriminate Hshadow.
  - destruct (matchPath_one_parameter _ Hmatch) as (id & -> & Hid).
    cbn in Hshadow. rewrite Hid in Hshadow. discriminate Hshadow.
  - destruct (matchPath_one_parameter _ Hmatch) as (id & -> & Hid).
    cbn in Hshadow. rewrite Hid in Hshadow. discriminate Hshadow.
Qed.

Lemma X26_timetable_routes_under_classes_witness :
  Express.path
    (Express.matched
       (Express.handled "timetableRoutes" (Routes.post "/classes/:classId")
          [("classId", Sample.classB)]))
  = "/classes/:classId"
  /\ exists c classId,
       ["classes"; Sample.classB] = [c; classId] /\ Express.lowercase c = "classes".
Proof.
  apply (@X26_timetable_routes_under_classes Express.POST ["classes"; Sample.classB]).
  - reflexivity.
  - reflexivity.
Defined.

Section NoRoute.
Import Express.

Lemma matchPath_segments (p : list Segment) (segments : list string) (ps : Params) :
  matchPath p segments = Some ps ->
  Forall2 (fun x s => isSome (matchSegment x s) = true) p segments.
Proof.
  revert segments ps. induction p as [|x p IH]; intros [|s segments] ps; simpl;
    try discriminate; [constructor|].
  destruct (matchSegment x s) eqn:Ex; [|discriminate].
  destruct (matchPath p segments) eqn:Ep; [|discriminate].
  intros _. constructor; [now rewrite Ex|eauto].
Qed.

Lemma matchSegment_literal (text s : string) :
  isSome (matchSegment (Lit text) s) = true -> lowercase s = lowercase text.
Proof.
  simpl. destruct (String.eqb_spec (lowercase text) (lowercase s)); [auto|discriminate].
Qed.

End NoRoute.

(** X27.  [POST /classes/<classId>/timetable], the path the index names for
    the timetable router under [/classes], is handled by no route (unless
    the class id itself reads [classes]). *)
Theorem X27_post_classes_id_timetable_reaches_no_route (classId : string) :
  Express.lowercase classId <> "classes" ->
  Express.dispatch Routes.index Express.POST ["classes"; classId; "timetable"] = None.
Proof.
  intros Hne.
  destruct (Express.dispatch _ _ _) as [h|] eqn:H; [exfalso|reflexivity].
  destruct (dispatch_inv _ _ _ H) as (i & u & rest & Hn & Hp & Hh & _).
  destruct (handle_inv _ _ _ _ Hh) as (_ & Hin & Hm & Hmatch).
  apply matchPath_segments in Hmatch. clear H Hh.
  do 15 (destruct i as [|i];
         [simpl in Hn; injection Hn as <-; vm_compute in Hp;
          try discriminate Hp; injection Hp as <-; simpl in Hin;
          repeat (destruct Hin as [E|Hin];
                  [rewrite <- E in Hm, Hmatch; try discriminate Hm;
                   match type of Hmatch with
                   | Forall2 _ ?p _ =>
                       let p' := eval vm_compute in p in change p with p' in Hmatch
                   end;
                   repeat match goal with
                          | F : Forall2 _ _ _ |- _ => inversion F; clear F; subst
                          end;
                   repeat match goal with
                          | L : isSome (Express.matchSegment (Express.Lit _) _) = true |- _ =>
                              apply matchSegment_literal in L; vm_compute in L;
                              try discriminate L
                          end;
                   try (apply Hne; assumption)|]);
          try contradiction|]).
  destruct i; discriminate Hn.
Qed.

Lemma X27_post_classes_id_timetable_reaches_no_route_witness :
  Express.dispatch Routes.index Express.POST ["classes"; Sample.classB; "timetable"]
  = None.
Proof.
  apply (@X27_post_classes_id_timetable_reaches_no_route Sample.classB).
  vm_compute. discriminate.
Defined.
